(** * Fullstack-Authentication: the credential lifecycle, embedded in Rocq

    A shallow embedding of the Express/Mongoose authentication server:
    - models/User.js           (the user schema, its virtuals, hooks and methods),
    - controllers/authController.js (signup, verifyEmail, signin, ...),
    - middleware/auth.js       (extractToken, verifyToken, authMiddleware),
    - middleware/errorHandler.js, routes/auth.js, routes/protected.js.

    Conventions.
    - A JavaScript string is the list of its UTF-16 code units ([jsstring]).
    - A [Date] is its time value, milliseconds since the epoch, in [Z].
    - A request is handled at one instant [now] of an injected clock; the
      collection of users is threaded through the handlers explicitly.
    - A request body field is [undefined], [null] or a string ([JsValue]);
      values of other JavaScript types are outside the model.
    - The rate limiters of the routes are collaborators outside the
      model, and so are the two health routes, which read no user document.
    - The handlers by themselves are the subject of [handle], [run] and
      [Reachable]; the TTL indexes of the collection, through which the
      database removes documents on its own, come in with [step], [runDb]
      and [Deployed]. *)

From Stdlib Require Import List ZArith NArith Bool String Ascii Lia.
From Stdlib Require DecimalString.
Import ListNotations.

(* ------------------------------------------------------------------------- *)
(** ** JavaScript strings *)
(* ------------------------------------------------------------------------- *)

Module JsString.
Local Open Scope N_scope.

Definition jsstring : Type := list N.

(** The code units of an ASCII/Latin-1 literal. *)
Definition js (s : string) : jsstring :=
  map N_of_ascii (list_ascii_of_string s).

Fixpoint eqb (a b : jsstring) : bool :=
  match a, b with
  | [], [] => true
  | x :: a', y :: b' => (x =? y) && eqb a' b'
  | _, _ => false
  end.

(** Truthiness of a string value: only the empty string is falsy. *)
Definition truthy (s : jsstring) : bool :=
  match s with [] => false | _ :: _ => true end.

(** Truthiness of a possibly missing string: [undefined], [null] and the
    empty string are falsy. *)
Definition truthy_opt (o : option jsstring) : bool :=
  match o with Some s => truthy s | None => false end.

(** ECMAScript WhiteSpace and LineTerminator code points: what
    [String.prototype.trim] strips and what [\s] matches. *)
Definition isWhitespace (c : N) : bool :=
  ((9 <=? c) && (c <=? 13)) || (c =? 32) || (c =? 160) || (c =? 0x1680)
  || ((0x2000 <=? c) && (c <=? 0x200A))
  || (c =? 0x2028) || (c =? 0x2029) || (c =? 0x202F) || (c =? 0x205F)
  || (c =? 0x3000) || (c =? 0xFEFF).

Fixpoint trimStart (s : jsstring) : jsstring :=
  match s with
  | c :: s' => if isWhitespace c then trimStart s' else s
  | [] => []
  end.

Definition trimEnd (s : jsstring) : jsstring := rev (trimStart (rev s)).

(** [s.trim()] *)
Definition trim (s : jsstring) : jsstring := trimEnd (trimStart s).

(** [s.toLowerCase()] on one code unit.  The ASCII and Latin-1 capitals are
    mapped; the case mapping of code units above U+00FF is not modelled and
    they are left as they are. *)
Definition lowerUnit (c : N) : N :=
  if (65 <=? c) && (c <=? 90) then c + 32
  else if (0xC0 <=? c) && (c <=? 0xDE) && negb (c =? 0xD7) then c + 32
  else c.

Definition toLowerCase (s : jsstring) : jsstring := map lowerUnit s.

(** [/re/.test(s)] for a regular expression that is a single character
    class: some code unit of [s] is in the class. *)
Definition testClass (cls : N -> bool) (s : jsstring) : bool := existsb cls s.

(** UTF-8 encoding of a string, as Node does when a string is fed to a hash:
    surrogate pairs give four bytes, a lone surrogate gives U+FFFD. *)
Definition isHighSurrogate (c : N) : bool := (0xD800 <=? c) && (c <=? 0xDBFF).
Definition isLowSurrogate (c : N) : bool := (0xDC00 <=? c) && (c <=? 0xDFFF).

Definition utf8_of_codepoint (cp : N) : list N :=
  if cp <? 0x80 then [cp]
  else if cp <? 0x800 then
    [N.lor 0xC0 (N.shiftr cp 6); N.lor 0x80 (N.land cp 0x3F)]
  else if cp <? 0x10000 then
    [N.lor 0xE0 (N.shiftr cp 12);
     N.lor 0x80 (N.land (N.shiftr cp 6) 0x3F);
     N.lor 0x80 (N.land cp 0x3F)]
  else
    [N.lor 0xF0 (N.shiftr cp 18);
     N.lor 0x80 (N.land (N.shiftr cp 12) 0x3F);
     N.lor 0x80 (N.land (N.shiftr cp 6) 0x3F);
     N.lor 0x80 (N.land cp 0x3F)].

Fixpoint utf8 (s : jsstring) : list N :=
  match s with
  | [] => []
  | c :: s' =>
      if isHighSurrogate c then
        match s' with
        | d :: s'' =>
            if isLowSurrogate d then
              utf8_of_codepoint (0x10000 + (c - 0xD800) * 0x400 + (d - 0xDC00))
                ++ utf8 s''
            else utf8_of_codepoint 0xFFFD ++ utf8 s'
        | [] => utf8_of_codepoint 0xFFFD
        end
      else if isLowSurrogate c then utf8_of_codepoint 0xFFFD ++ utf8 s'
      else utf8_of_codepoint c ++ utf8 s'
  end.

End JsString.
Export JsString.

(* ------------------------------------------------------------------------- *)
(** ** SHA-256 (FIPS 180-4), as used by [crypto.createHash('sha256')] *)
(* ------------------------------------------------------------------------- *)

Module Sha256.
Local Open Scope N_scope.

Definition mask32 : N := 0xFFFFFFFF.
Definition add32 (a b : N) : N := N.land (a + b) mask32.
Definition rotr (n x : N) : N :=
  N.lor (N.shiftr x n) (N.land (N.shiftl x (32 - n)) mask32).
Definition shr (n x : N) : N := N.shiftr x n.
Definition not32 (x : N) : N := N.lxor x mask32.

Definition Ch (x y z : N) : N := N.lxor (N.land x y) (N.land (not32 x) z).
Definition Maj (x y z : N) : N :=
  N.lxor (N.lxor (N.land x y) (N.land x z)) (N.land y z).
Definition bigSigma0 (x : N) : N :=
  N.lxor (rotr 2 x) (N.lxor (rotr 13 x) (rotr 22 x)).
Definition bigSigma1 (x : N) : N :=
  N.lxor (rotr 6 x) (N.lxor (rotr 11 x) (rotr 25 x)).
Definition smallSigma0 (x : N) : N :=
  N.lxor (rotr 7 x) (N.lxor (rotr 18 x) (shr 3 x)).
Definition smallSigma1 (x : N) : N :=
  N.lxor (rotr 17 x) (N.lxor (rotr 19 x) (shr 10 x)).

(** Primality by trial division, and the first 64 primes. *)
Definition isPrime (n : nat) : bool :=
  Nat.ltb 1 n
  && forallb (fun d => negb (Nat.eqb (Nat.modulo n d) 0)) (seq 2 (n - 2)).

Definition primes : list N :=
  map N.of_nat (firstn 64 (filter isPrime (seq 2 310))).

(** The integer cube root, found bit by bit from the top. *)
Fixpoint cubeRootBits (bits : nat) (n acc : N) : N :=
  match bits with
  | O => acc
  | S b =>
      let candidate := acc + 2 ^ N.of_nat b in
      if candidate ^ 3 <=? n then cubeRootBits b n candidate
      else cubeRootBits b n acc
  end.

(** The first 32 bits of the fractional part of the cube root, and of the
    square root, of [p]. *)
Definition fracCubeRoot32 (p : N) : N :=
  N.land (cubeRootBits 40 (p * 2 ^ 96) 0) mask32.
Definition fracSquareRoot32 (p : N) : N :=
  N.land (N.sqrt (p * 2 ^ 64)) mask32.

(** The round constants: from the cube roots of the first 64 primes. *)
Definition K : list N := Eval vm_compute in map fracCubeRoot32 primes.

(** The eight working variables / the intermediate hash value. *)
Record state : Type := mkState
  { sa : N; sb : N; sc : N; sd : N; se : N; sf : N; sg : N; sh : N }.

(** The initial hash value: from the square roots of the first 8 primes. *)
Definition H0 : state :=
  Eval vm_compute in
    let r := map fracSquareRoot32 (firstn 8 primes) in
    mkState (nth 0 r 0) (nth 1 r 0) (nth 2 r 0) (nth 3 r 0)
            (nth 4 r 0) (nth 5 r 0) (nth 6 r 0) (nth 7 r 0).

(** Big-endian bytes of a number, [n] of them. *)
Fixpoint be_bytes (n : nat) (x : N) : list N :=
  match n with
  | O => []
  | S n' => N.land (N.shiftr x (8 * N.of_nat n')) 0xFF :: be_bytes n' x
  end.

Definition pad (msg : list N) : list N :=
  let len := N.of_nat (List.length msg) in
  let zeros := (64 - ((len + 9) mod 64)) mod 64 in
  msg ++ [0x80] ++ repeat 0 (N.to_nat zeros) ++ be_bytes 8 (8 * len).

Fixpoint words_of_bytes (n : nat) (bs : list N) : list N :=
  match n with
  | O => []
  | S n' =>
      match bs with
      | b0 :: b1 :: b2 :: b3 :: rest =>
          (N.shiftl b0 24 + N.shiftl b1 16 + N.shiftl b2 8 + b3)
            :: words_of_bytes n' rest
      | _ => []
      end
  end.

(** The message schedule, kept newest word first while it is extended. *)
Definition extend (rw : list N) : list N :=
  add32 (add32 (smallSigma1 (nth 1 rw 0)) (nth 6 rw 0))
        (add32 (smallSigma0 (nth 14 rw 0)) (nth 15 rw 0)) :: rw.

Definition schedule (block : list N) : list N :=
  rev (Nat.iter 48 extend (rev (words_of_bytes 16 block))).

Definition round (s : state) (kw : N * N) : state :=
  let t1 := add32 (add32 (add32 (sh s) (bigSigma1 (se s)))
                         (add32 (Ch (se s) (sf s) (sg s)) (fst kw))) (snd kw) in
  let t2 := add32 (bigSigma0 (sa s)) (Maj (sa s) (sb s) (sc s)) in
  mkState (add32 t1 t2) (sa s) (sb s) (sc s) (add32 (sd s) t1) (se s) (sf s) (sg s).

Definition compress (h : state) (block : list N) : state :=
  let r := fold_left round (combine K (schedule block)) h in
  mkState (add32 (sa h) (sa r)) (add32 (sb h) (sb r))
          (add32 (sc h) (sc r)) (add32 (sd h) (sd r))
          (add32 (se h) (se r)) (add32 (sf h) (sf r))
          (add32 (sg h) (sg r)) (add32 (sh h) (sh r)).

Fixpoint blocks (n : nat) (bs : list N) (h : state) : state :=
  match n with
  | O => h
  | S n' => blocks n' (skipn 64 bs) (compress h (firstn 64 bs))
  end.

Definition digest (msg : list N) : state :=
  let p := pad msg in
  blocks (List.length p / 64) p H0.

Definition hexDigit (d : N) : ascii :=
  ascii_of_N (if d <? 10 then 48 + d else 87 + d).

Fixpoint hex_nibbles (n : nat) (x : N) : string :=
  match n with
  | O => EmptyString
  | S n' =>
      String (hexDigit (N.land (N.shiftr x (4 * N.of_nat n')) 0xF))
             (hex_nibbles n' x)
  end.

Definition hexWord (x : N) : string := hex_nibbles 8 x.

(** [.digest('hex')]: 64 lower-case hexadecimal digits. *)
Definition hex (s : state) : string :=
  (hexWord (sa s) ++ hexWord (sb s) ++ hexWord (sc s) ++ hexWord (sd s)
   ++ hexWord (se s) ++ hexWord (sf s) ++ hexWord (sg s) ++ hexWord (sh s))%string.

Definition sha256hex (s : jsstring) : string := hex (digest (utf8 s)).

End Sha256.

(* ------------------------------------------------------------------------- *)
(** ** bcryptjs *)
(* ------------------------------------------------------------------------- *)

(** [bcryptjs] is a dependency of the server, not part of it.  A digest is
    represented by what determines it: the salt (with its cost) and the key
    bytes that are hashed, namely the UTF-8 bytes of the password followed
    by a NUL, cut at 72 bytes.  [compare] hashes the candidate with the
    salt stored in the digest and compares the results, as the library
    does; the Blowfish core itself is not unfolded.  The key is the
    library's for passwords of fewer than 72 ASCII characters without NUL;
    beyond them the library's own encoder and its cyclic reading of the
    key are not followed. *)
Module Bcrypt.

Record Salt : Type := mkSalt { rounds : N; saltBits : N }.
Record Digest : Type := mkDigest { digestSalt : Salt; digestKey : list N }.

Definition key (password : jsstring) : list N :=
  firstn 72 (utf8 password ++ [0%N]).

(** [bcrypt.genSalt(rounds)]; [entropy] is the random material drawn. *)
Definition genSalt (nrounds : N) (entropy : N) : Salt := mkSalt nrounds entropy.

(** [bcrypt.hash(password, salt)] *)
Definition hash (password : jsstring) (salt : Salt) : Digest :=
  mkDigest salt (key password).

Definition salt_eqb (a b : Salt) : bool :=
  N.eqb (rounds a) (rounds b) && N.eqb (saltBits a) (saltBits b).

Definition digest_eqb (a b : Digest) : bool :=
  salt_eqb (digestSalt a) (digestSalt b)
  && JsString.eqb (digestKey a) (digestKey b).

(** [bcrypt.compare(password, digest)] *)
Definition compare (password : jsstring) (d : Digest) : bool :=
  digest_eqb (hash password (digestSalt d)) d.

End Bcrypt.

(* ------------------------------------------------------------------------- *)
(** ** jsonwebtoken *)
(* ------------------------------------------------------------------------- *)

(** [jsonwebtoken] is a dependency as well.  A token that parses is
    represented by its payload and by the key its HS256 signature was made
    with: the signature verifies exactly under that key.  The base64url
    wire format is not modelled; a string that does not parse as a token is
    [Garbage].  Times in a payload are NumericDate values: whole seconds. *)
Module Jwt.
Local Open Scope Z_scope.

Record Payload : Type := mkPayload
  { id : N; email : jsstring; iat : Z; exp : Z }.

Inductive Token : Type :=
| Garbage (raw : jsstring)
| Signed (signingKey : jsstring) (payload : Payload).

Inductive VerifyError : Type :=
| TokenExpiredError
| JsonWebTokenError
| OtherError.

(** [Math.floor(Date.now() / 1000)] *)
Definition clockTimestamp (now : Z) : Z := now / 1000.

(** [jwt.sign({ id, email }, secret, { expiresIn })] with [expiresIn] in
    seconds.  Without a secret the library throws ([None]). *)
Definition sign (uid : N) (mail : jsstring) (secret : option jsstring)
    (expiresIn : Z) (now : Z) : option Token :=
  match secret with
  | Some k =>
      if truthy k then
        let timestamp := clockTimestamp now in
        Some (Signed k (mkPayload uid mail timestamp (timestamp + expiresIn)))
      else None
  | None => None
  end.

(** [jwt.verify(token, secret)]: parse, check the signature, then the
    expiry ([clockTimestamp >= payload.exp] is expired). *)
Definition verify (token : Token) (secret : option jsstring) (now : Z)
    : Payload + VerifyError :=
  match token with
  | Garbage _ => inr JsonWebTokenError
  | Signed k payload =>
      match secret with
      | Some k' =>
          if truthy k' && JsString.eqb k k' then
            if exp payload <=? clockTimestamp now then inr TokenExpiredError
            else inl payload
          else inr JsonWebTokenError
      | None => inr JsonWebTokenError
      end
  end.

End Jwt.

(* ------------------------------------------------------------------------- *)
(** ** The process environment and the per-request environment *)
(* ------------------------------------------------------------------------- *)

Local Open Scope string_scope.
Local Open Scope list_scope.
Local Open Scope Z_scope.

Inductive NodeEnv : Type := Production | Development | OtherNodeEnv.

(** [process.env], the variables the server reads.  Numeric variables are
    given by their value under [Number(...)] ([None] when unset or not a
    number); [JWT_EXPIRES_IN], a time span written as a string ([7d] when
    unset), is given by the whole seconds [jsonwebtoken] takes from it:
    the milliseconds it reads, divided by 1000 and rounded down.  A string
    it cannot read, on which [jwt.sign] throws, is not represented. *)
Record ProcessEnv : Type := mkProcessEnv
  { NODE_ENV : NodeEnv;
    JWT_SECRET : option jsstring;
    ENV_CODE_LENGTH : option Z;
    ENV_EMAIL_CODE_EXPIRES_MIN : option Z;
    ENV_JWT_EXPIRES_IN : option Z }.

(** [Number(v) || d] *)
Definition numberOr (v : option Z) (d : Z) : Z :=
  match v with
  | Some n => if n =? 0 then d else n
  | None => d
  end.

(** The controller's [CONFIG] constants. *)
Definition CODE_LENGTH (pe : ProcessEnv) : Z := numberOr (ENV_CODE_LENGTH pe) 6.
Definition CODE_EXPIRES_MIN (pe : ProcessEnv) : Z :=
  numberOr (ENV_EMAIL_CODE_EXPIRES_MIN pe) 15.
Definition BCRYPT_SALT_ROUNDS : N := 12%N.
Definition JWT_EXPIRES_IN (pe : ProcessEnv) : Z :=
  match ENV_JWT_EXPIRES_IN pe with
  | Some n => n
  | None => 7 * 24 * 60 * 60
  end.

Definition isProduction (pe : ProcessEnv) : bool :=
  match NODE_ENV pe with Production => true | _ => false end.

Definition isDevelopment (pe : ProcessEnv) : bool :=
  match NODE_ENV pe with Development => true | _ => false end.

(** What one request draws from the outside world: the clock, the values
    [Math.floor(Math.random() * 10)] takes at successive calls, the salt
    material of [bcrypt.genSalt], and whether the mail transport delivers
    the message or throws. *)
Record World : Type := mkWorld
  { now : Z;
    randomDigit : nat -> N;
    saltEntropy : N;
    mailDelivers : bool }.

(* ------------------------------------------------------------------------- *)
(** ** JSON values sent in responses *)
(* ------------------------------------------------------------------------- *)

#[warnings="-register-all"]
Inductive JSON : Type :=
| JNull
| JBool (b : bool)
| JNum (n : Z)
| JStr (s : jsstring)
| JHex (s : string)
| JId (oid : N)
| JDate (ms : Z)
| JDigest (d : Bcrypt.Digest)
| JToken (t : Jwt.Token)
| JObj (fields : list (string * JSON)).

(** The keys of an object, in order ([Object.keys]). *)
Definition keys (v : JSON) : list string :=
  match v with
  | JObj fields => map fst fields
  | _ => []
  end.

Fixpoint assoc (k : string) (fields : list (string * JSON)) : option JSON :=
  match fields with
  | [] => None
  | (k', v) :: rest => if String.eqb k k' then Some v else assoc k rest
  end.

(** [v[k]], with [None] for [undefined]. *)
Definition field (k : string) (v : JSON) : option JSON :=
  match v with
  | JObj fields => assoc k fields
  | _ => None
  end.

Definition hasKey (k : string) (v : JSON) : bool :=
  existsb (String.eqb k) (keys v).

(** [delete ret[k]] *)
Definition deleteKey (k : string) (fields : list (string * JSON))
    : list (string * JSON) :=
  filter (fun kv => negb (String.eqb k (fst kv))) fields.

Definition optJSON {A : Type} (f : A -> JSON) (o : option A) : JSON :=
  match o with Some a => f a | None => JNull end.

(** A property whose value is [undefined] is left out of the JSON text. *)
Definition definedField {A : Type} (k : string) (f : A -> JSON) (o : option A)
    : list (string * JSON) :=
  match o with Some a => [(k, f a)] | None => [] end.

Record Response : Type := mkResponse { status : Z; body : JSON }.

(** [res.status(code).json({ error: msg })] and
    [res.status(code).json({ message: msg })] *)
Definition errorResponse (code : Z) (msg : string) : Response :=
  mkResponse code (JObj [("error", JStr (js msg))]).
Definition messageResponse (code : Z) (msg : string) : Response :=
  mkResponse code (JObj [("message", JStr (js msg))]).

(* ------------------------------------------------------------------------- *)
(** ** models/User.js *)
(* ------------------------------------------------------------------------- *)

Module UserModel.

(** [emailVerificationSchema] and [passwordResetSchema] have the same shape. *)
Record PendingCode : Type := mkPendingCode
  { codeHash : string; expiresAt : Z }.

Record Profile : Type := mkProfile
  { firstName : option jsstring;
    lastName : option jsstring;
    avatar : option jsstring }.

(** A document of the [User] collection.  [name] is [None] for [null];
    the dates [lastLogin] and [lockUntil] are [None] for [null];
    the sub-documents are [None] for [undefined]. *)
Record User : Type := mkUser
  { _id : N;
    email : jsstring;
    passwordHash : Bcrypt.Digest;
    name : option jsstring;
    emailVerified : bool;
    emailVerification : option PendingCode;
    passwordReset : option PendingCode;
    profile : Profile;
    lastLogin : option Z;
    loginAttempts : Z;
    accountLocked : bool;
    lockUntil : option Z;
    isActive : bool;
    createdAt : Z;
    updatedAt : Z }.

(** Assignments to the paths of a document. *)
Definition set_passwordHash (v : Bcrypt.Digest) (u : User) : User :=
  mkUser (_id u) (email u) v (name u) (emailVerified u) (emailVerification u)
    (passwordReset u) (profile u) (lastLogin u) (loginAttempts u)
    (accountLocked u) (lockUntil u) (isActive u) (createdAt u) (updatedAt u).
Definition set_name (v : option jsstring) (u : User) : User :=
  mkUser (_id u) (email u) (passwordHash u) v (emailVerified u)
    (emailVerification u) (passwordReset u) (profile u) (lastLogin u)
    (loginAttempts u) (accountLocked u) (lockUntil u) (isActive u)
    (createdAt u) (updatedAt u).
Definition set_emailVerified (v : bool) (u : User) : User :=
  mkUser (_id u) (email u) (passwordHash u) (name u) v (emailVerification u)
    (passwordReset u) (profile u) (lastLogin u) (loginAttempts u)
    (accountLocked u) (lockUntil u) (isActive u) (createdAt u) (updatedAt u).
Definition set_emailVerification (v : option PendingCode) (u : User) : User :=
  mkUser (_id u) (email u) (passwordHash u) (name u) (emailVerified u) v
    (passwordReset u) (profile u) (lastLogin u) (loginAttempts u)
    (accountLocked u) (lockUntil u) (isActive u) (createdAt u) (updatedAt u).
Definition set_passwordReset (v : option PendingCode) (u : User) : User :=
  mkUser (_id u) (email u) (passwordHash u) (name u) (emailVerified u)
    (emailVerification u) v (profile u) (lastLogin u) (loginAttempts u)
    (accountLocked u) (lockUntil u) (isActive u) (createdAt u) (updatedAt u).
Definition set_profile (v : Profile) (u : User) : User :=
  mkUser (_id u) (email u) (passwordHash u) (name u) (emailVerified u)
    (emailVerification u) (passwordReset u) v (lastLogin u) (loginAttempts u)
    (accountLocked u) (lockUntil u) (isActive u) (createdAt u) (updatedAt u).
Definition set_lastLogin (v : option Z) (u : User) : User :=
  mkUser (_id u) (email u) (passwordHash u) (name u) (emailVerified u)
    (emailVerification u) (passwordReset u) (profile u) v (loginAttempts u)
    (accountLocked u) (lockUntil u) (isActive u) (createdAt u) (updatedAt u).
Definition set_loginAttempts (v : Z) (u : User) : User :=
  mkUser (_id u) (email u) (passwordHash u) (name u) (emailVerified u)
    (emailVerification u) (passwordReset u) (profile u) (lastLogin u) v
    (accountLocked u) (lockUntil u) (isActive u) (createdAt u) (updatedAt u).
Definition set_accountLocked (v : bool) (u : User) : User :=
  mkUser (_id u) (email u) (passwordHash u) (name u) (emailVerified u)
    (emailVerification u) (passwordReset u) (profile u) (lastLogin u)
    (loginAttempts u) v (lockUntil u) (isActive u) (createdAt u) (updatedAt u).
Definition set_lockUntil (v : option Z) (u : User) : User :=
  mkUser (_id u) (email u) (passwordHash u) (name u) (emailVerified u)
    (emailVerification u) (passwordReset u) (profile u) (lastLogin u)
    (loginAttempts u) (accountLocked u) v (isActive u) (createdAt u)
    (updatedAt u).
Definition set_isActive (v : bool) (u : User) : User :=
  mkUser (_id u) (email u) (passwordHash u) (name u) (emailVerified u)
    (emailVerification u) (passwordReset u) (profile u) (lastLogin u)
    (loginAttempts u) (accountLocked u) (lockUntil u) v (createdAt u)
    (updatedAt u).
Definition set_updatedAt (v : Z) (u : User) : User :=
  mkUser (_id u) (email u) (passwordHash u) (name u) (emailVerified u)
    (emailVerification u) (passwordReset u) (profile u) (lastLogin u)
    (loginAttempts u) (accountLocked u) (lockUntil u) (isActive u)
    (createdAt u) v.

(** *** Schema setters and validators *)

(** The [trim: true] setter of a String path. *)
Definition castTrimmed (v : option jsstring) : option jsstring :=
  option_map trim v.

(** The [lowercase: true, trim: true] setters of [email]. *)
Definition castEmail (v : jsstring) : jsstring := trim (toLowerCase v).

Definition castProfile (p : Profile) : Profile :=
  mkProfile (castTrimmed (firstName p)) (castTrimmed (lastName p))
            (castTrimmed (avatar p)).

(** [user.name = v] and [user.profile = p] go through the setters. *)
Definition assign_name (v : option jsstring) (u : User) : User :=
  set_name (castTrimmed v) u.
Definition assign_profile (p : Profile) (u : User) : User :=
  set_profile (castProfile p) u.

Definition exceeds (limit : nat) (v : option jsstring) : bool :=
  match v with
  | Some s => Nat.ltb limit (List.length s)
  | None => false
  end.

(** The [maxLength] validators; each failure is the path and its limit.
    ([email] and [passwordHash] are required and [email] must match the
    schema's pattern: every document the handlers build meets these.) *)
Definition validate (u : User) : list (string * Z) :=
  (if exceeds 100 (name u) then [("name", 100)] else [])
  ++ (if exceeds 50 (firstName (profile u))
      then [("profile.firstName", 50)] else [])
  ++ (if exceeds 50 (lastName (profile u))
      then [("profile.lastName", 50)] else []).

(** *** Virtuals *)

Definition fullName (u : User) : jsstring :=
  match firstName (profile u), lastName (profile u) with
  | Some f, Some l =>
      if truthy f && truthy l then f ++ js " " ++ l
      else match name u with Some n => n | None => [] end
  | _, _ => match name u with Some n => n | None => [] end
  end.

(** [!!(this.accountLocked && this.lockUntil && this.lockUntil > Date.now())] *)
Definition isLocked (now : Z) (u : User) : bool :=
  accountLocked u &&
  match lockUntil u with
  | Some t => now <? t
  | None => false
  end.

(** [isAccountLocked()] returns the same conjunction without [!!]; its
    truthiness is given. *)
Definition isAccountLocked (now : Z) (u : User) : bool :=
  accountLocked u &&
  match lockUntil u with
  | Some t => now <? t
  | None => false
  end.

(** *** The pre-save hook *)

Definition expiredAt (now : Z) (c : option PendingCode) : bool :=
  match c with
  | Some pc => expiresAt pc <? now
  | None => false
  end.

Definition preSave (now : Z) (u : User) : User :=
  let u1 := set_updatedAt now u in
  let u2 := if expiredAt now (emailVerification u1)
            then set_emailVerification None u1 else u1 in
  if expiredAt now (passwordReset u2)
  then set_passwordReset None u2 else u2.

(** *** The collection *)

Definition Store : Type := list User.

Inductive SaveError : Type :=
| ValidationError (errors : list (string * Z))
| DuplicateKeyError.

Definition byEmail (e : jsstring) (u : User) : bool := JsString.eqb (email u) e.
Definition byId (i : N) (u : User) : bool := N.eqb (_id u) i.

(** [User.findOne({ email })] and [User.findById(id)] *)
Definition findOne (e : jsstring) (s : Store) : option User := find (byEmail e) s.
Definition findById (i : N) (s : Store) : option User := find (byId i) s.

Fixpoint replaceById (u : User) (s : Store) : Store :=
  match s with
  | [] => []
  | v :: s' => if byId (_id u) v then u :: s' else v :: replaceById u s'
  end.

(** [doc.save()] on a document read from the collection: validation, the
    pre-save hook, then the update of the stored document with that [_id].
    The saved document is returned with the store. *)
Definition save (now : Z) (u : User) (s : Store) : (User * Store) + SaveError :=
  match validate u with
  | [] => let u' := preSave now u in inl (u', replaceById u' s)
  | errs => inr (ValidationError errs)
  end.

(** ObjectIds are unique by construction; a new document takes the
    successor of the largest [_id] in the collection. *)
Definition freshId (s : Store) : N :=
  N.succ (fold_right N.max 0%N (map _id s)).

(** [doc.save()] on a new document: an insert, refused by the unique index
    on [email] when a document with that email is stored. *)
Definition saveNew (now : Z) (u : User) (s : Store) : (User * Store) + SaveError :=
  match validate u with
  | [] =>
      let u' := preSave now u in
      if existsb (byEmail (email u')) s then inr DuplicateKeyError
      else inl (u', s ++ [u'])
  | errs => inr (ValidationError errs)
  end.

(** [new User({ email, passwordHash, name, emailVerified: false,
    emailVerification })], the other paths at their schema defaults. *)
Definition newUser (s : Store) (now : Z) (mail : jsstring)
    (pw : Bcrypt.Digest) (nm : option jsstring) (code : PendingCode) : User :=
  mkUser (freshId s) (castEmail mail) pw (castTrimmed nm) false (Some code)
         None (mkProfile None None None) None 0 false None true now now.

(** *** Instance methods *)

Definition incrementLoginAttempts (now : Z) (u : User) (s : Store)
    : (User * Store) + SaveError :=
  let maxAttempts := 5 in
  let lockTime := 30 * 60 * 1000 in
  let u1 := set_loginAttempts (loginAttempts u + 1) u in
  let u2 := if maxAttempts <=? loginAttempts u1
            then set_lockUntil (Some (now + lockTime)) (set_accountLocked true u1)
            else u1 in
  save now u2 s.

Definition resetLoginAttempts (now : Z) (u : User) (s : Store)
    : (User * Store) + SaveError :=
  save now
    (set_lastLogin (Some now)
      (set_lockUntil None (set_accountLocked false (set_loginAttempts 0 u)))) s.

Definition profileJSON (p : Profile) : JSON :=
  JObj (definedField "firstName" JStr (firstName p)
        ++ definedField "lastName" JStr (lastName p)
        ++ definedField "avatar" JStr (avatar p)).

Definition toSafeObject (u : User) : JSON :=
  JObj [("id", JId (_id u));
        ("email", JStr (email u));
        ("name", optJSON JStr (name u));
        ("fullName", JStr (fullName u));
        ("emailVerified", JBool (emailVerified u));
        ("profile", profileJSON (profile u));
        ("lastLogin", optJSON JDate (lastLogin u));
        ("isActive", JBool (isActive u));
        ("createdAt", JDate (createdAt u));
        ("updatedAt", JDate (updatedAt u))].

(** *** Static methods *)

(** [User.findByEmail(email)]: only active users. *)
Definition findByEmail (mail : jsstring) (s : Store) : option User :=
  find (fun u => byEmail (trim (toLowerCase mail)) u && isActive u) s.

(** [User.cleanupExpiredCodes()]: an [updateMany] over the documents one of
    whose two codes has an [expiresAt] before now; it unsets both codes of
    each, and the [timestamps] option stamps [updatedAt].  No save hook or
    validator runs. *)
Definition hasExpiredCode (now : Z) (u : User) : bool :=
  expiredAt now (emailVerification u) || expiredAt now (passwordReset u).

Definition unsetCodes (now : Z) (u : User) : User :=
  set_updatedAt now (set_passwordReset None (set_emailVerification None u)).

Definition cleanupExpiredCodes (now : Z) (s : Store) : Store :=
  map (fun u => if hasExpiredCode now u then unsetCodes now u else u) s.

(** *** The TTL indexes *)

(** Both code sub-schemas declare [index: { expireAfterSeconds: 0 }] on
    [expiresAt]: TTL indexes on [emailVerification.expiresAt] and on
    [passwordReset.expiresAt].  Under them the database removes the whole
    document once a date it still holds on one of these paths has passed.
    The removal is the work of a background task: it comes at some instant
    [t] after the date, and only if the code is still stored then. *)
Definition dueAt (t : Z) (c : option PendingCode) : bool :=
  match c with
  | Some pc => expiresAt pc <? t
  | None => false
  end.

Definition ttlDue (t : Z) (u : User) : bool :=
  dueAt t (emailVerification u) || dueAt t (passwordReset u).

(** The background task at [t], coming upon the document [i]. *)
Definition ttlDelete (t : Z) (i : N) (s : Store) : Store :=
  filter (fun u => negb (byId i u && ttlDue t u)) s.

(** *** JSON serialization *)

Definition pendingJSON (c : PendingCode) : JSON :=
  JObj [("codeHash", JHex (codeHash c)); ("expiresAt", JDate (expiresAt c))].

(** With the default [minimize] option an empty nested object is left out. *)
Definition minimized (k : string) (v : JSON) : list (string * JSON) :=
  match v with
  | JObj [] => []
  | _ => [(k, v)]
  end.

(** [doc.toObject({ virtuals: true })]: the stored paths, then the virtuals
    ([id] is the virtual Mongoose adds to every schema). *)
Definition toObject (now : Z) (u : User) : list (string * JSON) :=
  ([("_id", JId (_id u));
    ("email", JStr (email u));
    ("passwordHash", JDigest (passwordHash u));
    ("name", optJSON JStr (name u));
    ("emailVerified", JBool (emailVerified u))]
   ++ definedField "emailVerification" pendingJSON (emailVerification u)
   ++ definedField "passwordReset" pendingJSON (passwordReset u)
   ++ minimized "profile" (profileJSON (profile u))
   ++ [("lastLogin", optJSON JDate (lastLogin u));
       ("loginAttempts", JNum (loginAttempts u));
       ("accountLocked", JBool (accountLocked u));
       ("lockUntil", optJSON JDate (lockUntil u));
       ("isActive", JBool (isActive u));
       ("createdAt", JDate (createdAt u));
       ("updatedAt", JDate (updatedAt u));
       ("fullName", JStr (fullName u));
       ("isLocked", JBool (isLocked now u));
       ("id", JId (_id u))]).

(** The [toJSON] option: [virtuals: true] and the [transform] that deletes
    six keys of [ret]. *)
Definition toJSON_transform (ret : list (string * JSON)) : list (string * JSON) :=
  deleteKey "lockUntil"
    (deleteKey "accountLocked"
      (deleteKey "loginAttempts"
        (deleteKey "passwordReset"
          (deleteKey "emailVerification"
            (deleteKey "passwordHash" ret))))).

Definition toJSON (now : Z) (u : User) : JSON :=
  JObj (toJSON_transform (toObject now u)).

End UserModel.
Export UserModel.

(* ------------------------------------------------------------------------- *)
(** ** Requests *)
(* ------------------------------------------------------------------------- *)

Inductive JsValue : Type :=
| JsUndefined
| JsNull
| JsString (s : jsstring).

(** The string a truthy value holds: [!v] is [false] exactly then. *)
Definition truthyStr (v : JsValue) : option jsstring :=
  match v with
  | JsString s => if truthy s then Some s else None
  | _ => None
  end.

(** [v?.trim()], with [None] for [undefined]. *)
Definition optTrim (v : JsValue) : option jsstring :=
  match v with
  | JsString s => Some (trim s)
  | _ => None
  end.

(** [a || b] on optional strings. *)
Definition orElse (a b : option jsstring) : option jsstring :=
  if truthy_opt a then a else b.

Module Req.

(** [req.body.profile] *)
Record ProfileBody : Type := mkProfileBody
  { firstName : JsValue; lastName : JsValue; avatar : JsValue }.

(** [req.body]: the fields the handlers read. *)
Record Body : Type := mkBody
  { email : JsValue;
    password : JsValue;
    name : JsValue;
    code : JsValue;
    newPassword : JsValue;
    profile : option ProfileBody }.

(** The [Authorization] header: [Bearer] followed by a space and a token
    ([None] when nothing follows the space), or anything else. *)
Inductive Authorization : Type :=
| Bearer (token : option Jwt.Token)
| OtherScheme (raw : jsstring).

(** The parts of a request the authentication middleware reads. *)
Record Credentials : Type := mkCredentials
  { authorization : option Authorization;
    cookieToken : option Jwt.Token }.

End Req.

(* ------------------------------------------------------------------------- *)
(** ** config/mailer.js, as seen by the controller *)
(* ------------------------------------------------------------------------- *)

(** [await sendMail(...)] resolves ([true]) or throws ([false]). *)
Definition sendVerificationEmail (w : World) (userEmail code : jsstring) : bool :=
  mailDelivers w.
Definition sendResetEmail (w : World) (userEmail code : jsstring) : bool :=
  mailDelivers w.

(* ------------------------------------------------------------------------- *)
(** ** controllers/authController.js *)
(* ------------------------------------------------------------------------- *)

Module AuthController.

(** *** Utility functions *)

Definition digitChar (d : N) : N := (48 + d mod 10)%N.

(** [generateNumericCode(length)]: one draw of the random source per digit. *)
Definition generateNumericCode (w : World) (length : Z) : jsstring :=
  map (fun i => digitChar (randomDigit w i)) (seq 0 (Z.to_nat length)).

Definition hashCode (code : jsstring) : string := Sha256.sha256hex code.

(** [addMinutes(date, minutes)] on time values.  A [Date] holds time values
    up to 8.64e15 milliseconds either side of the epoch; beyond them the
    result is an invalid date, which is not represented. *)
Definition addMinutes (date minutes : Z) : Z := date + minutes * 60000.

(** [[^\s@]] *)
Definition emailChar (c : N) : bool := negb (isWhitespace c) && negb (N.eqb c 64).

Fixpoint spanEmailChars (s : jsstring) : jsstring * jsstring :=
  match s with
  | c :: s' =>
      if emailChar c then
        let (a, b) := spanEmailChars s' in (c :: a, b)
      else ([], s)
  | [] => ([], [])
  end.

(** [/^[^\s@]+@[^\s@]+\.[^\s@]+$/.test(email)]: a non-empty run of
    [emailChar]s, an [@], and a run of [emailChar]s to the end of the
    string that has a dot strictly inside it. *)
Definition isValidEmail (mail : jsstring) : bool :=
  match spanEmailChars mail with
  | (_ :: _, at_ :: domain) =>
      N.eqb at_ 64 && forallb emailChar domain
      && existsb (N.eqb 46) (removelast (tl domain))
  | _ => false
  end.

Record PasswordValidation : Type := mkValidation
  { isValid : bool; message : option string }.

Definition isUpper (c : N) : bool := (65 <=? c)%N && (c <=? 90)%N.
Definition isLower (c : N) : bool := (97 <=? c)%N && (c <=? 122)%N.
Definition isDigit (c : N) : bool := (48 <=? c)%N && (c <=? 57)%N.
(** The class of the fourth test: the characters ! @ # $ % ^ & * ( ) , . ?
    : { } | < > and the double quote (code unit 34). *)
Definition specialChars : jsstring :=
  js "!@#$%^&*(),.?" ++ [34%N] ++ js ":{}|<>".
Definition isSpecialChar (c : N) : bool := existsb (N.eqb c) specialChars.

Definition lengthMessage : string :=
  "Password must be at least 8 characters long".
Definition classesMessage : string :=
  "Password must contain at least one uppercase letter, one lowercase letter, one number, and one special character".

Definition validatePassword (password : jsstring) : PasswordValidation :=
  if negb (truthy password) || Nat.ltb (List.length password) 8 then
    mkValidation false (Some lengthMessage)
  else
    let hasUpperCase := testClass isUpper password in
    let hasLowerCase := testClass isLower password in
    let hasNumbers := testClass isDigit password in
    let hasSpecialChar := testClass isSpecialChar password in
    if negb hasUpperCase || negb hasLowerCase || negb hasNumbers
       || negb hasSpecialChar then
      mkValidation false (Some classesMessage)
    else mkValidation true None.

(** [res.status(400).json({ error: passwordValidation.message })] *)
Definition validationResponse (v : PasswordValidation) : Response :=
  mkResponse 400
    (JObj (definedField "error" (fun m => JStr (js m)) (message v))).

(** [email.toLowerCase().trim()] *)
Definition normalizeEmail (mail : jsstring) : jsstring := trim (toLowerCase mail).

(** [name?.trim() || null] *)
Definition trimOrNull (v : JsValue) : option jsstring := orElse (optTrim v) None.

(** [!h] for a stored hash string *)
Definition emptyString (h : string) : bool :=
  match h with EmptyString => true | String _ _ => false end.

Definition invalidEmailResponse : Response :=
  errorResponse 400 "Please provide a valid email address".

(** *** Controller functions *)

Definition signup (pe : ProcessEnv) (w : World) (b : Req.Body) (s : Store)
    : Response * Store :=
  match truthyStr (Req.email b), truthyStr (Req.password b) with
  | Some mail, Some password =>
      if negb (isValidEmail mail) then (invalidEmailResponse, s)
      else
        let passwordValidation := validatePassword password in
        if negb (isValid passwordValidation)
        then (validationResponse passwordValidation, s)
        else
          let normalizedEmail := normalizeEmail mail in
          match findOne normalizedEmail s with
          | Some _ =>
              (errorResponse 409 "An account with this email already exists", s)
          | None =>
              let salt := Bcrypt.genSalt BCRYPT_SALT_ROUNDS (saltEntropy w) in
              let pwHash := Bcrypt.hash password salt in
              let verificationCode := generateNumericCode w (CODE_LENGTH pe) in
              let cHash := hashCode verificationCode in
              let expires := addMinutes (now w) (CODE_EXPIRES_MIN pe) in
              let user := newUser s (now w) normalizedEmail pwHash
                            (trimOrNull (Req.name b))
                            (mkPendingCode cHash expires) in
              match saveNew (now w) user s with
              | inr _ =>
                  (errorResponse 500 "Failed to create account. Please try again.", s)
              | inl (_, s') =>
                  if sendVerificationEmail w normalizedEmail verificationCode then
                    (messageResponse 201
                       "Account created successfully. Please check your email for verification code.",
                     s')
                  else if negb (isProduction pe) then
                    (mkResponse 201
                       (JObj [("message",
                               JStr (js "Account created successfully (email delivery failed in development)."));
                              ("devVerificationCode", JStr verificationCode)]),
                     s')
                  else
                    (errorResponse 500
                       "Account created but failed to send verification email. Please contact support.",
                     s')
              end
          end
  | _, _ => (errorResponse 400 "Email and password are required", s)
  end.

Definition verifyEmail (pe : ProcessEnv) (w : World) (b : Req.Body) (s : Store)
    : Response * Store :=
  match truthyStr (Req.email b), truthyStr (Req.code b) with
  | Some mail, Some code =>
      if negb (isValidEmail mail) then (invalidEmailResponse, s)
      else
        match findOne (normalizeEmail mail) s with
        | None => (errorResponse 400 "Invalid email or verification code", s)
        | Some user =>
            if emailVerified user
            then (errorResponse 400 "Email is already verified", s)
            else
              match emailVerification user with
              | None =>
                  (errorResponse 400
                     "No verification code found. Please request a new one.", s)
              | Some pending =>
                  if emptyString (codeHash pending) then
                    (errorResponse 400
                       "No verification code found. Please request a new one.", s)
                  else if expiresAt pending <? now w then
                    (errorResponse 400
                       "Verification code has expired. Please request a new one.", s)
                  else if negb (String.eqb (hashCode (trim code)) (codeHash pending))
                  then (errorResponse 400 "Invalid verification code", s)
                  else
                    match save (now w)
                            (set_emailVerification None
                               (set_emailVerified true user)) s with
                    | inl (_, s') =>
                        (messageResponse 200
                           "Email verified successfully! You can now sign in.", s')
                    | inr _ =>
                        (errorResponse 500
                           "Failed to verify email. Please try again.", s)
                    end
              end
        end
  | _, _ => (errorResponse 400 "Email and verification code are required", s)
  end.

(** The [user] object of the sign-in response. *)
Definition signinUser (user : User) : JSON :=
  JObj [("id", JId (_id user));
        ("email", JStr (UserModel.email user));
        ("name", optJSON JStr (UserModel.name user));
        ("emailVerified", JBool (emailVerified user))].

Definition signin (pe : ProcessEnv) (w : World) (b : Req.Body) (s : Store)
    : Response * Store :=
  match truthyStr (Req.email b), truthyStr (Req.password b) with
  | Some mail, Some password =>
      if negb (isValidEmail mail) then (invalidEmailResponse, s)
      else
        match findOne (normalizeEmail mail) s with
        | None => (errorResponse 401 "Invalid email or password", s)
        | Some user =>
            if negb (Bcrypt.compare password (passwordHash user))
            then (errorResponse 401 "Invalid email or password", s)
            else if negb (emailVerified user)
            then (errorResponse 403 "Please verify your email before signing in", s)
            else
              match Jwt.sign (_id user) (UserModel.email user) (JWT_SECRET pe)
                      (JWT_EXPIRES_IN pe) (now w) with
              | None => (errorResponse 500 "Failed to sign in. Please try again.", s)
              | Some token =>
                  match save (now w) (set_lastLogin (Some (now w)) user) s with
                  | inr _ =>
                      (errorResponse 500 "Failed to sign in. Please try again.", s)
                  | inl (saved, s') =>
                      (mkResponse 200
                         (JObj [("message", JStr (js "Signed in successfully"));
                                ("token", JToken token);
                                ("user", signinUser saved)]),
                       s')
                  end
              end
        end
  | _, _ => (errorResponse 400 "Email and password are required", s)
  end.

Definition resendVerification (pe : ProcessEnv) (w : World) (b : Req.Body)
    (s : Store) : Response * Store :=
  match truthyStr (Req.email b) with
  | None => (errorResponse 400 "Email is required", s)
  | Some mail =>
      if negb (isValidEmail mail) then (invalidEmailResponse, s)
      else
        let normalizedEmail := normalizeEmail mail in
        match findOne normalizedEmail s with
        | None => (errorResponse 404 "No account found with this email address", s)
        | Some user =>
            if emailVerified user
            then (errorResponse 400 "Email is already verified", s)
            else
              let verificationCode := generateNumericCode w (CODE_LENGTH pe) in
              let cHash := hashCode verificationCode in
              let expires := addMinutes (now w) (CODE_EXPIRES_MIN pe) in
              match save (now w)
                      (set_emailVerification (Some (mkPendingCode cHash expires))
                         user) s with
              | inr _ =>
                  (errorResponse 500
                     "Failed to resend verification code. Please try again.", s)
              | inl (_, s') =>
                  if sendVerificationEmail w normalizedEmail verificationCode
                  then (messageResponse 200 "Verification code sent to your email", s')
                  else
                    (errorResponse 500
                       "Failed to resend verification code. Please try again.", s')
              end
        end
  end.

Definition successMessage : string :=
  "If an account with this email exists, a password reset code has been sent.".

Definition forgotPassword (pe : ProcessEnv) (w : World) (b : Req.Body)
    (s : Store) : Response * Store :=
  match truthyStr (Req.email b) with
  | None => (errorResponse 400 "Email is required", s)
  | Some mail =>
      if negb (isValidEmail mail) then (invalidEmailResponse, s)
      else
        let normalizedEmail := normalizeEmail mail in
        match findOne normalizedEmail s with
        | None => (messageResponse 200 successMessage, s)
        | Some user =>
            let resetCode := generateNumericCode w (CODE_LENGTH pe) in
            let cHash := hashCode resetCode in
            let expires := addMinutes (now w) (CODE_EXPIRES_MIN pe) in
            match save (now w)
                    (set_passwordReset (Some (mkPendingCode cHash expires)) user)
                    s with
            | inr _ =>
                (errorResponse 500
                   "Failed to process password reset request. Please try again.", s)
            | inl (_, s') =>
                if sendResetEmail w normalizedEmail resetCode
                then (messageResponse 200 successMessage, s')
                else
                  (errorResponse 500
                     "Failed to process password reset request. Please try again.",
                   s')
            end
        end
  end.

Definition resetPassword (pe : ProcessEnv) (w : World) (b : Req.Body)
    (s : Store) : Response * Store :=
  match truthyStr (Req.email b), truthyStr (Req.code b),
        truthyStr (Req.newPassword b) with
  | Some mail, Some code, Some newPassword =>
      if negb (isValidEmail mail) then (invalidEmailResponse, s)
      else
        let passwordValidation := validatePassword newPassword in
        if negb (isValid passwordValidation)
        then (validationResponse passwordValidation, s)
        else
          match findOne (normalizeEmail mail) s with
          | None => (errorResponse 400 "Invalid reset request", s)
          | Some user =>
              match passwordReset user with
              | None => (errorResponse 400 "Invalid reset request", s)
              | Some pending =>
                  if emptyString (codeHash pending)
                  then (errorResponse 400 "Invalid reset request", s)
                  else if expiresAt pending <? now w then
                    (errorResponse 400
                       "Reset code has expired. Please request a new one.", s)
                  else if negb (String.eqb (hashCode (trim code)) (codeHash pending))
                  then (errorResponse 400 "Invalid reset code", s)
                  else
                    let salt := Bcrypt.genSalt BCRYPT_SALT_ROUNDS (saltEntropy w) in
                    let newPasswordHash := Bcrypt.hash newPassword salt in
                    match save (now w)
                            (set_passwordReset None
                               (set_passwordHash newPasswordHash user)) s with
                    | inl (_, s') =>
                        (messageResponse 200
                           "Password has been reset successfully. Please sign in with your new password.",
                         s')
                    | inr _ =>
                        (errorResponse 500
                           "Failed to reset password. Please try again.", s)
                    end
              end
          end
  | _, _, _ =>
      (errorResponse 400 "Email, reset code, and new password are required", s)
  end.

Definition logout (s : Store) : Response * Store :=
  (messageResponse 200 "Logged out successfully", s).

(** *** Development-only functions *)

Definition devVerifyEmail (pe : ProcessEnv) (w : World) (b : Req.Body)
    (s : Store) : Response * Store :=
  if isProduction pe then (errorResponse 404 "Endpoint not found", s)
  else
    match truthyStr (Req.email b) with
    | None => (errorResponse 400 "Email is required", s)
    | Some mail =>
        match findOne (normalizeEmail mail) s with
        | None => (errorResponse 404 "User not found", s)
        | Some user =>
            match save (now w)
                    (set_emailVerification None (set_emailVerified true user))
                    s with
            | inl (_, s') =>
                (messageResponse 200
                   "Email verified successfully (development mode)", s')
            | inr _ => (errorResponse 500 "Failed to verify email", s)
            end
        end
    end.

Definition devResetPassword (pe : ProcessEnv) (w : World) (b : Req.Body)
    (s : Store) : Response * Store :=
  if isProduction pe then (errorResponse 404 "Endpoint not found", s)
  else
    match truthyStr (Req.email b), truthyStr (Req.newPassword b) with
    | Some mail, Some newPassword =>
        let passwordValidation := validatePassword newPassword in
        if negb (isValid passwordValidation)
        then (validationResponse passwordValidation, s)
        else
          match findOne (normalizeEmail mail) s with
          | None => (errorResponse 404 "User not found", s)
          | Some user =>
              let salt := Bcrypt.genSalt BCRYPT_SALT_ROUNDS (saltEntropy w) in
              match save (now w)
                      (set_passwordHash (Bcrypt.hash newPassword salt) user)
                      s with
              | inl (_, s') =>
                  (messageResponse 200
                     "Password updated successfully (development mode)", s')
              | inr _ => (errorResponse 500 "Failed to reset password", s)
              end
          end
    | _, _ => (errorResponse 400 "Email and new password are required", s)
    end.

End AuthController.

(* ------------------------------------------------------------------------- *)
(** ** middleware/errorHandler.js *)
(* ------------------------------------------------------------------------- *)

Module ErrorHandler.

(** The errors that reach the global handler: [AppError]s raised by the
    handlers and Mongoose's errors from [save]. *)
Inductive ServerError : Type :=
| AppError (message : string) (statusCode : Z)
| SaveFailed (e : SaveError).

Definition decimal (n : Z) : string :=
  DecimalString.NilZero.string_of_uint (N.to_uint (Z.to_N n)).

Fixpoint join (sep : string) (parts : list string) : string :=
  match parts with
  | [] => ""
  | [x] => x
  | x :: rest => x ++ sep ++ join sep rest
  end%string.

(** [handleValidationError]: the [maxlength] case. *)
Definition handleValidationError (errors : list (string * Z)) : string * Z :=
  (join ". "
     (map (fun e => (fst e ++ " cannot exceed " ++ decimal (snd e)
                     ++ " characters")%string) errors),
   400).

(** [handleDuplicateKeyError] for the unique index on [email]. *)
Definition handleDuplicateKeyError : string * Z :=
  ("An account with this email address already exists", 409).

(** The message and status the handler settles on. *)
Definition classify (err : ServerError) : string * Z :=
  match err with
  | AppError message statusCode => (message, statusCode)
  | SaveFailed (ValidationError errors) => handleValidationError errors
  | SaveFailed DuplicateKeyError => handleDuplicateKeyError
  end.

(** [errorHandler]: every error of the model is operational.  In
    development the body nests the message and the status; the [name] and
    [stack] entries are read from a spread copy of the error and are not
    modelled. *)
Definition errorHandler (pe : ProcessEnv) (err : ServerError) : Response :=
  let (message, statusCode) := classify err in
  if isDevelopment pe then
    mkResponse statusCode
      (JObj [("success", JBool false);
             ("error",
              JObj [("message", JStr (js message));
                    ("statusCode", JNum statusCode)])])
  else
    mkResponse statusCode
      (JObj [("success", JBool false); ("error", JStr (js message))]).

End ErrorHandler.
Export ErrorHandler.

(* ------------------------------------------------------------------------- *)
(** ** config/mailer.js *)
(* ------------------------------------------------------------------------- *)

(** The module's two variables, [transporter] and [isInitialized], are the
    state; nodemailer's transport is a collaborator, given by what its
    [verify()] and [sendMail()] do: resolve ([None]) or throw a message. *)
Module Mailer.

(** The variables of the environment the mailer reads. *)
Record SmtpEnv : Type := mkSmtpEnv
  { SMTP_HOST : option jsstring;
    SMTP_USER : option jsstring;
    SMTP_PASS : option jsstring;
    EMAIL_FROM : option jsstring;
    SMTP_PORT : option Z;
    SMTP_SECURE : option jsstring }.

(** What [createTransport] is given: host, port, [secure], the two fields of
    [auth], and whether the relaxed [tls] options are added (the timeouts and
    the pool settings are constants). *)
Record TransporterConfig : Type := mkConfig
  { host : option jsstring; port : Z; secure : bool;
    user : option jsstring; pass : option jsstring; relaxedTls : bool }.

Record State : Type := mkState
  { transporter : option TransporterConfig; isInitialized : bool }.

(** [let transporter = null; let isInitialized = false;] *)
Definition initial : State := mkState None false.

Definition missingField (k : string) (v : option jsstring) : list string :=
  if truthy_opt v then [] else [k].

(** [validateEmailConfig(env)]: the message of the error thrown, if any. *)
Definition validateEmailConfig (env : SmtpEnv) : option string :=
  let missingFields :=
    missingField "SMTP_HOST" (SMTP_HOST env)
    ++ missingField "SMTP_USER" (SMTP_USER env)
    ++ missingField "SMTP_PASS" (SMTP_PASS env)
    ++ missingField "EMAIL_FROM" (EMAIL_FROM env) in
  match missingFields with
  | _ :: _ =>
      Some ("Missing required email configuration: "
            ++ ErrorHandler.join ", " missingFields)%string
  | [] =>
      match EMAIL_FROM env with
      | Some sender =>
          if AuthController.isValidEmail sender then None
          else Some "EMAIL_FROM must be a valid email address"
      | None => Some "EMAIL_FROM must be a valid email address"
      end
  end.

Definition isTrue (v : option jsstring) : bool :=
  match v with
  | Some x => JsString.eqb x (js "true")
  | None => false
  end.

(** The [transporterConfig] that [initMailer] builds from [env]. *)
Definition transporterConfig (env : SmtpEnv) : TransporterConfig :=
  let port := numberOr (SMTP_PORT env) 587 in
  let isSecure := isTrue (SMTP_SECURE env) || (port =? 465) in
  mkConfig (SMTP_HOST env) port isSecure (SMTP_USER env) (SMTP_PASS env)
    (negb isSecure).

(** [initMailer(env)]: the new state and the message of the error thrown to
    the caller, if any.  [verify] is the transport's [verify()]. *)
Definition initMailer (pe : ProcessEnv) (env : SmtpEnv)
    (verify : TransporterConfig -> option string) (st : State)
    : State * option string :=
  let rethrow (message : string) :=
    if isProduction pe
    then Some ("Email service initialization failed: " ++ message)%string
    else None in
  match validateEmailConfig env with
  | Some message => (st, rethrow message)
  | None =>
      match verify (transporterConfig env) with
      | Some message =>
          (mkState (Some (transporterConfig env)) (isInitialized st),
           rethrow message)
      | None => (mkState (Some (transporterConfig env)) true, None)
      end
  end.

(** The argument of [sendMail] and the options handed to the transport. *)
Record Mail : Type := mkMail
  { to : JsValue; subject : JsValue; html : JsValue; text : JsValue;
    from : JsValue }.

Record MailOptions : Type := mkMailOptions
  { optFrom : option jsstring; optTo : jsstring; optSubject : jsstring;
    optText : jsstring; optHtml : jsstring }.

Definition orEmpty (v : JsValue) : jsstring :=
  match truthyStr v with Some x => x | None => [] end.

(** [sendMail({ to, subject, html, text, from })]: the options the transport
    accepted, or the message of the error thrown.  [env] is [process.env] and
    [deliver] the transport's [sendMail]. *)
Definition sendMail (st : State) (env : SmtpEnv) (m : Mail)
    (deliver : MailOptions -> option string) : MailOptions + string :=
  let failed (message : string) : MailOptions + string :=
    inr ("Email delivery failed: " ++ message)%string in
  match transporter st with
  | None =>
      failed "Email service not initialized. Please check your SMTP configuration."
  | Some _ =>
      if negb (isInitialized st) then
        failed "Email service not initialized. Please check your SMTP configuration."
      else
        match truthyStr (to m), truthyStr (subject m) with
        | Some recipient, Some subj =>
            if negb (truthy (orEmpty (html m))) && negb (truthy (orEmpty (text m)))
            then failed "Email content (HTML or text) is required"
            else if negb (AuthController.isValidEmail recipient)
            then failed "Invalid recipient email address"
            else
              let mailOptions :=
                mkMailOptions (orElse (truthyStr (from m)) (EMAIL_FROM env))
                  (trim (toLowerCase recipient)) (trim subj)
                  (orEmpty (text m)) (orEmpty (html m)) in
              match deliver mailOptions with
              | Some message => failed message
              | None => inl mailOptions
              end
        | _, _ => failed "Recipient email and subject are required"
        end
  end.

(** [testConnection()]: [success] and [message]. *)
Definition testConnection (st : State)
    (verify : TransporterConfig -> option string) : bool * string :=
  match transporter st with
  | None => (false, "Email service not initialized")
  | Some config =>
      match verify config with
      | None => (true, "Email service connection is healthy")
      | Some message =>
          (false, ("Email service connection failed: " ++ message)%string)
      end
  end.

(** [getStatus()]: [initialized] and [connected]. *)
Definition getStatus (st : State) : bool * bool :=
  (isInitialized st,
   match transporter st with Some _ => true | None => false end).

(** [closeConnections()]; [closeThrows] tells whether the transport's
    [close()] throws, which the [catch] swallows before the two variables
    are reset. *)
Definition closeConnections (closeThrows : bool) (st : State) : State :=
  match transporter st with
  | Some _ => if closeThrows then st else mkState None false
  | None => mkState None false
  end.

(** The calls that change the mailer's state. *)
Inductive Call : Type :=
| Init (env : SmtpEnv) (verify : TransporterConfig -> option string)
| Close (closeThrows : bool).

Definition call (pe : ProcessEnv) (st : State) (c : Call) : State :=
  match c with
  | Init env verify => fst (initMailer pe env verify st)
  | Close closeThrows => closeConnections closeThrows st
  end.

Definition calls (pe : ProcessEnv) (cs : list Call) (st : State) : State :=
  fold_left (call pe) cs st.

End Mailer.

(* ------------------------------------------------------------------------- *)
(** ** middleware/auth.js *)
(* ------------------------------------------------------------------------- *)

Module AuthMiddleware.

(** [req.user] *)
Record AuthUser : Type := mkAuthUser { id : N; email : jsstring }.

(** A [Bearer] header yields its second space-separated part, whatever it
    is; only without such a header is the cookie consulted. *)
Definition extractToken (c : Req.Credentials) : option Jwt.Token :=
  match Req.authorization c with
  | Some (Req.Bearer token) => token
  | _ => Req.cookieToken c
  end.

Definition verifyToken (pe : ProcessEnv) (w : World) (token : Jwt.Token)
    : Jwt.Payload + ServerError :=
  match Jwt.verify token (JWT_SECRET pe) (now w) with
  | inl payload => inl payload
  | inr Jwt.TokenExpiredError =>
      inr (AppError "Your session has expired. Please sign in again." 401)
  | inr Jwt.JsonWebTokenError =>
      inr (AppError "Invalid authentication token. Please sign in again." 401)
  | inr Jwt.OtherError =>
      inr (AppError "Authentication failed. Please sign in again." 401)
  end.

(** [authMiddleware]: the user attached to the request, or the error passed
    to [next].  A payload's [id] is an ObjectId string and never falsy. *)
Definition authMiddleware (pe : ProcessEnv) (w : World) (c : Req.Credentials)
    : AuthUser + ServerError :=
  match extractToken c with
  | None => inr (AppError "Access denied. No authentication token provided." 401)
  | Some token =>
      match verifyToken pe w token with
      | inr e => inr e
      | inl payload =>
          if negb (truthy (Jwt.email payload))
          then inr (AppError "Invalid token payload. Please sign in again." 401)
          else inl (mkAuthUser (Jwt.id payload) (Jwt.email payload))
      end
  end.

(** [optionalAuth]: [req.user] after the middleware, [None] for [null].
    It never passes an error on, and it does not inspect the payload. *)
Definition optionalAuth (pe : ProcessEnv) (w : World) (c : Req.Credentials)
    : option AuthUser :=
  match extractToken c with
  | Some token =>
      match verifyToken pe w token with
      | inl payload => Some (mkAuthUser (Jwt.id payload) (Jwt.email payload))
      | inr _ => None
      end
  | None => None
  end.

(** [requireRoles(requiredRoles)] applied to [req.user]: the error passed to
    [next], or [None] for [next()].  The roles are not looked at. *)
Definition requireRoles (requiredRoles : list jsstring)
    (reqUser : option AuthUser) : option ServerError :=
  match reqUser with
  | None => Some (AppError "Authentication required" 401)
  | Some _ => None
  end.

End AuthMiddleware.

(* ------------------------------------------------------------------------- *)
(** ** routes/auth.js *)
(* ------------------------------------------------------------------------- *)

Module AuthRoutes.
Import AuthController.

(** [validateEmailInput]: [None] stands for [next()]. *)
Definition validateEmailInput (b : Req.Body) : option Response :=
  match truthyStr (Req.email b) with
  | None => Some (errorResponse 400 "Email is required")
  | Some mail =>
      if negb (isValidEmail mail)
      then Some (errorResponse 400 "Please provide a valid email address")
      else None
  end.

Definition guarded (b : Req.Body) (s : Store)
    (controller : Req.Body -> Store -> Response * Store) : Response * Store :=
  match validateEmailInput b with
  | Some r => (r, s)
  | None => controller b s
  end.

(** The catch-all 404 handler of the server. *)
Definition routeNotFound (path : string) : Response :=
  mkResponse 404
    (JObj [("error", JStr (js "Route not found")); ("path", JStr (js path))]).

Definition postSignup pe w b s := guarded b s (signup pe w).
Definition postVerifyEmail pe w b s := guarded b s (verifyEmail pe w).
Definition postSignin pe w b s := guarded b s (signin pe w).
Definition postResendVerification pe w b s := guarded b s (resendVerification pe w).
Definition postForgotPassword pe w b s := guarded b s (forgotPassword pe w).
Definition postResetPassword pe w b s := guarded b s (resetPassword pe w).
Definition postLogout (s : Store) := logout s.

(** The two development routes are registered unless [NODE_ENV] is
    [production]. *)
Definition postDevVerifyEmail (pe : ProcessEnv) w b (s : Store) :=
  if isProduction pe then (routeNotFound "/api/auth/dev-verify-email", s)
  else guarded b s (devVerifyEmail pe w).
Definition postDevResetPassword (pe : ProcessEnv) w b (s : Store) :=
  if isProduction pe then (routeNotFound "/api/auth/dev-reset-password", s)
  else guarded b s (devResetPassword pe w).

End AuthRoutes.

(* ------------------------------------------------------------------------- *)
(** ** routes/protected.js *)
(* ------------------------------------------------------------------------- *)

Module ProtectedRoutes.
Import AuthMiddleware.

(** [profile.f?.trim() || user.profile?.f] *)
Definition mergeField (supplied : JsValue) (stored : option jsstring)
    : option jsstring :=
  orElse (optTrim supplied) stored.

(** [calculateProfileCompleteness] *)
Definition calculateProfileCompleteness (u : User) : Z :=
  let fields := [truthy_opt (name u);
                 truthy_opt (firstName (profile u));
                 truthy_opt (lastName (profile u));
                 emailVerified u] in
  let completedFields := Z.of_nat (List.length (filter (fun f => f) fields)) in
  (* Math.round((completedFields / 4) * 100) *)
  completedFields * 25.

Definition getMe (pe : ProcessEnv) (w : World) (c : Req.Credentials) (s : Store)
    : Response * Store :=
  match authMiddleware pe w c with
  | inr e => (errorHandler pe e, s)
  | inl reqUser =>
      match findById (id reqUser) s with
      | None => (errorHandler pe (AppError "User not found" 404), s)
      | Some user =>
          if negb (isActive user)
          then (errorHandler pe (AppError "Account has been deactivated" 403), s)
          else
            (mkResponse 200
               (JObj [("success", JBool true); ("user", toSafeObject user)]), s)
      end
  end.

Definition putMe (pe : ProcessEnv) (w : World) (c : Req.Credentials)
    (b : Req.Body) (s : Store) : Response * Store :=
  match authMiddleware pe w c with
  | inr e => (errorHandler pe e, s)
  | inl reqUser =>
      match findById (id reqUser) s with
      | None => (errorHandler pe (AppError "User not found" 404), s)
      | Some user =>
          if negb (isActive user)
          then (errorHandler pe (AppError "Account has been deactivated" 403), s)
          else
            let user1 :=
              match Req.name b with
              | JsUndefined => user
              | v => assign_name (orElse (optTrim v) None) user
              end in
            let user2 :=
              match Req.profile b with
              | None => user1
              | Some p =>
                  assign_profile
                    (mkProfile
                       (mergeField (Req.firstName p) (firstName (profile user1)))
                       (mergeField (Req.lastName p) (lastName (profile user1)))
                       (mergeField (Req.avatar p) (avatar (profile user1))))
                    user1
              end in
            match save (now w) user2 s with
            | inr e => (errorHandler pe (SaveFailed e), s)
            | inl (saved, s') =>
                (mkResponse 200
                   (JObj [("success", JBool true);
                          ("message", JStr (js "Profile updated successfully"));
                          ("user", toSafeObject saved)]), s')
            end
      end
  end.

Definition deleteMe (pe : ProcessEnv) (w : World) (c : Req.Credentials)
    (s : Store) : Response * Store :=
  match authMiddleware pe w c with
  | inr e => (errorHandler pe e, s)
  | inl reqUser =>
      match findById (id reqUser) s with
      | None => (errorHandler pe (AppError "User not found" 404), s)
      | Some user =>
          match save (now w) (set_isActive false user) s with
          | inr e => (errorHandler pe (SaveFailed e), s)
          | inl (_, s') =>
              (mkResponse 200
                 (JObj [("success", JBool true);
                        ("message",
                         JStr (js "Account has been deactivated successfully"))]),
               s')
          end
      end
  end.

Definition getAccountStats (pe : ProcessEnv) (w : World) (c : Req.Credentials)
    (s : Store) : Response * Store :=
  match authMiddleware pe w c with
  | inr e => (errorHandler pe e, s)
  | inl reqUser =>
      match findById (id reqUser) s with
      | None => (errorHandler pe (AppError "User not found" 404), s)
      | Some user =>
          (mkResponse 200
             (JObj [("success", JBool true);
                    ("stats",
                     JObj [("accountAge", JDate (createdAt user));
                           ("lastLogin", optJSON JDate (lastLogin user));
                           ("emailVerified", JBool (emailVerified user));
                           ("profileCompleteness",
                            JNum (calculateProfileCompleteness user));
                           ("accountStatus",
                            JStr (js (if isActive user then "active"
                                      else "inactive")))])]), s)
      end
  end.

End ProtectedRoutes.

(* ------------------------------------------------------------------------- *)
(** ** The server as a transition system *)
(* ------------------------------------------------------------------------- *)

Inductive Request : Type :=
| PostSignup (b : Req.Body)
| PostVerifyEmail (b : Req.Body)
| PostSignin (b : Req.Body)
| PostResendVerification (b : Req.Body)
| PostForgotPassword (b : Req.Body)
| PostResetPassword (b : Req.Body)
| PostLogout
| PostDevVerifyEmail (b : Req.Body)
| PostDevResetPassword (b : Req.Body)
| GetMe (c : Req.Credentials)
| PutMe (c : Req.Credentials) (b : Req.Body)
| DeleteMe (c : Req.Credentials)
| GetAccountStats (c : Req.Credentials).

(** One request, served at the instant and with the draws of [w]. *)
Definition handle (pe : ProcessEnv) (w : World) (r : Request) (s : Store)
    : Response * Store :=
  match r with
  | PostSignup b => AuthRoutes.postSignup pe w b s
  | PostVerifyEmail b => AuthRoutes.postVerifyEmail pe w b s
  | PostSignin b => AuthRoutes.postSignin pe w b s
  | PostResendVerification b => AuthRoutes.postResendVerification pe w b s
  | PostForgotPassword b => AuthRoutes.postForgotPassword pe w b s
  | PostResetPassword b => AuthRoutes.postResetPassword pe w b s
  | PostLogout => AuthRoutes.postLogout s
  | PostDevVerifyEmail b => AuthRoutes.postDevVerifyEmail pe w b s
  | PostDevResetPassword b => AuthRoutes.postDevResetPassword pe w b s
  | GetMe c => ProtectedRoutes.getMe pe w c s
  | PutMe c b => ProtectedRoutes.putMe pe w c b s
  | DeleteMe c => ProtectedRoutes.deleteMe pe w c s
  | GetAccountStats c => ProtectedRoutes.getAccountStats pe w c s
  end.

(** A run: the requests in order, each with its own world; the responses
    are collected and the final store returned. *)
Fixpoint run (pe : ProcessEnv) (events : list (World * Request)) (s : Store)
    : list Response * Store :=
  match events with
  | [] => ([], s)
  | (w, r) :: rest =>
      let (resp, s1) := handle pe w r s in
      let (resps, s2) := run pe rest s1 in
      (resp :: resps, s2)
  end.

(** The stores the server can reach from the empty collection by requests
    alone. *)
Inductive Reachable (pe : ProcessEnv) : Store -> Prop :=
| reach_empty : Reachable pe []
| reach_step (w : World) (r : Request) (s : Store) :
    Reachable pe s -> Reachable pe (snd (handle pe w r s)).

(** The collection is changed by the requests the server answers and by the
    database itself, through its TTL indexes. *)
Inductive Event : Type :=
| Served (w : World) (r : Request)
| Expired (t : Z) (i : N).

Definition step (pe : ProcessEnv) (s : Store) (ev : Event) : Store :=
  match ev with
  | Served w r => snd (handle pe w r s)
  | Expired t i => UserModel.ttlDelete t i s
  end.

Definition runDb (pe : ProcessEnv) (events : list Event) (s : Store) : Store :=
  fold_left (step pe) events s.

(* ========================================================================= *)
(** * Properties *)
(* ========================================================================= *)

Import AuthController AuthMiddleware UserModel.

(* ------------------------------------------------------------------------- *)
(** ** The vocabulary of the properties *)
(* ------------------------------------------------------------------------- *)

(** Whether a message names a word. *)
Definition mentions (word message : string) : bool :=
  match String.index 0 word message with
  | Some _ => true
  | None => false
  end.

(** The email pattern in words: a local part, an [@], a domain part, a dot
    and a last part, each a non-empty run of characters other than blanks
    and [@]. *)
Definition matchesEmailPattern (s : jsstring) : Prop :=
  exists a b c,
    s = a ++ 64%N :: b ++ 46%N :: c
    /\ a <> [] /\ b <> [] /\ c <> []
    /\ forallb emailChar a = true /\ forallb emailChar b = true
    /\ forallb emailChar c = true.

(** The policy in words: at least eight code units, and one of each class. *)
Definition meetsPolicy (p : jsstring) : Prop :=
  (8 <= List.length p)%nat
  /\ (exists c, In c p /\ (65 <= c <= 90)%N)
  /\ (exists c, In c p /\ (97 <= c <= 122)%N)
  /\ (exists c, In c p /\ (48 <= c <= 57)%N)
  /\ (exists c, In c p /\ In c specialChars).

(** A document after five failed sign-ins, with the given lock fields. *)
Definition lockedOutUser (locked : bool) (until : option Z) : User :=
  mkUser 1%N (js "a@x.com") (Bcrypt.hash (js "Abcd123!") (Bcrypt.mkSalt 12 0))
         None true None None (mkProfile None None None) None 5 locked until
         true 0 0.

(** The keys that must stay inside: the password hash, the two pending-code
    sub-documents, the failed-login counter, and the lock state (stored or
    computed). *)
Definition privateKeys : list string :=
  ["passwordHash"; "emailVerification"; "passwordReset"; "loginAttempts";
   "accountLocked"; "lockUntil"; "isLocked"].

(** The keys the [toJSON] transform deletes. *)
Definition deletedKeys : list string :=
  ["passwordHash"; "emailVerification"; "passwordReset"; "loginAttempts";
   "accountLocked"; "lockUntil"].

(** The object [v] has none of the keys [ks]. *)
Definition noneOf (ks : list string) (v : JSON) : bool :=
  forallb (fun k => negb (hasKey k v)) ks.

(** A request carrying [Authorization: Bearer token] and no cookie. *)
Definition bearer (token : Jwt.Token) : Req.Credentials :=
  Req.mkCredentials (Some (Req.Bearer (Some token))) None.

(** The environment of the examples: development mode, a secret, the
    default code length, code lifetime and token lifetime. *)
Definition demoEnv : ProcessEnv :=
  mkProcessEnv Development (Some (js "secret")) None None None.

(** The world of the examples at time [t]: the random source yields the
    digits 1, 2, 3, ..., and mail is delivered. *)
Definition demoWorld (t : Z) : World :=
  mkWorld t (fun i => N.of_nat (S i)) 7%N true.

(** A string that does not start with a blank. *)
Definition headNotBlank (s : jsstring) : Prop :=
  match s with
  | [] => True
  | c :: _ => isWhitespace c = false
  end.

(** The stored strings have passed the schema's setters, a verified
    document holds no pending verification code, and the document passes
    the schema's validators. *)
Definition user_ok (u : User) : Prop :=
  castTrimmed (name u) = name u
  /\ castProfile (profile u) = profile u
  /\ (emailVerified u = true -> emailVerification u = None)
  /\ validate u = [].

(** The request is a forgot-password request for the email [e]. *)
Definition issuesResetFor (r : Request) (e : jsstring) : Prop :=
  exists b mail,
    r = PostForgotPassword b /\ truthyStr (Req.email b) = Some mail
    /\ normalizeEmail mail = e.

(** How a stored document may differ after the request [r]. *)
Record Evolves (r : Request) (u u' : User) : Prop := mkEvolves
  { ev_id : _id u' = _id u;
    ev_email : email u' = email u;
    ev_verified : emailVerified u = true -> emailVerified u' = true;
    ev_reset : passwordReset u = None ->
               passwordReset u' = None \/ issuesResetFor r (email u);
    ev_inactive : isActive u = false -> isActive u' = false;
    ev_lock : loginAttempts u' = loginAttempts u
              /\ accountLocked u' = accountLocked u
              /\ lockUntil u' = lockUntil u;
    ev_ok : user_ok u -> user_ok u' }.

(** A document created by a request. *)
Definition NewDoc (s : Store) (x : User) : Prop :=
  user_ok x /\ ~ In (_id x) (map _id s)
  /\ loginAttempts x = 0 /\ accountLocked x = false /\ lockUntil x = None.

(** The store after a request: the old documents, each evolved in place,
    followed by at most one new document. *)
Definition StoreStep (r : Request) (s s' : Store) : Prop :=
  exists s1 extra,
    s' = s1 ++ extra /\ Forall2 (Evolves r) s s1
    /\ (extra = [] \/ exists x, extra = [x] /\ NewDoc s x).

(** No request has ever touched the lock fields of the document. *)
Definition neverLocked (u : User) : Prop :=
  loginAttempts u = 0 /\ accountLocked u = false /\ lockUntil u = None.

(** The invariant of the collection: distinct ids, and every document
    well-formed and with untouched lock fields. *)
Definition store_ok (s : Store) : Prop :=
  NoDup (map _id s) /\ Forall user_ok s /\ Forall neverLocked s.


Definition signupBody (mail password : string) : Req.Body :=
  Req.mkBody (JsString (js mail)) (JsString (js password)) JsUndefined
             JsUndefined JsUndefined None.

Definition codeBody (mail code : string) : Req.Body :=
  Req.mkBody (JsString (js mail)) JsUndefined JsUndefined (JsString (js code))
             JsUndefined None.

Definition mailBody (mail : string) : Req.Body :=
  Req.mkBody (JsString (js mail)) JsUndefined JsUndefined JsUndefined
             JsUndefined None.

Definition resetBody (mail code password : string) : Req.Body :=
  Req.mkBody (JsString (js mail)) JsUndefined JsUndefined (JsString (js code))
             (JsString (js password)) None.

(** One account, signed up at time 1000 with the code 123456 pending. *)
Definition signedUp : Store :=
  snd (run demoEnv [(demoWorld 1000, PostSignup (signupBody "a@x.com" "Abcd123!"))] []).

(** A reset code pending: signed up at 1000, forgot-password at 2000. *)
Definition resetPending : Store :=
  snd (run demoEnv
         [(demoWorld 1000, PostSignup (signupBody "a@x.com" "Abcd123!"));
          (demoWorld 2000, PostForgotPassword (mailBody "a@x.com"))] []).

(** A verified account: signed up at 1000, verified at 2000. *)
Definition verifiedAccount : Store :=
  snd (run demoEnv
         [(demoWorld 1000, PostSignup (signupBody "a@x.com" "Abcd123!"));
          (demoWorld 2000, PostVerifyEmail (codeBody "a@x.com" "123456"))] []).

(** A sign-in attempt at time [t] with a wrong password. *)
Definition wrongAttempt (t : Z) : World * Req.Body :=
  (demoWorld t, signupBody "a@x.com" "Wrong123!").

(** The world at time [t] with the mail transport failing. *)
Definition mailDown (t : Z) : World :=
  mkWorld t (fun i => N.of_nat (S i)) 7%N false.

(** The token the sign-in at time 3000 issues to account 1. *)
Definition demoToken : Jwt.Token :=
  Jwt.Signed (js "secret") (Jwt.mkPayload 1%N (js "a@x.com") 3 604803).




Definition namedProfileBody : Req.Body :=
  Req.mkBody JsUndefined JsUndefined JsUndefined JsUndefined JsUndefined
    (Some (Req.mkProfileBody (JsString (js " Ada ")) JsUndefined JsUndefined)).

(** Account 1 with the first name Ada stored. *)
Definition withFirstName : Store :=
  snd (run demoEnv
         [(demoWorld 1000, PostSignup (signupBody "a@x.com" "Abcd123!"));
          (demoWorld 2000, PostVerifyEmail (codeBody "a@x.com" "123456"));
          (demoWorld 3000, PostSignin (signupBody "a@x.com" "Abcd123!"));
          (demoWorld 4000, PutMe (bearer demoToken) namedProfileBody)] []).

(* ------------------------------------------------------------------------- *)
(** ** The vocabulary of the further properties *)
(* ------------------------------------------------------------------------- *)

(** Failed sign-ins recorded one after the other at the given instants, each
    on the document the previous call saved. *)
Fixpoint failedLogins (times : list Z) (u : User) (s : Store)
    : option (User * Store) :=
  match times with
  | [] => Some (u, s)
  | t :: rest =>
      match incrementLoginAttempts t u s with
      | inl (u', s') => failedLogins rest u' s'
      | inr _ => None
      end
  end.

(** The lock window of [incrementLoginAttempts], in milliseconds. *)
Definition lockTime : Z := 30 * 60 * 1000.

(** What [cleanupExpiredCodes] may change in a document: the two codes and
    [updatedAt], and only when one of the codes has expired. *)
Definition Cleaned (now : Z) (u u' : User) : Prop :=
  (hasExpiredCode now u = false -> u' = u)
  /\ (hasExpiredCode now u = true ->
      emailVerification u' = None /\ passwordReset u' = None)
  /\ set_updatedAt 0 (set_passwordReset None (set_emailVerification None u'))
     = set_updatedAt 0 (set_passwordReset None (set_emailVerification None u)).

(** A lower-case hexadecimal digit. *)
Definition isHexDigit (c : ascii) : bool :=
  let n := N_of_ascii c in
  ((48 <=? n)%N && (n <=? 57)%N) || ((97 <=? n)%N && (n <=? 102)%N).

(** An account as [signup] creates it, with no code pending. *)
Definition freshAccount : User :=
  mkUser 1%N (js "a@x.com") (Bcrypt.hash (js "Abcd123!") (Bcrypt.mkSalt 12 0))
         None true None None (mkProfile None None None) None 0 false None
         true 0 0.

(** The names of the required mail settings that are unset or empty, in the
    order of [requiredFields]. *)
Definition missingSettings (env : Mailer.SmtpEnv) : list string :=
  map fst
    (filter (fun kv => negb (truthy_opt (snd kv)))
       [("SMTP_HOST", Mailer.SMTP_HOST env); ("SMTP_USER", Mailer.SMTP_USER env);
        ("SMTP_PASS", Mailer.SMTP_PASS env);
        ("EMAIL_FROM", Mailer.EMAIL_FROM env)]).

(** The message of [sendMail] on a mailer that is not initialised. *)
Definition notInitializedMessage : string :=
  "Email delivery failed: Email service not initialized. Please check your SMTP configuration.".

(** The requests that set a password, and those that mark an email as
    verified. *)
Definition setsPassword (r : Request) : Prop :=
  exists b, r = PostResetPassword b \/ r = PostDevResetPassword b.

Definition verifiesEmail (r : Request) : Prop :=
  exists b, r = PostVerifyEmail b \/ r = PostDevVerifyEmail b.

(** The account a request is about: the one whose email the body names (up
    to normalisation), or the one whose id the verified token carries. *)
Definition Targets (pe : ProcessEnv) (w : World) (r : Request) (u : User) : Prop :=
  let named (b : Req.Body) :=
    exists mail, truthyStr (Req.email b) = Some mail
                 /\ normalizeEmail mail = email u in
  let bearerOf (c : Req.Credentials) :=
    exists reqUser, authMiddleware pe w c = inl reqUser
                    /\ AuthMiddleware.id reqUser = _id u in
  match r with
  | PostSignup b | PostVerifyEmail b | PostSignin b | PostResendVerification b
  | PostForgotPassword b | PostResetPassword b | PostDevVerifyEmail b
  | PostDevResetPassword b => named b
  | PostLogout => False
  | GetMe c | PutMe c _ | DeleteMe c | GetAccountStats c => bearerOf c
  end.

(** The code a request draws, as a pending code. *)
Definition issuedCode (pe : ProcessEnv) (w : World) : PendingCode :=
  mkPendingCode (hashCode (generateNumericCode w (CODE_LENGTH pe)))
                (addMinutes (now w) (CODE_EXPIRES_MIN pe)).

(** What one request, answered with status [code], may change in a stored
    document, field by field. *)
Record Frame (pe : ProcessEnv) (w : World) (r : Request) (code : Z)
    (u u' : User) : Prop := mkFrame
  { fr_id : _id u' = _id u;
    fr_email : email u' = email u;
    fr_createdAt : createdAt u' = createdAt u;
    fr_target : u' <> u -> Targets pe w r u;
    fr_password : passwordHash u' <> passwordHash u ->
                  setsPassword r /\ code = 200;
    fr_verified : emailVerified u' <> emailVerified u ->
                  verifiesEmail r /\ code = 200 /\ emailVerified u' = true;
    fr_lastLogin : lastLogin u' <> lastLogin u ->
                   (exists b, r = PostSignin b) /\ code = 200
                   /\ lastLogin u' = Some (now w);
    fr_name : name u' <> name u -> (exists c b, r = PutMe c b) /\ code = 200;
    fr_profile : profile u' <> profile u ->
                 (exists c b, r = PutMe c b) /\ code = 200;
    fr_isActive : isActive u' <> isActive u ->
                  (exists c, r = DeleteMe c) /\ code = 200
                  /\ isActive u' = false;
    fr_updatedAt : updatedAt u' = updatedAt u \/ updatedAt u' = now w;
    fr_verification :
      emailVerification u' = emailVerification u
      \/ emailVerification u' = None
      \/ ((exists b, r = PostResendVerification b)
          /\ emailVerification u' = Some (issuedCode pe w));
    fr_reset :
      passwordReset u' = passwordReset u
      \/ passwordReset u' = None
      \/ ((exists b, r = PostForgotPassword b)
          /\ passwordReset u' = Some (issuedCode pe w)) }.

(** The document that a sign-up with the given email, password and name
    stores. *)
Definition signedUpUser (pe : ProcessEnv) (w : World) (s : Store)
    (mail password : jsstring) (nm : option jsstring) : User :=
  preSave (now w)
    (newUser s (now w) (normalizeEmail mail)
       (Bcrypt.hash password (Bcrypt.genSalt BCRYPT_SALT_ROUNDS (saltEntropy w)))
       nm (issuedCode pe w)).

(** The document a successful sign-up inserts. *)
Definition Created (pe : ProcessEnv) (w : World) (r : Request) (s : Store)
    (x : User) : Prop :=
  exists b mail password,
    r = PostSignup b
    /\ truthyStr (Req.email b) = Some mail
    /\ truthyStr (Req.password b) = Some password
    /\ isValidEmail mail = true
    /\ isValid (validatePassword password) = true
    /\ findOne (normalizeEmail mail) s = None
    /\ x = signedUpUser pe w s mail password (trimOrNull (Req.name b)).

(** The store after a request answered with [resp]: the old documents in
    place, each changed within its frame, then at most one document that a
    sign-up created. *)
Definition FrameStep (pe : ProcessEnv) (w : World) (r : Request)
    (resp : Response) (s s' : Store) : Prop :=
  exists s1 extra,
    s' = s1 ++ extra /\ Forall2 (Frame pe w r (status resp)) s s1
    /\ (extra = [] \/ exists x, extra = [x] /\ Created pe w r s x).

(** The emails of the collection: pairwise distinct, each in normal form
    and matching the pattern. *)
Definition emails_ok (s : Store) : Prop :=
  NoDup (map email s)
  /\ Forall (fun u => isValidEmail (email u) = true
                      /\ normalizeEmail (email u) = email u) s.

(** Two accounts: a@x.com signed up at 1000 and b@x.com at 2000. *)
Definition twoAccounts : Store :=
  snd (run demoEnv
         [(demoWorld 1000, PostSignup (signupBody "a@x.com" "Abcd123!"));
          (demoWorld 2000, PostSignup (signupBody "b@x.com" "Efgh456?"))] []).

(** A body carrying an email and a password, one carrying an email and a
    code, and one carrying an email, a code and a new password. *)
Definition credentialsBody (mail password : jsstring) : Req.Body :=
  Req.mkBody (JsString mail) (JsString password) JsUndefined JsUndefined
             JsUndefined None.

Definition verificationBody (mail code : jsstring) : Req.Body :=
  Req.mkBody (JsString mail) JsUndefined JsUndefined (JsString code)
             JsUndefined None.

Definition newPasswordBody (mail code newPassword : jsstring) : Req.Body :=
  Req.mkBody (JsString mail) JsUndefined JsUndefined (JsString code)
             (JsString newPassword) None.

(** A string of code units below U+0100.  On these [toLowerCase] is the
    mapping of [lowerUnit]; above them the case mapping of JavaScript is not
    modelled. *)
Definition latin1 (x : jsstring) : Prop := Forall (fun c => (c < 256)%N) x.

Definition latin1Value (v : JsValue) : Prop :=
  match v with
  | JsString x => latin1 x
  | _ => True
  end.

(** The time values a [Date] can hold: 8.64e15 milliseconds either side of
    the epoch.  Beyond them [new Date(...)] is an invalid date, which
    [save()] refuses. *)
Definition maxDate : Z := 8640000000000000.

Definition validDate (t : Z) : Prop := - maxDate <= t <= maxDate.

(** The email a request carries in its body. *)
Definition emailOf (r : Request) : JsValue :=
  match r with
  | PostSignup b | PostVerifyEmail b | PostSignin b | PostResendVerification b
  | PostForgotPassword b | PostResetPassword b | PostDevVerifyEmail b
  | PostDevResetPassword b | PutMe _ b => Req.email b
  | PostLogout | GetMe _ | DeleteMe _ | GetAccountStats _ => JsUndefined
  end.

(** The events within the range of the embedding: the email of a request
    is of code units below U+0100, and the clock and the expiry of a code
    drawn at that instant are dates. *)
Definition inRange (pe : ProcessEnv) (ev : Event) : Prop :=
  match ev with
  | Served w r =>
      latin1Value (emailOf r) /\ validDate (now w)
      /\ validDate (addMinutes (now w) (CODE_EXPIRES_MIN pe))
  | Expired _ _ => True
  end.

(** The collections of the deployed server: those that requests and TTL
    removals, in any order, lead to from the empty collection. *)
Definition Deployed (pe : ProcessEnv) (s : Store) : Prop :=
  exists history, Forall (inRange pe) history /\ s = runDb pe history [].

(** The events that leave the account [i] in the collection and active: no
    TTL removal of it, and no [DELETE /me] with a token for it. *)
Definition keepsActive (pe : ProcessEnv) (i : N) (ev : Event) : Prop :=
  match ev with
  | Served w (DeleteMe c) =>
      forall reqUser, authMiddleware pe w c = inl reqUser ->
                      AuthMiddleware.id reqUser <> i
  | Served _ _ => True
  | Expired _ j => j <> i
  end.

(** The events that leave the document [i] in the collection. *)
Definition keeps (i : N) (ev : Event) : Prop :=
  match ev with
  | Served _ _ => True
  | Expired _ j => j <> i
  end.

(** The stored emails are of code units below U+0100. *)
Definition emails_latin1 (s : Store) : Prop :=
  Forall (fun u => latin1 (email u)) s.

(** The invariants of the deployed collection. *)
Definition Sound (s : Store) : Prop :=
  store_ok s /\ emails_ok s /\ emails_latin1 s.

(** A run of requests as a list of events. *)
Definition served (events : list (World * Request)) : list Event :=
  map (fun ev => Served (fst ev) (snd ev)) events.


(** The sign-up of a@x.com at 1000, whose code expires fifteen minutes
    later, and the sign-up of b@x.com at 2000; at 960000 the TTL index
    removes the first account, still unverified. *)
Definition expiryHistory : list Event :=
  [Served (demoWorld 1000) (PostSignup (signupBody "a@x.com" "Abcd123!"));
   Served (demoWorld 2000) (PostSignup (signupBody "b@x.com" "Efgh456?"));
   Expired 960000 1%N].

(** A body that only sets the name. *)
Definition nameBody (v : JsValue) : Req.Body :=
  Req.mkBody JsUndefined JsUndefined v JsUndefined JsUndefined None.

(** The name a profile update stores for the supplied value: the stored name
    when none is supplied, no name for [null] or a blank string, and the
    trimmed string otherwise. *)
Definition suppliedName (v : JsValue) (stored : option jsstring)
    : option jsstring :=
  match v with
  | JsUndefined => stored
  | JsNull => None
  | JsString x => if truthy (trim x) then Some (trim x) else None
  end.

(* ------------------------------------------------------------------------- *)
(** ** Strings *)
(* ------------------------------------------------------------------------- *)

Lemma jseqb_eq (a b : jsstring) : JsString.eqb a b = true <-> a = b.
Proof.
  revert b; induction a as [|x a IH]; intros [|y b]; simpl;
    try (split; [discriminate | congruence]); try tauto.
  rewrite andb_true_iff, N.eqb_eq, IH. split.
  - intros [-> ->]; reflexivity.
  - intros H; injection H; auto.
Qed.

Lemma jseqb_refl (a : jsstring) : JsString.eqb a a = true.
Proof. apply jseqb_eq; reflexivity. Qed.

Lemma existsb_range (lo hi : N) (p : jsstring) :
  existsb (fun c => (lo <=? c)%N && (c <=? hi)%N) p = true
  <-> exists c, In c p /\ (lo <= c <= hi)%N.
Proof.
  rewrite existsb_exists. split; intros [c [Hin Hc]]; exists c; split; auto.
  - apply andb_true_iff in Hc. destruct Hc as [H1 H2].
    apply N.leb_le in H1, H2. lia.
  - apply andb_true_iff. split; apply N.leb_le; lia.
Qed.

Lemma isSpecialChar_spec (c : N) : isSpecialChar c = true <-> In c specialChars.
Proof.
  unfold isSpecialChar. rewrite existsb_exists. split.
  - intros [x [Hin Hx]]. apply N.eqb_eq in Hx. subst; assumption.
  - intros H. exists c. split; [assumption | apply N.eqb_refl].
Qed.

(** [isValidEmail] decides the email pattern. *)
Lemma span_spec (s : jsstring) :
  forall a rest, spanEmailChars s = (a, rest) ->
    s = a ++ rest /\ forallb emailChar a = true
    /\ match rest with [] => True | c :: _ => emailChar c = false end.
Proof.
  induction s as [|c s IH]; simpl; intros a rest H.
  - injection H as <- <-. auto.
  - destruct (emailChar c) eqn:Hc.
    + destruct (spanEmailChars s) as [a' b'] eqn:Hs.
      injection H as <- <-. destruct (IH a' b' eq_refl) as (-> & Ha & Hr).
      simpl. rewrite Hc, Ha. auto.
    + injection H as <- <-. simpl. auto.
Qed.

Lemma span_app (a rest : jsstring) :
  forallb emailChar a = true ->
  match rest with [] => True | c :: _ => emailChar c = false end ->
  spanEmailChars (a ++ rest) = (a, rest).
Proof.
  intros Ha Hr. induction a as [|x a IH]; simpl in *.
  - destruct rest as [|c rest]; simpl; [reflexivity | rewrite Hr; reflexivity].
  - apply andb_true_iff in Ha. destruct Ha as [Hx Ha].
    rewrite Hx, (IH Ha). reflexivity.
Qed.

Lemma inner_split (x : N) (d : jsstring) :
  In x (removelast (tl d)) <->
  exists b c, d = b ++ x :: c /\ b <> [] /\ c <> [].
Proof.
  split.
  - destruct d as [|d0 d]; simpl; [tauto|].
    intros Hin.
    assert (Hd : d <> []) by (destruct d; [simpl in Hin; tauto | discriminate]).
    destruct (exists_last Hd) as (m & l & ->).
    rewrite removelast_last in Hin.
    apply in_split in Hin. destruct Hin as (m1 & m2 & ->).
    exists (d0 :: m1), (m2 ++ [l]). repeat split.
    + simpl. rewrite <- app_assoc. reflexivity.
    + discriminate.
    + destruct m2; discriminate.
  - intros (b & c & -> & Hb & Hc).
    destruct b as [|b0 b]; [congruence|]. simpl.
    destruct (exists_last Hc) as (c1 & l & ->).
    replace (b ++ x :: c1 ++ [l]) with ((b ++ x :: c1) ++ [l])
      by (rewrite <- app_assoc; reflexivity).
    rewrite removelast_last. apply in_or_app. right. left. reflexivity.
Qed.

Lemma isValidEmail_spec (s : jsstring) :
  isValidEmail s = true <-> matchesEmailPattern s.
Proof.
  unfold isValidEmail, matchesEmailPattern. split.
  - destruct (spanEmailChars s) as [a rest] eqn:Hs.
    destruct (span_spec s a rest Hs) as (-> & Ha & _).
    destruct a as [|a0 a]; [discriminate|].
    destruct rest as [|at_ domain]; [discriminate|].
    intros H. apply andb_true_iff in H. destruct H as [H Hdot].
    apply andb_true_iff in H. destruct H as [Hat Hdom].
    apply N.eqb_eq in Hat. subst at_.
    apply existsb_exists in Hdot. destruct Hdot as (x & Hin & Hx).
    apply N.eqb_eq in Hx. subst x.
    apply inner_split in Hin. destruct Hin as (b & c & -> & Hb & Hc).
    rewrite forallb_app in Hdom. apply andb_true_iff in Hdom.
    destruct Hdom as [Hfb Hfc]. simpl in Hfc.
    exists (a0 :: a), b, c. repeat split; auto. discriminate.
  - intros (a & b & c & -> & Ha & Hb & Hc & Hfa & Hfb & Hfc).
    rewrite (span_app a (64%N :: b ++ 46%N :: c) Hfa) by reflexivity.
    destruct a as [|a0 a]; [congruence|].
    rewrite N.eqb_refl. simpl.
    rewrite forallb_app, Hfb. simpl. rewrite Hfc. simpl.
    apply existsb_exists. exists 46%N. split; [|reflexivity].
    apply inner_split. exists b, c. auto.
Qed.

(** The standard test vectors of SHA-256. *)
Example sha256_empty :
  Sha256.sha256hex (js "")
  = "e3b0c44298fc1c149afbf4c8996fb92427ae41e4649b934ca495991b7852b855".
Proof. vm_compute. reflexivity. Qed.

Example sha256_abc :
  Sha256.sha256hex (js "abc")
  = "ba7816bf8f01cfea414140de5dae2223b00361a396177a9cb410ff61f20015ad".
Proof. vm_compute. reflexivity. Qed.

Example sha256_two_blocks :
  Sha256.sha256hex
    (js "abcdbcdecdefdefgefghfghighijhijkijkljklmklmnlmnomnopnopq")
  = "248d6a61d20638b8e5c026930c3e6039a33ce45964ff2167f6ecedd419db06c1".
Proof. vm_compute. reflexivity. Qed.

Example sha256_round_constants :
  nth 0 Sha256.K 0%N = 0x428a2f98%N /\ nth 63 Sha256.K 0%N = 0xc67178f2%N
  /\ Sha256.sa Sha256.H0 = 0x6a09e667%N /\ Sha256.sh Sha256.H0 = 0x5be0cd19%N.
Proof. repeat split; reflexivity. Qed.

(* ------------------------------------------------------------------------- *)
(** ** The password policy *)
(* ------------------------------------------------------------------------- *)

Lemma validatePassword_accepts (p : jsstring) :
  isValid (validatePassword p) = true <-> meetsPolicy p.
Proof.
  unfold validatePassword, meetsPolicy, testClass.
  destruct (Nat.ltb (List.length p) 8) eqn:Hlen.
  - rewrite orb_true_r. simpl. apply Nat.ltb_lt in Hlen.
    split; [discriminate | intros [H _]; lia].
  - apply Nat.ltb_ge in Hlen.
    assert (Ht : truthy p = true) by (destruct p; [simpl in Hlen; lia | reflexivity]).
    rewrite Ht. simpl.
    rewrite <- (existsb_range 65 90), <- (existsb_range 97 122),
            <- (existsb_range 48 57).
    fold isUpper isLower isDigit.
    change (fun c : N => (65 <=? c)%N && (c <=? 90)%N) with isUpper.
    change (fun c : N => (97 <=? c)%N && (c <=? 122)%N) with isLower.
    change (fun c : N => (48 <=? c)%N && (c <=? 57)%N) with isDigit.
    assert (Hs : existsb isSpecialChar p = true
                 <-> exists c, In c p /\ In c specialChars).
    { rewrite existsb_exists. split; intros [c [H1 H2]]; exists c; split; auto;
        apply isSpecialChar_spec; assumption. }
    rewrite <- Hs.
    destruct (existsb isUpper p), (existsb isLower p), (existsb isDigit p),
             (existsb isSpecialChar p); simpl; split;
      try discriminate; try (intros; repeat split; auto; fail);
      intros (_ & H1 & H2 & H3 & H4); discriminate.
Qed.

Lemma validatePassword_message (p : jsstring) :
  isValid (validatePassword p) = false ->
  message (validatePassword p)
  = Some (if Nat.ltb (List.length p) 8 then lengthMessage else classesMessage).
Proof.
  unfold validatePassword.
  destruct (Nat.ltb (List.length p) 8) eqn:Hlen.
  - rewrite orb_true_r. reflexivity.
  - apply Nat.ltb_ge in Hlen.
    assert (Ht : truthy p = true) by (destruct p; [simpl in Hlen; lia | reflexivity]).
    rewrite Ht. simpl.
    destruct (negb _ || _ || _ || _); simpl; [reflexivity | discriminate].
Qed.

Lemma validationResponse_rejected (p : jsstring) :
  isValid (validatePassword p) = false ->
  validationResponse (validatePassword p)
  = errorResponse 400
      (if Nat.ltb (List.length p) 8 then lengthMessage else classesMessage).
Proof.
  intros H. unfold validationResponse.
  rewrite (validatePassword_message p H). reflexivity.
Qed.

(** C6, as stated, fails: the password [abc] has no uppercase letter, no
    digit and no special character, and the reason it is rejected with is the
    length message, which names none of the missing classes. *)
Lemma C6_short_password_reason_names_no_class :
  validatePassword (js "abc") = mkValidation false (Some lengthMessage)
  /\ testClass isUpper (js "abc") = false
  /\ testClass isDigit (js "abc") = false
  /\ testClass isSpecialChar (js "abc") = false
  /\ mentions "uppercase" lengthMessage = false
  /\ mentions "number" lengthMessage = false
  /\ mentions "special character" lengthMessage = false.
Proof. repeat split; reflexivity. Qed.

(** C6 (amended).  [validatePassword] accepts a password if and only if it
    has at least 8 code units and contains an uppercase letter A-Z, a
    lowercase letter a-z, a digit and one of the listed special characters.
    Every rejection carries one of two fixed reasons: the length message
    when the password is shorter than 8, and otherwise one sentence that
    names all four classes, whichever of them are missing.  [signup] and
    [resetPassword] answer 400 with exactly that reason, the store
    untouched, once their earlier checks have passed. *)
Theorem C6_password_policy :
  forall (pe : ProcessEnv) (w : World) (b : Req.Body) (s : Store) (p : jsstring),
    (isValid (validatePassword p) = true <-> meetsPolicy p)
    /\ (isValid (validatePassword p) = false ->
        message (validatePassword p)
        = Some (if Nat.ltb (List.length p) 8 then lengthMessage
                else classesMessage))
    /\ (mentions "uppercase" classesMessage = true
        /\ mentions "lowercase" classesMessage = true
        /\ mentions "number" classesMessage = true
        /\ mentions "special character" classesMessage = true)
    /\ (forall mail,
          truthyStr (Req.email b) = Some mail -> isValidEmail mail = true ->
          truthyStr (Req.password b) = Some p ->
          isValid (validatePassword p) = false ->
          signup pe w b s
          = (errorResponse 400
               (if Nat.ltb (List.length p) 8 then lengthMessage
                else classesMessage), s))
    /\ (forall mail code,
          truthyStr (Req.email b) = Some mail -> isValidEmail mail = true ->
          truthyStr (Req.code b) = Some code ->
          truthyStr (Req.newPassword b) = Some p ->
          isValid (validatePassword p) = false ->
          resetPassword pe w b s
          = (errorResponse 400
               (if Nat.ltb (List.length p) 8 then lengthMessage
                else classesMessage), s)).
Proof.
  intros pe w b s p.
  split; [apply validatePassword_accepts |].
  split; [apply validatePassword_message |].
  split; [repeat split; reflexivity |].
  split.
  - intros mail Hm Hv Hp Hrej. unfold signup.
    rewrite Hm, Hp, Hv, Hrej. simpl.
    rewrite (validationResponse_rejected p Hrej). reflexivity.
  - intros mail code Hm Hv Hc Hp Hrej. unfold resetPassword.
    rewrite Hm, Hc, Hp, Hv, Hrej. simpl.
    rewrite (validationResponse_rejected p Hrej). reflexivity.
Qed.

(* ------------------------------------------------------------------------- *)
(** ** The lock status *)
(* ------------------------------------------------------------------------- *)

(** C8, as stated, fails: a document whose [lockUntil] lies in the future
    but whose [accountLocked] flag is off is not locked. *)
Lemma C8_future_lockUntil_without_flag_is_not_locked :
  lockUntil (lockedOutUser false (Some 2000)) = Some 2000
  /\ 1000 < 2000
  /\ isLocked 1000 (lockedOutUser false (Some 2000)) = false
  /\ isLocked 1000 (lockedOutUser true (Some 2000)) = true.
Proof. repeat split; reflexivity. Qed.

(** C8 (amended).  [isLocked] is true if and only if the [accountLocked]
    flag is set and [lockUntil] is set and lies strictly after the current
    time; [isAccountLocked] agrees with it.  The result depends on the
    document only through these two fields, so a lock lapses with no state
    change once [lockUntil] has passed. *)
Theorem C8_isLocked_iff :
  forall (now : Z) (u : User),
    (isLocked now u = true
     <-> accountLocked u = true /\ exists t, lockUntil u = Some t /\ now < t)
    /\ isAccountLocked now u = isLocked now u
    /\ (forall u' : User,
          accountLocked u' = accountLocked u -> lockUntil u' = lockUntil u ->
          isLocked now u' = isLocked now u)
    /\ (forall t later,
          lockUntil u = Some t -> t <= later -> isLocked later u = false).
Proof.
  intros now u. unfold isLocked, isAccountLocked.
  repeat split.
  - apply andb_true_iff in H. tauto.
  - apply andb_true_iff in H. destruct H as [_ H].
    destruct (lockUntil u) as [t|]; [|discriminate].
    exists t. split; [reflexivity | apply Z.ltb_lt; assumption].
  - intros [Ha (t & Ht & Hlt)]. rewrite Ha, Ht. simpl.
    apply Z.ltb_lt; assumption.
  - intros u' Ha Hl. rewrite Ha, Hl. reflexivity.
  - intros t later Ht Hle. rewrite Ht.
    replace (later <? t) with false by (symmetry; apply Z.ltb_ge; assumption).
    apply andb_false_r.
Qed.

(* ------------------------------------------------------------------------- *)
(** ** Outward-facing views of a document *)
(* ------------------------------------------------------------------------- *)

Lemma toSafeObject_keys (u : User) :
  keys (toSafeObject u)
  = ["id"; "email"; "name"; "fullName"; "emailVerified"; "profile";
     "lastLogin"; "isActive"; "createdAt"; "updatedAt"].
Proof. reflexivity. Qed.

Lemma toJSON_keys (now : Z) (u : User) :
  keys (toJSON now u)
  = ["_id"; "email"; "name"; "emailVerified"]
    ++ map fst (minimized "profile" (profileJSON (profile u)))
    ++ ["lastLogin"; "isActive"; "createdAt"; "updatedAt"; "fullName";
        "isLocked"; "id"].
Proof.
  unfold toJSON, toObject, profileJSON.
  destruct (emailVerification u), (passwordReset u), (profile u) as [[f|] [l|] [a|]];
    reflexivity.
Qed.

(** C9: the safe object and the sign-in view hold none of the private
    keys, and the JSON serialization drops the six keys its transform
    deletes; but, being built with [virtuals: true], it carries the computed
    lock status under [isLocked]. *)
Theorem C9_public_views :
  forall (now : Z) (u : User),
    noneOf privateKeys (toSafeObject u) = true
    /\ noneOf privateKeys (signinUser u) = true
    /\ noneOf deletedKeys (toJSON now u) = true
    /\ field "isLocked" (toJSON now u) = Some (JBool (isLocked now u)).
Proof.
  intros now u. unfold noneOf, hasKey.
  rewrite toSafeObject_keys, toJSON_keys.
  repeat split; try reflexivity.
  - unfold profileJSON. destruct (profile u) as [[f|] [l|] [a|]]; reflexivity.
  - unfold toJSON, toObject, profileJSON.
    destruct (emailVerification u), (passwordReset u),
             (profile u) as [[f|] [l|] [a|]]; reflexivity.
Qed.

(* ------------------------------------------------------------------------- *)
(** ** Tokens *)
(* ------------------------------------------------------------------------- *)

Lemma sign_inv (uid : N) (mail : jsstring) (secret : option jsstring)
    (expiresIn now : Z) (token : Jwt.Token) :
  Jwt.sign uid mail secret expiresIn now = Some token ->
  exists k, secret = Some k /\ truthy k = true
    /\ token = Jwt.Signed k
                 (Jwt.mkPayload uid mail (Jwt.clockTimestamp now)
                    (Jwt.clockTimestamp now + expiresIn)).
Proof.
  unfold Jwt.sign. destruct secret as [k|]; [|discriminate].
  destruct (truthy k) eqn:Hk; [|discriminate].
  intros H; injection H as <-. exists k. auto.
Qed.

(* ------------------------------------------------------------------------- *)
(** ** Trimming *)
(* ------------------------------------------------------------------------- *)

Lemma trimStart_head (s : jsstring) : headNotBlank (trimStart s).
Proof.
  induction s as [|c s IH]; simpl; [exact I|].
  destruct (isWhitespace c) eqn:Hc; [exact IH | exact Hc].
Qed.

Lemma trimStart_fixed (s : jsstring) : headNotBlank s -> trimStart s = s.
Proof. destruct s as [|c s]; simpl; [reflexivity | intros ->; reflexivity]. Qed.

Lemma trimStart_snoc (a : jsstring) (c : N) :
  isWhitespace c = false -> trimStart (a ++ [c]) = trimStart a ++ [c].
Proof.
  intros Hc. induction a as [|x a IH]; simpl.
  - rewrite Hc. reflexivity.
  - destruct (isWhitespace x); [exact IH | reflexivity].
Qed.

Lemma trimEnd_head (s : jsstring) : headNotBlank s -> headNotBlank (trimEnd s).
Proof.
  destruct s as [|c s]; simpl; [intros _; exact I|].
  intros Hc. unfold trimEnd. simpl.
  rewrite (trimStart_snoc _ _ Hc), rev_app_distr. simpl. exact Hc.
Qed.

Lemma trimEnd_idem (s : jsstring) : trimEnd (trimEnd s) = trimEnd s.
Proof.
  unfold trimEnd. rewrite rev_involutive.
  rewrite (trimStart_fixed _ (trimStart_head _)). reflexivity.
Qed.

Lemma trim_idem (s : jsstring) : trim (trim s) = trim s.
Proof.
  unfold trim.
  rewrite (trimStart_fixed (trimEnd (trimStart s))).
  - apply trimEnd_idem.
  - apply trimEnd_head, trimStart_head.
Qed.

Lemma castTrimmed_idem (v : option jsstring) :
  castTrimmed (castTrimmed v) = castTrimmed v.
Proof. destruct v; simpl; [rewrite trim_idem|]; reflexivity. Qed.

Lemma castProfile_idem (p : Profile) : castProfile (castProfile p) = castProfile p.
Proof. unfold castProfile; simpl. rewrite !castTrimmed_idem. reflexivity. Qed.

(* ------------------------------------------------------------------------- *)
(** ** The collection: finding and replacing documents *)
(* ------------------------------------------------------------------------- *)

Lemma findById_replace_same (u' : User) (s : Store) (u : User) :
  findById (_id u') s = Some u ->
  findById (_id u') (replaceById u' s) = Some u'.
Proof.
  unfold findById. induction s as [|v s IH]; simpl; [discriminate|].
  destruct (byId (_id u') v) eqn:Hv; simpl.
  - intros _. unfold byId. rewrite N.eqb_refl. reflexivity.
  - rewrite Hv. exact IH.
Qed.


Lemma map_id_replaceById (u' : User) (s : Store) :
  map _id (replaceById u' s) = map _id s.
Proof.
  induction s as [|v s IH]; simpl; [reflexivity|].
  destruct (byId (_id u') v) eqn:Hv; simpl.
  - unfold byId in Hv. apply N.eqb_eq in Hv. congruence.
  - rewrite IH. reflexivity.
Qed.

Lemma find_In {A : Type} (p : A -> bool) (l : list A) (x : A) :
  find p l = Some x -> In x l /\ p x = true.
Proof. apply find_some. Qed.

(** With distinct ids, replacing by id touches exactly the document it was
    derived from. *)
Lemma replaceById_Forall2 (R : User -> User -> Prop) (u u' : User) (s : Store) :
  (forall x, R x x) ->
  NoDup (map _id s) -> In u s -> _id u' = _id u -> R u u' ->
  Forall2 R s (replaceById u' s).
Proof.
  intros Hrefl Hnd Hin Hid Hr.
  assert (Hsame : forall l : Store, Forall2 R l l)
    by (induction l; constructor; auto).
  induction s as [|v s IH]; simpl; [constructor|].
  inversion Hnd as [|? ? Hnotin Hnd']; subst.
  destruct (byId (_id u') v) eqn:Hv.
  - unfold byId in Hv. apply N.eqb_eq in Hv.
    destruct Hin as [->|Hin].
    + constructor; [assumption | apply Hsame].
    + exfalso. apply Hnotin. rewrite Hv, Hid. apply in_map. assumption.
  - destruct Hin as [->|Hin].
    + unfold byId in Hv. apply N.eqb_neq in Hv. congruence.
    + constructor; [apply Hrefl | apply IH; assumption].
Qed.

Lemma Forall2_findOne (R : User -> User -> Prop) (e : jsstring) (s s1 : Store) :
  (forall x y, R x y -> email y = email x) ->
  Forall2 R s s1 ->
  match findOne e s with
  | Some u => exists u', findOne e s1 = Some u' /\ R u u'
  | None => findOne e s1 = None
  end.
Proof.
  intros Hmail H. unfold findOne. induction H as [|x y l l' Hxy _ IH]; simpl.
  - reflexivity.
  - assert (Hy : byEmail e y = byEmail e x)
      by (unfold byEmail; rewrite (Hmail _ _ Hxy); reflexivity).
    rewrite Hy. destruct (byEmail e x); [eauto | exact IH].
Qed.

Lemma Forall2_findById (R : User -> User -> Prop) (i : N) (s s1 : Store) :
  (forall x y, R x y -> _id y = _id x) ->
  Forall2 R s s1 ->
  match findById i s with
  | Some u => exists u', findById i s1 = Some u' /\ R u u'
  | None => findById i s1 = None
  end.
Proof.
  intros Hid H. unfold findById. induction H as [|x y l l' Hxy _ IH]; simpl.
  - reflexivity.
  - assert (Hy : byId i y = byId i x)
      by (unfold byId; rewrite (Hid _ _ Hxy); reflexivity).
    rewrite Hy. destruct (byId i x); [eauto | exact IH].
Qed.

Lemma find_app_Some {A : Type} (p : A -> bool) (l extra : list A) (x : A) :
  find p l = Some x -> find p (l ++ extra) = Some x.
Proof.
  induction l as [|a l IH]; simpl; [discriminate|].
  destruct (p a); [auto | exact IH].
Qed.

(* ------------------------------------------------------------------------- *)
(** ** What one request can do to the collection *)
(* ------------------------------------------------------------------------- *)

Lemma Evolves_refl (r : Request) (u : User) : Evolves r u u.
Proof. constructor; auto. Qed.

Lemma Forall2_Evolves_refl (r : Request) (s : Store) : Forall2 (Evolves r) s s.
Proof. induction s; constructor; auto using Evolves_refl. Qed.

Lemma step_same (r : Request) (s : Store) : StoreStep r s s.
Proof.
  exists s, []. rewrite app_nil_r.
  repeat split; auto using Forall2_Evolves_refl.
Qed.

Lemma step_replace (r : Request) (s : Store) (u u' : User) :
  NoDup (map _id s) -> In u s -> Evolves r u u' ->
  StoreStep r s (replaceById u' s).
Proof.
  intros Hnd Hin Hev. exists (replaceById u' s), []. rewrite app_nil_r.
  repeat split; auto.
  apply replaceById_Forall2 with (u := u); auto using Evolves_refl.
  apply (ev_id _ _ _ Hev).
Qed.

Lemma step_insert (r : Request) (s : Store) (x : User) :
  NewDoc s x -> StoreStep r s (s ++ [x]).
Proof.
  intros Hx. exists s, [x]. split; [reflexivity|]. split.
  - apply Forall2_Evolves_refl.
  - right. exists x. split; [reflexivity | exact Hx].
Qed.

Lemma freshId_notin (s : Store) : ~ In (freshId s) (map _id s).
Proof.
  unfold freshId.
  assert (H : forall i, In i (map _id s) ->
                        (i <= fold_right N.max 0 (map _id s))%N).
  { induction (map _id s) as [|a l IH]; simpl; [tauto|].
    intros i [->|Hi]; [lia | specialize (IH i Hi); lia]. }
  intros Hin. specialize (H _ Hin). lia.
Qed.

Lemma byEmail_eq (e : jsstring) (u : User) : byEmail e u = true -> email u = e.
Proof. unfold byEmail. apply jseqb_eq. Qed.

Lemma orElse_trimmed (v : JsValue) (stored : option jsstring) :
  castTrimmed stored = stored ->
  castTrimmed (orElse (optTrim v) stored) = orElse (optTrim v) stored.
Proof.
  intros Hs. unfold orElse.
  destruct (truthy_opt (optTrim v)); [|exact Hs].
  destruct v; simpl; try reflexivity. rewrite trim_idem. reflexivity.
Qed.

Lemma validate_preSave (now : Z) (u : User) :
  validate (preSave now u) = validate u.
Proof.
  unfold preSave.
  destruct (expiredAt now (emailVerification (set_updatedAt now u)));
    destruct (expiredAt now (passwordReset _)); reflexivity.
Qed.

Lemma preSave_Evolves (r : Request) (now : Z) (u u' : User) :
  Evolves r u u' -> Evolves r u (preSave now u').
Proof.
  intros [H1 H2 H3 H4 H5 H6 H7].
  constructor; try (intros Hu; specialize (H7 Hu); unfold user_ok in *;
                    rewrite validate_preSave);
    unfold preSave;
    destruct (expiredAt now (emailVerification (set_updatedAt now u')));
    destruct (expiredAt now (passwordReset _));
    simpl; auto; intuition auto.
Qed.

Lemma save_StoreStep (r : Request) (now : Z) (u u' x : User) (s s' : Store) :
  save now u' s = inl (x, s') ->
  NoDup (map _id s) -> In u s -> (validate u' = [] -> Evolves r u u') ->
  StoreStep r s s' /\ x = preSave now u'.
Proof.
  unfold save. destruct (validate u') eqn:Hv; [|discriminate].
  intros H; injection H as <- <-. intros Hnd Hin Hev.
  split; [|reflexivity].
  apply step_replace with (u := u); auto using preSave_Evolves.
Qed.

Lemma preSave_id (now : Z) (u : User) : _id (preSave now u) = _id u.
Proof. apply (ev_id PostLogout u), preSave_Evolves, Evolves_refl. Qed.

Lemma preSave_ok (now : Z) (u : User) : user_ok u -> user_ok (preSave now u).
Proof. apply (ev_ok PostLogout u), preSave_Evolves, Evolves_refl. Qed.

Lemma preSave_lock (now : Z) (u : User) :
  loginAttempts (preSave now u) = loginAttempts u
  /\ accountLocked (preSave now u) = accountLocked u
  /\ lockUntil (preSave now u) = lockUntil u.
Proof. apply (ev_lock PostLogout u), preSave_Evolves, Evolves_refl. Qed.

Lemma saveNew_StoreStep (r : Request) (now : Z) (u x : User) (s s' : Store) :
  saveNew now u s = inl (x, s') ->
  (validate u = [] -> user_ok u) -> _id u = freshId s ->
  loginAttempts u = 0 -> accountLocked u = false -> lockUntil u = None ->
  StoreStep r s s'.
Proof.
  unfold saveNew. destruct (validate u) eqn:Hv; [|discriminate].
  destruct (existsb _ s); [discriminate|].
  intros H; injection H as <- <-. intros Hok Hid Ha Hl Hu.
  specialize (Hok eq_refl).
  apply step_insert. unfold NewDoc.
  destruct (preSave_lock now u) as (E1 & E2 & E3).
  rewrite preSave_id, Hid, E1, E2, E3.
  auto using preSave_ok, freshId_notin.
Qed.

(** Case analysis on the innermost scrutinee of the goal. *)
Ltac break_match :=
  match goal with
  | |- context [match ?x with _ => _ end] =>
      lazymatch x with
      | context [match _ with _ => _ end] => fail
      | _ => destruct x eqn:?
      end
  end.

(** Facts about the documents found in the collection. *)
Ltac found_facts :=
  repeat match goal with
    | H : findOne ?e ?s = Some ?u |- _ =>
        let Hin := fresh "Hin" in
        let Hmail := fresh "Hmail" in
        destruct (find_In _ _ _ H) as [Hin Hmail];
        apply byEmail_eq in Hmail; clear H
    | H : findById ?i ?s = Some ?u |- _ =>
        let Hin := fresh "Hin" in
        destruct (find_In _ _ _ H) as [Hin _]; clear H
    end.

Ltac solve_evolves :=
  unfold assign_name, assign_profile;
  let Hv := fresh "Hv" in
  intros Hv;
  constructor;
  cbn [_id email passwordHash name emailVerified emailVerification
       passwordReset profile lastLogin loginAttempts accountLocked lockUntil
       isActive createdAt updatedAt
       set_passwordHash set_name set_emailVerified set_emailVerification
       set_passwordReset set_profile set_lastLogin set_isActive];
  try solve [ auto
            | intros; left; reflexivity
            | intros; right; do 2 eexists; repeat split; eauto; congruence
            | unfold user_ok;
              cbn [_id email passwordHash name emailVerified emailVerification
                   passwordReset profile lastLogin loginAttempts accountLocked
                   lockUntil isActive createdAt updatedAt
                   set_passwordHash set_name set_emailVerified
                   set_emailVerification set_passwordReset set_profile
                   set_lastLogin set_isActive];
              intros (? & ? & ? & ?);
              repeat split; auto using castTrimmed_idem, castProfile_idem;
              congruence ].

Lemma newUser_ok (s : Store) (now : Z) (mail : jsstring) (pw : Bcrypt.Digest)
    (nm : option jsstring) (code : PendingCode) :
  validate (newUser s now mail pw nm code) = [] ->
  user_ok (newUser s now mail pw nm code).
Proof.
  intros Hv. unfold user_ok. rewrite Hv.
  unfold newUser; cbn. rewrite castTrimmed_idem.
  repeat split; auto; discriminate.
Qed.

Ltac step_leaf :=
  cbn [fst snd];
  first
    [ apply step_same
    | match goal with
      | Hs : save _ _ ?s = inl (_, ?s') |- StoreStep _ ?s ?s' =>
          found_facts;
          eapply save_StoreStep;
          [ exact Hs | assumption | eassumption | solve_evolves ]
      | Hs : saveNew _ _ ?s = inl (_, ?s') |- StoreStep _ ?s ?s' =>
          eapply saveNew_StoreStep;
          [ exact Hs | apply newUser_ok | reflexivity .. ]
      end ].

Lemma trimOrNull_trimmed (v : JsValue) :
  castTrimmed (trimOrNull v) = trimOrNull v.
Proof. apply orElse_trimmed. reflexivity. Qed.

Lemma handle_step (pe : ProcessEnv) (w : World) (r : Request) (s : Store) :
  NoDup (map _id s) -> StoreStep r s (snd (handle pe w r s)).
Proof.
  intros Hnd.
  destruct r; unfold handle,
    AuthRoutes.postSignup, AuthRoutes.postVerifyEmail, AuthRoutes.postSignin,
    AuthRoutes.postResendVerification, AuthRoutes.postForgotPassword,
    AuthRoutes.postResetPassword, AuthRoutes.postLogout,
    AuthRoutes.postDevVerifyEmail, AuthRoutes.postDevResetPassword,
    AuthRoutes.guarded, AuthRoutes.validateEmailInput,
    signup, verifyEmail, signin, resendVerification, forgotPassword,
    resetPassword, logout, devVerifyEmail, devResetPassword,
    ProtectedRoutes.getMe, ProtectedRoutes.putMe, ProtectedRoutes.deleteMe,
    ProtectedRoutes.getAccountStats;
    try match goal with
      | |- context [ProtectedRoutes.mergeField] =>
          destruct (Req.name b), (Req.profile b)
      end;
    repeat break_match; step_leaf.
Qed.

(* ------------------------------------------------------------------------- *)
(** ** Invariants of the reachable collections *)
(* ------------------------------------------------------------------------- *)

Lemma Forall2_Evolves_ids (r : Request) (s s1 : Store) :
  Forall2 (Evolves r) s s1 -> map _id s1 = map _id s.
Proof.
  induction 1 as [|x y l l' Hxy _ IH]; simpl; [reflexivity|].
  rewrite (ev_id _ _ _ Hxy), IH. reflexivity.
Qed.

Lemma Forall2_Evolves_ok (r : Request) (s s1 : Store) :
  Forall2 (Evolves r) s s1 -> Forall user_ok s -> Forall user_ok s1.
Proof.
  induction 1 as [|x y l l' Hxy _ IH]; intros H; [constructor|].
  inversion H; subst. constructor; [apply (ev_ok _ _ _ Hxy) | apply IH]; auto.
Qed.

Lemma Forall2_Evolves_lock (r : Request) (s s1 : Store) :
  Forall2 (Evolves r) s s1 -> Forall neverLocked s -> Forall neverLocked s1.
Proof.
  induction 1 as [|x y l l' Hxy _ IH]; intros H; [constructor|].
  inversion H as [|? ? Hx Hl]; subst. constructor; [|apply IH; assumption].
  destruct (ev_lock _ _ _ Hxy) as (E1 & E2 & E3).
  unfold neverLocked in *. rewrite E1, E2, E3. exact Hx.
Qed.

Lemma StoreStep_ok (r : Request) (s s' : Store) :
  StoreStep r s s' -> store_ok s -> store_ok s'.
Proof.
  intros (s1 & extra & -> & H2 & Hextra) (Hnd & Hok & Hlk).
  unfold store_ok. rewrite map_app, (Forall2_Evolves_ids _ _ _ H2).
  pose proof (Forall2_Evolves_ok _ _ _ H2 Hok) as Hok1.
  pose proof (Forall2_Evolves_lock _ _ _ H2 Hlk) as Hlk1.
  destruct Hextra as [->|(x & -> & Hx & Hfresh & Hlock)]; simpl.
  - rewrite !app_nil_r. auto.
  - repeat split.
    + apply NoDup_app; [assumption | repeat constructor; simpl; tauto |].
      intros i Hi [<-|[]]. apply Hfresh; exact Hi.
    + apply Forall_app; split; [assumption|].
      constructor; [assumption | constructor].
    + apply Forall_app; split; [assumption|].
      constructor; [exact Hlock | constructor].
Qed.

Lemma handle_ok (pe : ProcessEnv) (w : World) (r : Request) (s : Store) :
  store_ok s -> store_ok (snd (handle pe w r s)).
Proof.
  intros H. apply (StoreStep_ok r s); [|exact H].
  apply handle_step. apply H.
Qed.

Lemma Reachable_ok (pe : ProcessEnv) (s : Store) : Reachable pe s -> store_ok s.
Proof.
  induction 1 as [|w r s _ IH].
  - repeat split; constructor.
  - apply handle_ok; exact IH.
Qed.

Lemma run_ok (pe : ProcessEnv) (events : list (World * Request)) (s : Store) :
  store_ok s -> store_ok (snd (run pe events s)).
Proof.
  revert s; induction events as [|[w r] rest IH]; intros s Hok; simpl;
    [exact Hok|].
  destruct (handle pe w r s) as [resp s1] eqn:Hh.
  specialize (IH s1). destruct (run pe rest s1) as [resps s2]. simpl in *.
  apply IH. change s1 with (snd (resp, s1)). rewrite <- Hh.
  apply handle_ok; exact Hok.
Qed.

Lemma run_Reachable (pe : ProcessEnv) (events : list (World * Request))
    (s : Store) :
  Reachable pe s -> Reachable pe (snd (run pe events s)).
Proof.
  revert s; induction events as [|[w r] rest IH]; intros s Hr; simpl;
    [exact Hr|].
  destruct (handle pe w r s) as [resp s1] eqn:Hh.
  specialize (IH s1). destruct (run pe rest s1) as [resps s2]. simpl in *.
  apply IH. change s1 with (snd (resp, s1)). rewrite <- Hh.
  apply reach_step; exact Hr.
Qed.

(* ------------------------------------------------------------------------- *)
(** ** Following one account through a run *)
(* ------------------------------------------------------------------------- *)

Lemma findOne_replace (e : jsstring) (u u' : User) (s : Store) :
  NoDup (map _id s) -> findOne e s = Some u ->
  _id u' = _id u -> email u' = email u ->
  findOne e (replaceById u' s) = Some u'.
Proof.
  intros Hnd Hf Hid Hmail. unfold findOne in *.
  induction s as [|v s IH]; simpl in *; [discriminate|].
  inversion Hnd as [|? ? Hnotin Hnd']; subst.
  destruct (byEmail e v) eqn:Hv.
  - injection Hf as ->.
    replace (byId (_id u') u) with true
      by (unfold byId; rewrite Hid; symmetry; apply N.eqb_refl).
    simpl. unfold byEmail in *. rewrite Hmail, Hv. reflexivity.
  - destruct (byId (_id u') v) eqn:Hb.
    + exfalso. apply Hnotin. unfold byId in Hb. apply N.eqb_eq in Hb.
      rewrite Hb, Hid. apply in_map. apply (find_In _ _ _ Hf).
    + simpl. rewrite Hv. apply IH; assumption.
Qed.







Lemma save_inl (now : Z) (u x : User) (s s' : Store) :
  save now u s = inl (x, s') ->
  x = preSave now u /\ s' = replaceById (preSave now u) s.
Proof.
  unfold save. destruct (validate u); [|discriminate].
  intros H; injection H as <- <-. auto.
Qed.

Lemma save_valid (now : Z) (u : User) (s : Store) :
  validate u = [] ->
  save now u s = inl (preSave now u, replaceById (preSave now u) s).
Proof. unfold save. intros ->. reflexivity. Qed.

(* ------------------------------------------------------------------------- *)
(** ** Verification codes *)
(* ------------------------------------------------------------------------- *)

Lemma hashCode_not_empty (code : jsstring) : emptyString (hashCode code) = false.
Proof.
  unfold hashCode, Sha256.sha256hex, Sha256.hex, Sha256.hexWord.
  destruct (Sha256.digest (utf8 code)). reflexivity.
Qed.

Lemma Reachable_found_ok (pe : ProcessEnv) (s : Store) (e : jsstring) (u : User) :
  Reachable pe s -> findOne e s = Some u -> user_ok u /\ neverLocked u.
Proof.
  intros Hr Hf. destruct (Reachable_ok pe s Hr) as (_ & Hok & Hlk).
  destruct (find_In _ _ _ Hf) as [Hin _].
  rewrite Forall_forall in Hok, Hlk. auto.
Qed.

Lemma signedUp_Reachable : Reachable demoEnv signedUp.
Proof. apply run_Reachable, reach_empty. Qed.

(** C5, as stated, fails: the pending code is 123456 and has not expired;
    the submission carries blanks around it, so its hash differs from the
    stored one, and it is accepted all the same. *)
Lemma C5_padded_code_is_accepted :
  exists u pending,
    findOne (js "a@x.com") signedUp = Some u
    /\ emailVerification u = Some pending
    /\ codeHash pending = hashCode (js "123456")
    /\ 2000 <= expiresAt pending
    /\ hashCode (js " 123456 ") <> codeHash pending
    /\ status (fst (handle demoEnv (demoWorld 2000)
                      (PostVerifyEmail (codeBody "a@x.com" " 123456 ")) signedUp))
       = 200.
Proof.
  eexists. eexists.
  split; [vm_compute; reflexivity|].
  split; [reflexivity|].
  split; [vm_compute; reflexivity|].
  split; [vm_compute; discriminate|].
  split; [vm_compute; discriminate|].
  vm_compute; reflexivity.
Qed.

(** C5 (amended).  For every account of a reachable collection that holds a
    pending verification code, and every non-empty submitted code,
    [verifyEmail] succeeds if and only if the current time is at most
    [expiresAt] and the SHA-256 hash of the submitted code with the blanks
    around it trimmed off equals the stored [codeHash]; so a submission
    exactly at [expiresAt] with a matching hash succeeds. *)
Theorem C5_verification_succeeds_iff :
  forall (pe : ProcessEnv) (w : World) (b : Req.Body) (s : Store)
         (mail code : jsstring) (u : User) (pending : PendingCode),
    Reachable pe s ->
    truthyStr (Req.email b) = Some mail -> isValidEmail mail = true ->
    truthyStr (Req.code b) = Some code ->
    findOne (normalizeEmail mail) s = Some u ->
    emailVerification u = Some pending ->
    (status (fst (handle pe w (PostVerifyEmail b) s)) = 200
     <-> now w <= expiresAt pending
         /\ hashCode (trim code) = codeHash pending)
    /\ (now w = expiresAt pending ->
        hashCode (trim code) = codeHash pending ->
        status (fst (handle pe w (PostVerifyEmail b) s)) = 200).
Proof.
  intros pe w b s mail code u pending Hr Hm Hv Hc Hf Hp.
  destruct (Reachable_found_ok pe s _ u Hr Hf) as [(_ & _ & Hver & Hval) _].
  assert (Hunv : emailVerified u = false).
  { destruct (emailVerified u); [|reflexivity].
    rewrite (Hver eq_refl) in Hp. discriminate. }
  assert (Hiff : status (fst (handle pe w (PostVerifyEmail b) s)) = 200
                 <-> now w <= expiresAt pending
                     /\ hashCode (trim code) = codeHash pending).
  { unfold handle, AuthRoutes.postVerifyEmail, AuthRoutes.guarded,
      AuthRoutes.validateEmailInput, verifyEmail.
    rewrite Hm, Hv, Hc, Hf, Hunv, Hp. cbn [negb].
    destruct (emptyString (codeHash pending)) eqn:He.
    { cbn [fst status errorResponse]. split; [discriminate|]. intros [_ Hh].
      rewrite <- Hh, hashCode_not_empty in He. discriminate. }
    destruct (expiresAt pending <? now w) eqn:Hexp.
    { cbn [fst status errorResponse]. apply Z.ltb_lt in Hexp.
      split; [discriminate | lia]. }
    apply Z.ltb_ge in Hexp.
    destruct (String.eqb (hashCode (trim code)) (codeHash pending)) eqn:Hh.
    - apply String.eqb_eq in Hh. cbn [negb].
      rewrite save_valid by exact Hval.
      cbn [fst status messageResponse]. tauto.
    - apply String.eqb_neq in Hh. cbn [negb fst status errorResponse].
      split; [discriminate | tauto]. }
  split; [exact Hiff|].
  intros Hnow Hh. apply Hiff. split; [lia | exact Hh].
Qed.

(** The code 123456, submitted at the very instant it expires (901000),
    is accepted. *)
Lemma C5_verification_succeeds_iff_witness :
  status (fst (handle demoEnv (demoWorld 901000)
                 (PostVerifyEmail (codeBody "a@x.com" "123456")) signedUp)) = 200.
Proof.
  refine (proj2 (C5_verification_succeeds_iff demoEnv (demoWorld 901000)
                   (codeBody "a@x.com" "123456") signedUp (js "a@x.com")
                   (js "123456") _ _ signedUp_Reachable eq_refl eq_refl eq_refl
                   _ _) _ _);
    vm_compute; reflexivity.
Defined.

(* ------------------------------------------------------------------------- *)
(** ** Codes are consumed by their use *)
(* ------------------------------------------------------------------------- *)

Ltac unfold_auth_route :=
  unfold handle,
    AuthRoutes.postSignup, AuthRoutes.postVerifyEmail, AuthRoutes.postSignin,
    AuthRoutes.postResendVerification, AuthRoutes.postForgotPassword,
    AuthRoutes.postResetPassword, AuthRoutes.guarded,
    AuthRoutes.validateEmailInput,
    signup, verifyEmail, signin, resendVerification, forgotPassword,
    resetPassword.

Ltac reduce_response :=
  cbn [fst snd status errorResponse messageResponse invalidEmailResponse
       validationResponse].









Lemma resetPending_Reachable : Reachable demoEnv resetPending.
Proof. apply run_Reachable, reach_empty. Qed.


(* ------------------------------------------------------------------------- *)
(** ** Sign-in and the lock fields *)
(* ------------------------------------------------------------------------- *)

Lemma signin_wrong_password (pe : ProcessEnv) (w : World) (b : Req.Body)
    (s : Store) (mail password : jsstring) (u : User) :
  truthyStr (Req.email b) = Some mail -> isValidEmail mail = true ->
  truthyStr (Req.password b) = Some password ->
  findOne (normalizeEmail mail) s = Some u ->
  Bcrypt.compare password (passwordHash u) = false ->
  handle pe w (PostSignin b) s = (errorResponse 401 "Invalid email or password", s).
Proof.
  intros Hm Hv Hp Hf Hc. unfold_auth_route.
  rewrite Hm, Hv, Hp, Hf, Hc. reflexivity.
Qed.

(** C1: what the code does instead.  No request ever changes the lock
    fields: in every reachable collection each account has
    [loginAttempts = 0], [accountLocked = false] and [lockUntil = null], so
    [isLocked] is false at all times; and a sign-in with a wrong password
    answers 401 and leaves the collection exactly as it was, however many
    times it is repeated. *)
Theorem C1_signin_never_locks :
  forall (pe : ProcessEnv) (s : Store),
    Reachable pe s ->
    (forall u, In u s ->
       loginAttempts u = 0 /\ accountLocked u = false /\ lockUntil u = None
       /\ forall t, isLocked t u = false)
    /\ (forall (attempts : list (World * Req.Body)) (mail password : jsstring)
               (u : User),
          findOne (normalizeEmail mail) s = Some u ->
          isValidEmail mail = true ->
          Bcrypt.compare password (passwordHash u) = false ->
          Forall (fun a => truthyStr (Req.email (snd a)) = Some mail
                           /\ truthyStr (Req.password (snd a)) = Some password)
                 attempts ->
          run pe (map (fun a => (fst a, PostSignin (snd a))) attempts) s
          = (map (fun _ => errorResponse 401 "Invalid email or password") attempts,
             s)).
Proof.
  intros pe s Hr. destruct (Reachable_ok pe s Hr) as (_ & _ & Hlk).
  split.
  - intros u Hin. rewrite Forall_forall in Hlk.
    destruct (Hlk u Hin) as (H1 & H2 & H3). repeat split; auto.
    intros t. unfold isLocked. rewrite H2. reflexivity.
  - intros attempts mail password u Hf Hv Hc Hall.
    induction Hall as [|[w b] rest [Hm Hp] _ IH]; [reflexivity|].
    cbn [map run fst snd] in *.
    rewrite (signin_wrong_password pe w b s mail password u Hm Hv Hp Hf Hc).
    rewrite IH. reflexivity.
Qed.

Lemma verifiedAccount_Reachable : Reachable demoEnv verifiedAccount.
Proof. apply run_Reachable, reach_empty. Qed.

(** Five sign-ins with a wrong password, a minute apart, then the correct
    password in the sixth minute: five 401s and a 200. *)
Lemma C1_signin_never_locks_witness :
  run demoEnv
    (map (fun a => (fst a, PostSignin (snd a)))
       [wrongAttempt 60000; wrongAttempt 120000; wrongAttempt 180000;
        wrongAttempt 240000; wrongAttempt 300000])
    verifiedAccount
  = (map (fun _ => errorResponse 401 "Invalid email or password")
       [wrongAttempt 60000; wrongAttempt 120000; wrongAttempt 180000;
        wrongAttempt 240000; wrongAttempt 300000],
     verifiedAccount)
  /\ status (fst (handle demoEnv (demoWorld 360000)
                    (PostSignin (signupBody "a@x.com" "Abcd123!"))
                    verifiedAccount)) = 200.
Proof.
  split; [|vm_compute; reflexivity].
  refine (proj2 (C1_signin_never_locks demoEnv verifiedAccount
                   verifiedAccount_Reachable) _ (js "a@x.com") (js "Wrong123!")
                _ _ _ _ _).
  - vm_compute; reflexivity.
  - vm_compute; reflexivity.
  - vm_compute; reflexivity.
  - repeat constructor.
Defined.

(* ------------------------------------------------------------------------- *)
(** ** Forgot password *)
(* ------------------------------------------------------------------------- *)

(** C4: what the code does.  For a well-formed email, [forgotPassword]
    answers 200 with the fixed message when no account has that email, and
    also when one has and the reset mail is delivered; but when the account
    exists and the delivery throws, the answer is 500 with an error, so the
    two responses differ. *)
Theorem C4_forgotPassword_responses :
  forall (pe : ProcessEnv) (w : World) (b : Req.Body) (s : Store)
         (mail : jsstring),
    Reachable pe s ->
    truthyStr (Req.email b) = Some mail -> isValidEmail mail = true ->
    (findOne (normalizeEmail mail) s = None ->
       handle pe w (PostForgotPassword b) s = (messageResponse 200 successMessage, s))
    /\ (forall u, findOne (normalizeEmail mail) s = Some u ->
          mailDelivers w = true ->
          fst (handle pe w (PostForgotPassword b) s)
          = messageResponse 200 successMessage)
    /\ (forall u, findOne (normalizeEmail mail) s = Some u ->
          mailDelivers w = false ->
          fst (handle pe w (PostForgotPassword b) s)
          = errorResponse 500
              "Failed to process password reset request. Please try again.").
Proof.
  intros pe w b s mail Hr Hm Hv.
  split; [|split].
  - intros Hf. unfold_auth_route. rewrite Hm, Hv, Hf. reflexivity.
  - intros u Hf Hd.
    destruct (Reachable_found_ok pe s _ u Hr Hf) as [(_ & _ & _ & Hval) _].
    unfold_auth_route. rewrite Hm, Hv, Hf. cbn [negb].
    rewrite save_valid by exact Hval.
    unfold sendResetEmail. rewrite Hd. reflexivity.
  - intros u Hf Hd.
    destruct (Reachable_found_ok pe s _ u Hr Hf) as [(_ & _ & _ & Hval) _].
    unfold_auth_route. rewrite Hm, Hv, Hf. cbn [negb].
    rewrite save_valid by exact Hval.
    unfold sendResetEmail. rewrite Hd. reflexivity.
Qed.

(** With the mail transport down: 500 for the existing account, 200 for
    an unknown address. *)
Lemma C4_forgotPassword_responses_witness :
  fst (handle demoEnv (mailDown 3000) (PostForgotPassword (mailBody "a@x.com"))
         verifiedAccount)
  = errorResponse 500 "Failed to process password reset request. Please try again."
  /\ fst (handle demoEnv (mailDown 3000) (PostForgotPassword (mailBody "b@x.com"))
            verifiedAccount)
     = messageResponse 200 successMessage.
Proof.
  split.
  - refine (proj2 (proj2 (C4_forgotPassword_responses demoEnv (mailDown 3000)
              (mailBody "a@x.com") verifiedAccount (js "a@x.com")
              verifiedAccount_Reachable eq_refl _)) _ _ eq_refl);
      vm_compute; reflexivity.
  - vm_compute; reflexivity.
Defined.

(* ------------------------------------------------------------------------- *)
(** ** Deactivated accounts *)
(* ------------------------------------------------------------------------- *)









(* ------------------------------------------------------------------------- *)
(** ** Updating the profile *)
(* ------------------------------------------------------------------------- *)



Lemma byId_eq (i : N) (u : User) : byId i u = true -> _id u = i.
Proof. unfold byId. apply N.eqb_eq. Qed.




Lemma withFirstName_Reachable : Reachable demoEnv withFirstName.
Proof. apply run_Reachable, reach_empty. Qed.


(* ========================================================================= *)
(** * Further properties of the code *)
(* ========================================================================= *)

(* ------------------------------------------------------------------------- *)
(** ** Email addresses: the pattern and the normal form *)
(* ------------------------------------------------------------------------- *)

Ltac not_blank :=
  unfold isWhitespace;
  repeat (apply orb_false_intro);
  first [ apply N.eqb_neq; lia
        | apply andb_false_iff; rewrite !N.leb_gt; lia ].

Lemma lowerUnit_cases (c : N) :
  lowerUnit c = c
  \/ (lowerUnit c = c + 32 /\ (65 <= c <= 90 \/ 192 <= c <= 222))%N.
Proof.
  unfold lowerUnit.
  destruct ((65 <=? c)%N && (c <=? 90)%N) eqn:H1.
  - apply andb_true_iff in H1. rewrite !N.leb_le in H1. right. lia.
  - destruct ((192 <=? c)%N && (c <=? 222)%N && negb (c =? 215)%N) eqn:H2.
    + rewrite !andb_true_iff, !N.leb_le in H2. right. lia.
    + left. reflexivity.
Qed.

Lemma isWhitespace_lowerUnit (c : N) : isWhitespace (lowerUnit c) = isWhitespace c.
Proof.
  destruct (lowerUnit_cases c) as [E | [E Hc]]; rewrite E; [reflexivity|].
  transitivity false; [|symmetry]; not_blank.
Qed.

Lemma lowerUnit_idem (c : N) : lowerUnit (lowerUnit c) = lowerUnit c.
Proof.
  destruct (lowerUnit_cases c) as [E | [E Hc]]; rewrite !E; [reflexivity|].
  unfold lowerUnit.
  replace ((65 <=? c + 32)%N && (c + 32 <=? 90)%N) with false
    by (symmetry; apply andb_false_iff; rewrite !N.leb_gt; lia).
  replace ((192 <=? c + 32)%N && (c + 32 <=? 222)%N) with false
    by (symmetry; apply andb_false_iff; rewrite !N.leb_gt; lia).
  reflexivity.
Qed.

Lemma emailChar_lowerUnit (c : N) : emailChar (lowerUnit c) = emailChar c.
Proof.
  unfold emailChar. rewrite isWhitespace_lowerUnit. f_equal. f_equal.
  destruct (lowerUnit_cases c) as [E | [E Hc]]; rewrite E; [reflexivity|].
  transitivity false; [|symmetry]; apply N.eqb_neq; lia.
Qed.

Lemma trimStart_toLowerCase (s : jsstring) :
  trimStart (toLowerCase s) = toLowerCase (trimStart s).
Proof.
  induction s as [|c s IH]; simpl; [reflexivity|].
  rewrite isWhitespace_lowerUnit. destruct (isWhitespace c); [exact IH | reflexivity].
Qed.

Lemma trim_toLowerCase (s : jsstring) :
  trim (toLowerCase s) = toLowerCase (trim s).
Proof.
  unfold trim, trimEnd. rewrite trimStart_toLowerCase.
  unfold toLowerCase at 1. rewrite <- map_rev.
  change (map lowerUnit (rev (trimStart s))) with (toLowerCase (rev (trimStart s))).
  rewrite trimStart_toLowerCase. unfold toLowerCase. rewrite map_rev. reflexivity.
Qed.

Lemma toLowerCase_idem (s : jsstring) : toLowerCase (toLowerCase s) = toLowerCase s.
Proof.
  unfold toLowerCase. rewrite map_map. apply map_ext. apply lowerUnit_idem.
Qed.

Lemma normalizeEmail_idem (mail : jsstring) :
  normalizeEmail (normalizeEmail mail) = normalizeEmail mail.
Proof.
  unfold normalizeEmail.
  rewrite (trim_toLowerCase mail), toLowerCase_idem, <- trim_toLowerCase.
  apply trim_idem.
Qed.

Lemma castEmail_normalizeEmail (mail : jsstring) :
  castEmail (normalizeEmail mail) = normalizeEmail mail.
Proof. exact (normalizeEmail_idem mail). Qed.

Lemma forallb_emailChar_lower (a : jsstring) :
  forallb emailChar (toLowerCase a) = forallb emailChar a.
Proof.
  induction a as [|c a IH]; simpl; [reflexivity|].
  rewrite emailChar_lowerUnit, IH. reflexivity.
Qed.

Lemma emailChar_not_blank (c : N) : emailChar c = true -> isWhitespace c = false.
Proof.
  unfold emailChar. intros H. apply andb_true_iff in H. destruct H as [H _].
  apply negb_true_iff in H. exact H.
Qed.

Lemma pattern_no_blank (s : jsstring) :
  matchesEmailPattern s -> forallb (fun c => negb (isWhitespace c)) s = true.
Proof.
  intros (a & b & c & -> & _ & _ & _ & Ha & Hb & Hc).
  assert (Hsub : forall l, forallb emailChar l = true ->
                   forallb (fun c => negb (isWhitespace c)) l = true).
  { intros l Hl. rewrite forallb_forall in *. intros x Hx.
    rewrite (emailChar_not_blank x (Hl x Hx)). reflexivity. }
  rewrite forallb_app. simpl. rewrite forallb_app. simpl.
  rewrite (Hsub a Ha), (Hsub b Hb), (Hsub c Hc). reflexivity.
Qed.

Lemma trimStart_no_blank (s : jsstring) :
  forallb (fun c => negb (isWhitespace c)) s = true -> trimStart s = s.
Proof.
  destruct s as [|c s]; simpl; [reflexivity|].
  intros H. apply andb_true_iff in H. destruct H as [H _].
  apply negb_true_iff in H. rewrite H. reflexivity.
Qed.

Lemma trim_no_blank (s : jsstring) :
  forallb (fun c => negb (isWhitespace c)) s = true -> trim s = s.
Proof.
  intros H. unfold trim, trimEnd. rewrite (trimStart_no_blank s H).
  rewrite trimStart_no_blank; [apply rev_involutive|].
  rewrite forallb_forall in *. intros x Hx. apply H. apply in_rev. exact Hx.
Qed.

Lemma pattern_toLowerCase (s : jsstring) :
  matchesEmailPattern s -> matchesEmailPattern (toLowerCase s).
Proof.
  intros (a & b & c & -> & Ha0 & Hb0 & Hc0 & Ha & Hb & Hc).
  exists (toLowerCase a), (toLowerCase b), (toLowerCase c).
  rewrite !forallb_emailChar_lower.
  repeat split; auto;
    try (intros Hn; apply map_eq_nil in Hn; contradiction).
  unfold toLowerCase. rewrite map_app. simpl. rewrite map_app. reflexivity.
Qed.

Lemma normalizeEmail_valid (mail : jsstring) :
  isValidEmail mail = true ->
  normalizeEmail mail = toLowerCase mail
  /\ isValidEmail (normalizeEmail mail) = true.
Proof.
  intros H. apply isValidEmail_spec in H.
  assert (Hl := pattern_toLowerCase mail H).
  assert (Hn : normalizeEmail mail = toLowerCase mail)
    by (apply trim_no_blank, pattern_no_blank, Hl).
  split; [exact Hn|]. rewrite Hn. apply isValidEmail_spec. exact Hl.
Qed.

Lemma pattern_one_at (s : jsstring) :
  matchesEmailPattern s -> count_occ N.eq_dec s 64%N = 1%nat.
Proof.
  intros (a & b & c & -> & _ & _ & _ & Ha & Hb & Hc).
  assert (Hz : forall l, forallb emailChar l = true ->
                 count_occ N.eq_dec l 64%N = 0%nat).
  { intros l Hl. apply count_occ_not_In. intros Hin.
    rewrite forallb_forall in Hl. specialize (Hl _ Hin).
    unfold emailChar in Hl. rewrite N.eqb_refl, andb_false_r in Hl.
    discriminate. }
  rewrite count_occ_app, count_occ_cons_eq by reflexivity.
  rewrite count_occ_app, count_occ_cons_neq by discriminate.
  rewrite (Hz a Ha), (Hz b Hb), (Hz c Hc). reflexivity.
Qed.

(** X1. The three places that test an email address against the pattern
    (the route's [validateEmailInput], the controller's [isValidEmail] and
    the mailer) accept exactly the strings of the form local@domain.last
    with non-empty parts free of blanks and of further at-signs.  For a
    body whose [email] is absent, [null] or a string, the route's check
    lets the body through exactly when the [email] is such a string, and
    answers 400 otherwise.  (An array or an object in that place is turned
    into a string by the test itself; such bodies are not covered.) *)
Theorem email_input_accepted_iff_pattern :
  forall (b : Req.Body),
    (AuthRoutes.validateEmailInput b = None
     <-> exists mail, Req.email b = JsString mail /\ matchesEmailPattern mail)
    /\ (forall r, AuthRoutes.validateEmailInput b = Some r -> status r = 400)
    /\ (forall mail,
          (isValidEmail mail = true <-> matchesEmailPattern mail)
          /\ (isValidEmail mail = true ->
              count_occ N.eq_dec mail 64%N = 1%nat
              /\ forallb (fun c => negb (isWhitespace c)) mail = true)).
Proof.
  intros b. split; [|split].
  - unfold AuthRoutes.validateEmailInput, truthyStr.
    destruct (Req.email b) as [| |mail].
    + split; [discriminate | intros (m & Hm & _); discriminate].
    + split; [discriminate | intros (m & Hm & _); discriminate].
    + destruct (truthy mail) eqn:Ht.
      * destruct (isValidEmail mail) eqn:Hv; simpl.
        -- split; [|reflexivity]. intros _. exists mail. split; [reflexivity|].
           apply isValidEmail_spec. exact Hv.
        -- split; [discriminate|]. intros (m & Hm & Hp).
           injection Hm as <-. apply isValidEmail_spec in Hp. congruence.
      * split; [discriminate|]. intros (m & Hm & Hp). injection Hm as <-.
        destruct Hp as (a & b0 & c & -> & Ha & _). destruct a; [congruence|].
        discriminate.
  - intros r. unfold AuthRoutes.validateEmailInput.
    destruct (truthyStr (Req.email b)) as [mail|].
    + destruct (isValidEmail mail); simpl; [discriminate|].
      intros H; injection H as <-. reflexivity.
    + intros H; injection H as <-. reflexivity.
  - intros mail. split; [apply isValidEmail_spec|].
    intros H. apply isValidEmail_spec in H.
    split; [apply pattern_one_at | apply pattern_no_blank]; exact H.
Qed.

(* ------------------------------------------------------------------------- *)
(** ** Strings of code units below U+0100 *)
(* ------------------------------------------------------------------------- *)

Lemma lowerUnit_latin1 (c : N) : (c < 256)%N -> (lowerUnit c < 256)%N.
Proof.
  intros Hc. unfold lowerUnit.
  destruct ((65 <=? c)%N && (c <=? 90)%N) eqn:H1.
  - apply andb_prop in H1. destruct H1 as [_ H1]. apply N.leb_le in H1. lia.
  - destruct ((0xC0 <=? c)%N && (c <=? 0xDE)%N && negb (c =? 0xD7)%N) eqn:H2;
      [|exact Hc].
    apply andb_prop in H2. destruct H2 as [H2 _].
    apply andb_prop in H2. destruct H2 as [_ H2]. apply N.leb_le in H2. lia.
Qed.

Lemma toLowerCase_latin1 (x : jsstring) : latin1 x -> latin1 (toLowerCase x).
Proof.
  unfold latin1, toLowerCase. intros H. apply Forall_map.
  eapply Forall_impl; [|exact H]. apply lowerUnit_latin1.
Qed.

Lemma trimStart_latin1 (x : jsstring) : latin1 x -> latin1 (trimStart x).
Proof.
  unfold latin1. induction 1 as [|c x Hc Hx IH]; simpl; [constructor|].
  destruct (isWhitespace c); [exact IH | constructor; assumption].
Qed.

Lemma trim_latin1 (x : jsstring) : latin1 x -> latin1 (trim x).
Proof.
  intros H. unfold trim, trimEnd, latin1. apply Forall_rev.
  apply trimStart_latin1. apply Forall_rev. apply trimStart_latin1. exact H.
Qed.

Lemma normalizeEmail_latin1 (mail : jsstring) :
  latin1 mail -> latin1 (normalizeEmail mail).
Proof.
  intros H. unfold normalizeEmail. apply trim_latin1, toLowerCase_latin1, H.
Qed.

Lemma latin1_forallb (x : jsstring) :
  forallb (fun c => (c <? 256)%N) x = true -> latin1 x.
Proof.
  intros H. apply Forall_forall. intros c Hc.
  rewrite forallb_forall in H. apply N.ltb_lt. apply H. exact Hc.
Qed.

Lemma validDate_leb (t : Z) :
  (- maxDate <=? t) && (t <=? maxDate) = true -> validDate t.
Proof.
  intros H. apply andb_prop in H. destruct H as [H1 H2].
  apply Z.leb_le in H1, H2. split; assumption.
Qed.

(** Events given in full are within range by computation. *)
Ltac in_range :=
  repeat match goal with
    | |- Forall _ (served _) => unfold served; cbn [map fst snd]
    | |- Forall _ (_ :: _) => constructor
    | |- Forall _ [] => constructor
    | |- inRange _ (Served _ _) => split; [|split]
    | |- inRange _ (Expired _ _) => exact I
    | |- latin1Value _ =>
        first [exact I | apply latin1_forallb; vm_compute; reflexivity]
    | |- latin1 _ => apply latin1_forallb; vm_compute; reflexivity
    | |- validDate _ => apply validDate_leb; vm_compute; reflexivity
    end.

(** X2. For an address of code units below U+0100, normalising (lower
    case, then trim) stays below U+0100 and is idempotent, so the schema's
    own setters leave a normalised address as it is; an address that passes
    the pattern still passes it after normalisation, and for such an
    address normalising is lower-casing alone. *)
Theorem normalizeEmail_is_canonical :
  forall (mail : jsstring),
    latin1 mail ->
    latin1 (normalizeEmail mail)
    /\ normalizeEmail (normalizeEmail mail) = normalizeEmail mail
    /\ castEmail (normalizeEmail mail) = normalizeEmail mail
    /\ (isValidEmail mail = true ->
        isValidEmail (normalizeEmail mail) = true
        /\ normalizeEmail mail = toLowerCase mail).
Proof.
  intros mail Hl. split; [apply normalizeEmail_latin1; exact Hl|].
  split; [apply normalizeEmail_idem|].
  split; [apply castEmail_normalizeEmail|].
  intros H. destruct (normalizeEmail_valid mail H). auto.
Qed.

Lemma normalizeEmail_is_canonical_witness :
  normalizeEmail (js " Ada@X.com ") = js "ada@x.com"
  /\ normalizeEmail (normalizeEmail (js " Ada@X.com "))
     = normalizeEmail (js " Ada@X.com ").
Proof.
  split; [vm_compute; reflexivity|].
  apply (normalizeEmail_is_canonical (js " Ada@X.com ")).
  apply latin1_forallb. vm_compute. reflexivity.
Defined.

(* ------------------------------------------------------------------------- *)
(** ** Generated codes *)
(* ------------------------------------------------------------------------- *)

Lemma digitChar_range (d : N) : (48 <= digitChar d <= 57)%N.
Proof.
  unfold digitChar. assert (d mod 10 < 10)%N by (apply N.mod_lt; discriminate).
  remember (d mod 10)%N as m. lia.
Qed.

Lemma generateNumericCode_digits (w : World) (len : Z) :
  Forall (fun c => (48 <= c <= 57)%N) (generateNumericCode w len).
Proof.
  unfold generateNumericCode. apply Forall_forall. intros c Hc.
  apply in_map_iff in Hc. destruct Hc as (i & <- & _). apply digitChar_range.
Qed.

Lemma digits_no_blank (s : jsstring) :
  Forall (fun c => (48 <= c <= 57)%N) s ->
  forallb (fun c => negb (isWhitespace c)) s = true.
Proof.
  intros H. apply forallb_forall. intros c Hc.
  rewrite Forall_forall in H. specialize (H c Hc).
  apply negb_true_iff. not_blank.
Qed.

Lemma generateNumericCode_trim (w : World) (len : Z) :
  trim (generateNumericCode w len) = generateNumericCode w len.
Proof. apply trim_no_blank, digits_no_blank, generateNumericCode_digits. Qed.

Lemma generateNumericCode_length (w : World) (len : Z) :
  List.length (generateNumericCode w len) = Z.to_nat len.
Proof. unfold generateNumericCode. rewrite length_map, length_seq. reflexivity. Qed.

Lemma generateNumericCode_truthy (w : World) (len : Z) :
  0 < len -> truthy (generateNumericCode w len) = true.
Proof.
  intros H. assert (Hl := generateNumericCode_length w len).
  destruct (generateNumericCode w len); [cbn [List.length] in Hl; lia | reflexivity].
Qed.

(** X3. A generated code has as many characters as asked for (none for a
    length that is not positive), every one of them a decimal digit; so it
    holds no blank, trimming leaves it as it is, and with the default
    configuration it has six digits. *)
Theorem generateNumericCode_is_digits :
  forall (pe : ProcessEnv) (w : World) (len : Z),
    List.length (generateNumericCode w len) = Z.to_nat len
    /\ Forall (fun c => isDigit c = true) (generateNumericCode w len)
    /\ trim (generateNumericCode w len) = generateNumericCode w len
    /\ (ENV_CODE_LENGTH pe = None ->
        List.length (generateNumericCode w (CODE_LENGTH pe)) = 6%nat).
Proof.
  intros pe w len. split; [apply generateNumericCode_length|].
  split; [|split; [apply generateNumericCode_trim|]].
  - eapply Forall_impl; [|apply generateNumericCode_digits].
    intros c Hc. unfold isDigit. apply andb_true_iff.
    rewrite !N.leb_le. exact Hc.
  - intros H. rewrite generateNumericCode_length. unfold CODE_LENGTH.
    rewrite H. reflexivity.
Qed.

(* ------------------------------------------------------------------------- *)
(** ** The hash of a code *)
(* ------------------------------------------------------------------------- *)

Lemma hexDigit_isHexDigit (d : N) :
  (d < 16)%N -> isHexDigit (Sha256.hexDigit d) = true.
Proof.
  intros H. apply N.ltb_lt in H.
  destruct d as [|p]; [reflexivity|].
  do 5 (try destruct p as [p|p|]); try reflexivity; discriminate H.
Qed.

Lemma list_ascii_of_string_app (a b : string) :
  list_ascii_of_string (a ++ b)%string
  = list_ascii_of_string a ++ list_ascii_of_string b.
Proof. induction a as [|c a IH]; simpl; [reflexivity | rewrite IH; reflexivity]. Qed.

Lemma string_length_list (a : string) :
  String.length a = List.length (list_ascii_of_string a).
Proof. induction a as [|c a IH]; simpl; [reflexivity | rewrite IH; reflexivity]. Qed.

Lemma hex_nibbles_spec (n : nat) (x : N) :
  List.length (list_ascii_of_string (Sha256.hex_nibbles n x)) = n
  /\ forallb isHexDigit (list_ascii_of_string (Sha256.hex_nibbles n x)) = true.
Proof.
  induction n as [|n [IH1 IH2]]; simpl; [auto|].
  rewrite IH1, IH2, andb_true_r. split; [reflexivity|].
  apply hexDigit_isHexDigit.
  change 15%N with (N.ones 4). rewrite N.land_ones.
  apply N.mod_lt. discriminate.
Qed.

(** X4. The hash stored for a code is a string of 64 lower-case hexadecimal
    digits, whatever the code; in particular it is never the empty string,
    so the handlers' test for a missing hash never fires on a stored one. *)
Theorem hashCode_is_64_hex_digits :
  forall (code : jsstring),
    String.length (hashCode code) = 64%nat
    /\ forallb isHexDigit (list_ascii_of_string (hashCode code)) = true
    /\ emptyString (hashCode code) = false.
Proof.
  intros code. unfold hashCode, Sha256.sha256hex, Sha256.hex, Sha256.hexWord.
  destruct (Sha256.digest (utf8 code)) as [a b c d e f g h].
  cbn [Sha256.sa Sha256.sb Sha256.sc Sha256.sd Sha256.se Sha256.sf Sha256.sg
       Sha256.sh].
  rewrite string_length_list, !list_ascii_of_string_app, !forallb_app,
    !length_app.
  repeat rewrite (proj1 (hex_nibbles_spec 8 _)).
  repeat rewrite (proj2 (hex_nibbles_spec 8 _)).
  repeat split.
Qed.

(* ------------------------------------------------------------------------- *)
(** ** The login-attempt methods of the model *)
(* ------------------------------------------------------------------------- *)

Lemma incrementLoginAttempts_inl (now : Z) (u : User) (s : Store) :
  validate u = [] ->
  exists u',
    incrementLoginAttempts now u s = inl (u', replaceById u' s)
    /\ _id u' = _id u /\ validate u' = []
    /\ loginAttempts u' = loginAttempts u + 1
    /\ (5 <= loginAttempts u + 1 ->
        accountLocked u' = true /\ lockUntil u' = Some (now + lockTime))
    /\ (loginAttempts u + 1 < 5 ->
        accountLocked u' = accountLocked u /\ lockUntil u' = lockUntil u).
Proof.
  intros Hv. unfold incrementLoginAttempts.
  cbn [loginAttempts set_loginAttempts].
  destruct (5 <=? loginAttempts u + 1) eqn:H5;
    [apply Z.leb_le in H5 | apply Z.leb_gt in H5].
  - rewrite save_valid by exact Hv. eexists. split; [reflexivity|].
    rewrite validate_preSave, preSave_id.
    destruct (preSave_lock now
                (set_lockUntil (Some (now + 30 * 60 * 1000))
                   (set_accountLocked true
                      (set_loginAttempts (loginAttempts u + 1) u))))
      as (-> & -> & ->).
    repeat split; auto; lia.
  - rewrite save_valid by exact Hv. eexists. split; [reflexivity|].
    rewrite validate_preSave, preSave_id.
    destruct (preSave_lock now (set_loginAttempts (loginAttempts u + 1) u))
      as (-> & -> & ->).
    repeat split; auto; lia.
Qed.

Lemma isLocked_fields (t : Z) (u u' : User) :
  accountLocked u' = accountLocked u -> lockUntil u' = lockUntil u ->
  isLocked t u' = isLocked t u.
Proof. unfold isLocked. intros -> ->. reflexivity. Qed.

Lemma failedLogins_spec (times : list Z) :
  forall (u : User) (s : Store),
    validate u = [] ->
    exists u' s',
      failedLogins times u s = Some (u', s')
      /\ _id u' = _id u /\ validate u' = []
      /\ loginAttempts u' = loginAttempts u + Z.of_nat (List.length times)
      /\ forall t,
           isLocked t u'
           = if (5 <=? loginAttempts u' ) && negb (Nat.eqb (List.length times) 0)
             then t <? last times 0 + lockTime
             else isLocked t u.
Proof.
  induction times as [|t0 rest IH]; intros u s Hv.
  - exists u, s. cbn [failedLogins List.length Nat.eqb negb].
    rewrite andb_false_r. repeat split; auto. simpl. lia.
  - destruct (incrementLoginAttempts_inl t0 u s Hv)
      as (u1 & H1 & Hid1 & Hv1 & Hn1 & Hlock & Hkeep).
    destruct (IH u1 (replaceById u1 s) Hv1) as (u' & s' & H2 & Hid & Hv' & Hn & Hl).
    exists u', s'. cbn [failedLogins]. rewrite H1.
    split; [exact H2|]. split; [congruence|]. split; [exact Hv'|].
    split; [rewrite Hn, Hn1; cbn [List.length]; lia|].
    intros t. rewrite Hl. cbn [List.length Nat.eqb negb]. rewrite andb_true_r.
    destruct rest as [|t1 rest'].
    + cbn [List.length Nat.eqb negb last]. rewrite andb_false_r.
      cbn [List.length] in Hn. rewrite Z.add_0_r in Hn. rewrite Hn, Hn1.
      destruct (5 <=? loginAttempts u + 1) eqn:H5;
        [apply Z.leb_le in H5 | apply Z.leb_gt in H5].
      * destruct (Hlock H5) as [Ha Hu]. unfold isLocked. rewrite Ha, Hu.
        reflexivity.
      * destruct (Hkeep H5) as [Ha Hu]. apply isLocked_fields; assumption.
    + cbn [Nat.eqb negb]. rewrite andb_true_r.
      change (last (t0 :: t1 :: rest') 0) with (last (t1 :: rest') 0).
      destruct (5 <=? loginAttempts u') eqn:H5; [reflexivity|].
      apply Z.leb_gt in H5. apply isLocked_fields; apply Hkeep;
        rewrite Hn, Hn1 in H5; lia.
Qed.

Lemma lock_condition (times : list Z) (n : Z) :
  n = Z.of_nat (List.length times) ->
  (5 <=? n) && negb (Nat.eqb (List.length times) 0)
  = (5 <=? List.length times)%nat.
Proof.
  intros ->. destruct times as [|t0 rest]; [reflexivity|].
  cbn [Nat.eqb List.length negb]. rewrite andb_true_r.
  destruct (5 <=? S (List.length rest))%nat eqn:H5;
    [apply Nat.leb_le in H5; apply Z.leb_le
    | apply Nat.leb_gt in H5; apply Z.leb_gt]; lia.
Qed.

(** X5. Failed sign-ins counted by [incrementLoginAttempts] on a fresh
    account lock it from the fifth on and not before; once locked it stays
    locked until 30 minutes after the latest failure (each further failure
    moves the end of the lock), and the counter equals the number of
    failures. *)
Theorem failed_logins_lock_from_the_fifth :
  forall (times : list Z) (u : User) (s : Store),
    validate u = [] -> loginAttempts u = 0 -> accountLocked u = false ->
    exists u' s',
      failedLogins times u s = Some (u', s')
      /\ loginAttempts u' = Z.of_nat (List.length times)
      /\ forall t,
           isLocked t u' = true
           <-> (5 <= List.length times)%nat /\ t < last times 0 + lockTime.
Proof.
  intros times u s Hv H0 Hf.
  destruct (failedLogins_spec times u s Hv) as (u' & s' & H & _ & _ & Hn & Hl).
  exists u', s'. split; [exact H|]. rewrite H0, Z.add_0_l in Hn.
  split; [exact Hn|]. intros t.
  rewrite Hl, (lock_condition times _ Hn).
  assert (Hu : isLocked t u = false) by (unfold isLocked; rewrite Hf; reflexivity).
  destruct (5 <=? List.length times)%nat eqn:H5;
    [apply Nat.leb_le in H5 | apply Nat.leb_gt in H5].
  - rewrite Z.ltb_lt. tauto.
  - rewrite Hu. split; [discriminate | lia].
Qed.

(** X6. [resetLoginAttempts] on any document that passes validation clears
    the counter and the lock and stamps [lastLogin]: the account is not
    locked at any instant afterwards, and it again takes five failures to
    lock it. *)
Theorem resetLoginAttempts_unlocks :
  forall (now : Z) (u : User) (s : Store),
    validate u = [] ->
    exists u',
      resetLoginAttempts now u s = inl (u', replaceById u' s)
      /\ _id u' = _id u
      /\ loginAttempts u' = 0 /\ lastLogin u' = Some now
      /\ (forall t, isLocked t u' = false)
      /\ forall (times : list Z) (t : Z),
           exists u'' s'',
             failedLogins times u' (replaceById u' s) = Some (u'', s'')
             /\ (isLocked t u'' = true
                 <-> (5 <= List.length times)%nat /\ t < last times 0 + lockTime).
Proof.
  intros now u s Hv. unfold resetLoginAttempts.
  set (v := set_lastLogin (Some now)
              (set_lockUntil None (set_accountLocked false (set_loginAttempts 0 u)))).
  assert (Hvv : validate v = []) by exact Hv.
  rewrite (save_valid now v s Hvv). exists (preSave now v).
  destruct (preSave_lock now v) as (Hn & Ha & Hu).
  assert (Hll : lastLogin (preSave now v) = Some now).
  { unfold preSave. repeat break_match; reflexivity. }
  split; [reflexivity|]. split; [rewrite preSave_id; reflexivity|].
  split; [exact Hn|]. split; [exact Hll|].
  assert (Hnot : forall t, isLocked t (preSave now v) = false).
  { intros t. unfold isLocked. rewrite Ha. reflexivity. }
  split; [exact Hnot|]. intros times t.
  assert (Hpv : validate (preSave now v) = [])
    by (rewrite validate_preSave; exact Hvv).
  destruct (failedLogins_spec times (preSave now v)
              (replaceById (preSave now v) s) Hpv)
    as (u'' & s'' & H & _ & _ & Hcount & Hl).
  exists u'', s''. split; [exact H|]. rewrite Hn, Z.add_0_l in Hcount.
  rewrite Hl, (lock_condition times _ Hcount), Hnot.
  destruct (5 <=? List.length times)%nat eqn:H5;
    [apply Nat.leb_le in H5 | apply Nat.leb_gt in H5].
  - rewrite Z.ltb_lt. tauto.
  - split; [discriminate | lia].
Qed.

Lemma failed_logins_lock_from_the_fifth_witness :
  exists u' s',
    failedLogins [1000; 2000; 3000; 4000; 5000] freshAccount [freshAccount]
    = Some (u', s')
    /\ loginAttempts u' = 5
    /\ forall t, isLocked t u' = true <-> (5 <= 5)%nat /\ t < 5000 + lockTime.
Proof.
  exact (failed_logins_lock_from_the_fifth [1000; 2000; 3000; 4000; 5000]
           freshAccount [freshAccount] eq_refl eq_refl eq_refl).
Defined.

Lemma resetLoginAttempts_unlocks_witness :
  exists u',
    resetLoginAttempts 3000 (lockedOutUser true (Some 2000000))
      [lockedOutUser true (Some 2000000)]
    = inl (u', replaceById u' [lockedOutUser true (Some 2000000)])
    /\ isLocked 3000 (lockedOutUser true (Some 2000000)) = true
    /\ isLocked 3000 u' = false.
Proof.
  destruct (resetLoginAttempts_unlocks 3000 (lockedOutUser true (Some 2000000))
              [lockedOutUser true (Some 2000000)] eq_refl)
    as (u' & H & _ & _ & _ & Hl & _).
  exists u'. split; [exact H|]. split; [reflexivity | apply Hl].
Defined.

(* ------------------------------------------------------------------------- *)
(** ** The clean-up of expired codes *)
(* ------------------------------------------------------------------------- *)

Lemma unsetCodes_clean (now : Z) (u : User) :
  hasExpiredCode now (unsetCodes now u) = false.
Proof. reflexivity. Qed.

Lemma cleanup_Forall2 (now : Z) (s : Store) :
  Forall2 (Cleaned now) s (cleanupExpiredCodes now s).
Proof.
  unfold cleanupExpiredCodes. induction s as [|u s IH]; simpl; constructor;
    [|exact IH].
  unfold Cleaned. destruct (hasExpiredCode now u) eqn:He.
  - split; [discriminate|]. split; [intros _; split; reflexivity|].
    destruct u; reflexivity.
  - split; [reflexivity|]. split; [discriminate | reflexivity].
Qed.

Lemma unsetCodes_ok (now : Z) (u : User) : user_ok u -> user_ok (unsetCodes now u).
Proof.
  unfold user_ok. intros (H1 & H2 & H3 & H4). repeat split; auto.
Qed.

Lemma cleanup_ok (now : Z) (s : Store) :
  store_ok s -> store_ok (cleanupExpiredCodes now s).
Proof.
  unfold store_ok, cleanupExpiredCodes. intros (Hnd & Hok & Hlk).
  repeat split.
  - rewrite map_map.
    rewrite (map_ext _ _id); [exact Hnd|].
    intros u. destruct (hasExpiredCode now u); reflexivity.
  - rewrite Forall_forall in *. intros x Hx. apply in_map_iff in Hx.
    destruct Hx as (u & <- & Hu).
    destruct (hasExpiredCode now u); [apply unsetCodes_ok|]; auto.
  - rewrite Forall_forall in *. intros x Hx. apply in_map_iff in Hx.
    destruct Hx as (u & <- & Hu).
    destruct (hasExpiredCode now u); [|auto]. exact (Hlk u Hu).
Qed.

(** X7. [cleanupExpiredCodes] leaves no expired code in the collection and
    running it again at the same instant changes nothing more.  A document
    without an expired code is untouched; a document with one loses both of
    its codes, also the one that has not expired (where the save hook would
    keep it), and nothing else but [updatedAt] changes.  The invariant of
    the collection survives the clean-up. *)
Theorem cleanupExpiredCodes_removes_expired :
  forall (now : Z) (s : Store),
    Forall (fun u => hasExpiredCode now u = false) (cleanupExpiredCodes now s)
    /\ cleanupExpiredCodes now (cleanupExpiredCodes now s)
       = cleanupExpiredCodes now s
    /\ Forall2 (Cleaned now) s (cleanupExpiredCodes now s)
    /\ (forall u,
          expiredAt now (emailVerification u) = true ->
          expiredAt now (passwordReset u) = false ->
          cleanupExpiredCodes now [u] = [unsetCodes now u]
          /\ passwordReset (unsetCodes now u) = None
          /\ passwordReset (preSave now u) = passwordReset u)
    /\ (store_ok s -> store_ok (cleanupExpiredCodes now s)).
Proof.
  intros now s.
  assert (Hclean : Forall (fun u => hasExpiredCode now u = false)
                     (cleanupExpiredCodes now s)).
  { unfold cleanupExpiredCodes. apply Forall_forall. intros x Hx.
    apply in_map_iff in Hx. destruct Hx as (u & <- & _).
    destruct (hasExpiredCode now u) eqn:He; [apply unsetCodes_clean | exact He]. }
  split; [exact Hclean|]. split; [|split; [apply cleanup_Forall2|split]].
  - revert Hclean. generalize (cleanupExpiredCodes now s). intros l Hl.
    unfold cleanupExpiredCodes. induction Hl as [|u l Hu _ IH]; simpl;
      [reflexivity|].
    rewrite Hu, IH. reflexivity.
  - intros u He Hr. unfold cleanupExpiredCodes, hasExpiredCode. simpl.
    rewrite He. simpl. repeat split.
    unfold preSave. cbn [emailVerification set_updatedAt].
    rewrite He. cbn [passwordReset set_emailVerification set_updatedAt].
    rewrite Hr. reflexivity.
  - apply cleanup_ok.
Qed.

(* ------------------------------------------------------------------------- *)
(** ** Profile completeness *)
(* ------------------------------------------------------------------------- *)

(** X8. The profile completeness reported by the statistics route is one
    of 0, 25, 50, 75 and 100: 25 for each of a non-empty name, a non-empty
    first name, a non-empty last name and a verified email.  It is 100
    exactly when all four hold, and verifying the email of an unverified
    account adds 25. *)
Theorem profile_completeness_counts_quarters :
  forall (u : User),
    let quarter (b : bool) : Z := if b then 25 else 0 in
    ProtectedRoutes.calculateProfileCompleteness u
    = quarter (truthy_opt (name u)) + quarter (truthy_opt (firstName (profile u)))
      + quarter (truthy_opt (lastName (profile u))) + quarter (emailVerified u)
    /\ In (ProtectedRoutes.calculateProfileCompleteness u) [0; 25; 50; 75; 100]
    /\ (ProtectedRoutes.calculateProfileCompleteness u = 100
        <-> truthy_opt (name u) = true
            /\ truthy_opt (firstName (profile u)) = true
            /\ truthy_opt (lastName (profile u)) = true
            /\ emailVerified u = true)
    /\ (emailVerified u = false ->
        ProtectedRoutes.calculateProfileCompleteness (set_emailVerified true u)
        = ProtectedRoutes.calculateProfileCompleteness u + 25).
Proof.
  intros u. unfold ProtectedRoutes.calculateProfileCompleteness.
  cbn [name profile emailVerified set_emailVerified].
  destruct (truthy_opt (name u)), (truthy_opt (firstName (profile u))),
    (truthy_opt (lastName (profile u))), (emailVerified u); cbn;
    (split; [reflexivity|]);
    (split; [tauto|]);
    (split; [split; [try discriminate; auto | intros (? & ? & ? & ?); congruence]|]);
    intros; try discriminate; reflexivity.
Qed.

(* ------------------------------------------------------------------------- *)
(** ** The authentication middleware *)
(* ------------------------------------------------------------------------- *)

Lemma verifyToken_inl (pe : ProcessEnv) (w : World) (token : Jwt.Token)
    (payload : Jwt.Payload) :
  verifyToken pe w token = inl payload
  <-> exists k, token = Jwt.Signed k payload /\ JWT_SECRET pe = Some k
                /\ truthy k = true
                /\ Jwt.clockTimestamp (now w) < Jwt.exp payload.
Proof.
  unfold verifyToken, Jwt.verify. split.
  - destruct token as [raw | k p]; [discriminate|].
    destruct (JWT_SECRET pe) as [k'|]; [|discriminate].
    destruct (truthy k') eqn:Ht; [|discriminate].
    destruct (JsString.eqb k k') eqn:Hk; [|discriminate].
    apply jseqb_eq in Hk. subst k'. cbn [andb].
    destruct (Jwt.exp p <=? Jwt.clockTimestamp (now w)) eqn:He; [discriminate|].
    intros H. injection H as <-. apply Z.leb_gt in He.
    exists k. auto.
  - intros (k & -> & -> & Ht & He). rewrite Ht, jseqb_refl. cbn [andb].
    apply Z.leb_gt in He. rewrite He. reflexivity.
Qed.

Lemma verifyToken_inr (pe : ProcessEnv) (w : World) (token : Jwt.Token)
    (e : ServerError) :
  verifyToken pe w token = inr e -> exists msg, e = AppError msg 401.
Proof.
  unfold verifyToken. destruct (Jwt.verify token (JWT_SECRET pe) (now w))
    as [p | []]; intros H; try discriminate; injection H as <-; eauto.
Qed.

(** X9. The authentication middleware lets a request through exactly when
    the token it extracts is signed with the server's (non-empty) secret,
    has not reached its expiry on the clock in whole seconds, and carries a
    non-empty email; the user attached is the id and email of the payload.
    Every rejection is an error with status 401.  A [Bearer] header decides
    alone: the cookie is read only when there is no such header, so a valid
    cookie does not rescue a request whose header carries no token. *)
Theorem authMiddleware_accepts_iff :
  forall (pe : ProcessEnv) (w : World) (c : Req.Credentials),
    (forall u,
       authMiddleware pe w c = inl u
       <-> exists k payload,
             extractToken c = Some (Jwt.Signed k payload)
             /\ JWT_SECRET pe = Some k /\ truthy k = true
             /\ Jwt.clockTimestamp (now w) < Jwt.exp payload
             /\ truthy (Jwt.email payload) = true
             /\ u = mkAuthUser (Jwt.id payload) (Jwt.email payload))
    /\ (forall e, authMiddleware pe w c = inr e -> exists msg, e = AppError msg 401)
    /\ (forall header cookie,
          extractToken (Req.mkCredentials (Some (Req.Bearer header)) cookie)
          = header)
    /\ (forall cookie,
          authMiddleware pe w (Req.mkCredentials (Some (Req.Bearer None)) cookie)
          = inr (AppError "Access denied. No authentication token provided." 401)).
Proof.
  intros pe w c. split; [|split; [|split]].
  - intros u. unfold authMiddleware. split.
    + destruct (extractToken c) as [token|]; [|discriminate].
      destruct (verifyToken pe w token) as [payload|e] eqn:Hv; [|discriminate].
      destruct (truthy (Jwt.email payload)) eqn:Hm; [|discriminate].
      cbn [negb]. intros H. injection H as <-.
      apply verifyToken_inl in Hv. destruct Hv as (k & -> & Hk & Ht & He).
      exists k, payload. repeat split; auto.
    + intros (k & payload & -> & Hk & Ht & He & Hm & ->).
      rewrite (proj2 (verifyToken_inl pe w (Jwt.Signed k payload) payload))
        by (exists k; auto).
      rewrite Hm. reflexivity.
  - intros e. unfold authMiddleware.
    destruct (extractToken c) as [token|].
    + destruct (verifyToken pe w token) as [payload|e'] eqn:Hv.
      * destruct (truthy (Jwt.email payload)); cbn [negb]; [discriminate|].
        intros H; injection H as <-; eauto.
      * intros H; injection H as <-. eapply verifyToken_inr; eauto.
    + intros H; injection H as <-; eauto.
  - reflexivity.
  - reflexivity.
Qed.

(** X10. [optionalAuth] never rejects: it attaches the user whenever
    [authMiddleware] would, attaches nothing when the token is absent or
    does not verify, and, unlike [authMiddleware], attaches a user even when
    the payload's email is empty.  [requireRoles] then refuses with 401
    exactly the requests without a user, and admits every request with one,
    whatever roles were required. *)
Theorem optionalAuth_and_requireRoles :
  forall (pe : ProcessEnv) (w : World) (c : Req.Credentials),
    (forall u, authMiddleware pe w c = inl u -> optionalAuth pe w c = Some u)
    /\ (forall u,
          optionalAuth pe w c = Some u ->
          authMiddleware pe w c
          = if truthy (AuthMiddleware.email u) then inl u
            else inr (AppError "Invalid token payload. Please sign in again." 401))
    /\ (optionalAuth pe w c = None
        <-> match extractToken c with
            | Some token => exists e, verifyToken pe w token = inr e
            | None => True
            end)
    /\ (forall roles,
          requireRoles roles (optionalAuth pe w c)
          = match optionalAuth pe w c with
            | Some _ => None
            | None => Some (AppError "Authentication required" 401)
            end)
    /\ (forall roles u,
          authMiddleware pe w c = inl u ->
          requireRoles roles (optionalAuth pe w c) = None).
Proof.
  intros pe w c. unfold authMiddleware, optionalAuth, requireRoles.
  destruct (extractToken c) as [token|].
  - destruct (verifyToken pe w token) as [payload|e].
    + destruct (truthy (Jwt.email payload)) eqn:Hm; cbn [negb].
      * repeat split; try (intros; discriminate).
        -- intros u H; injection H as <-; reflexivity.
        -- intros u H; injection H as <-. cbn [AuthMiddleware.email]. rewrite Hm. reflexivity.
        -- intros [e He]; discriminate.
      * repeat split; try (intros; discriminate).
        -- intros u H; injection H as <-. cbn [AuthMiddleware.email]. rewrite Hm. reflexivity.
        -- intros [e He]; discriminate.
    + repeat split; try (intros; discriminate). eauto.
  - repeat split; intros; discriminate.
Qed.

(* ------------------------------------------------------------------------- *)
(** ** The mailer *)
(* ------------------------------------------------------------------------- *)

Lemma truthyStr_Some (v : JsValue) (x : jsstring) :
  truthyStr v = Some x -> v = JsString x /\ truthy x = true.
Proof.
  destruct v as [| |y]; simpl; try discriminate.
  destruct (truthy y) eqn:Hy; [|discriminate].
  intros H; injection H as <-. auto.
Qed.

(** X11. [sendMail] hands a message to the transport exactly when the mailer
    is initialised, recipient and subject are non-empty strings, there is
    an HTML or a text part, and the recipient matches the email pattern; it
    then succeeds exactly when the transport does.  The transport receives
    the recipient in lower case (a valid address again), the subject
    trimmed, and the sender of the call or else [EMAIL_FROM].  Every
    failure, the transport's included, is reported with the prefix
    "Email delivery failed: ". *)
Theorem sendMail_delivers_iff :
  forall (st : Mailer.State) (env : Mailer.SmtpEnv) (m : Mailer.Mail)
         (deliver : Mailer.MailOptions -> option string),
    (forall opts,
       Mailer.sendMail st env m deliver = inl opts
       <-> Mailer.transporter st <> None /\ Mailer.isInitialized st = true
           /\ exists recipient subj,
                Mailer.to m = JsString recipient
                /\ Mailer.subject m = JsString subj /\ subj <> []
                /\ (truthyStr (Mailer.html m) <> None
                    \/ truthyStr (Mailer.text m) <> None)
                /\ matchesEmailPattern recipient
                /\ opts = Mailer.mkMailOptions
                            (orElse (truthyStr (Mailer.from m))
                                    (Mailer.EMAIL_FROM env))
                            (toLowerCase recipient) (trim subj)
                            (Mailer.orEmpty (Mailer.text m))
                            (Mailer.orEmpty (Mailer.html m))
                /\ isValidEmail (Mailer.optTo opts) = true
                /\ deliver opts = None)
    /\ (forall message,
          Mailer.sendMail st env m deliver = inr message ->
          exists reason, message = ("Email delivery failed: " ++ reason)%string).
Proof.
  intros st env m deliver. split.
  - intros opts. unfold Mailer.sendMail. split.
    + destruct (Mailer.transporter st) as [cfg|]; [|discriminate].
      destruct (Mailer.isInitialized st); cbn [negb]; [|discriminate].
      destruct (truthyStr (Mailer.to m)) as [recipient|] eqn:Hto; [|discriminate].
      destruct (truthyStr (Mailer.subject m)) as [subj|] eqn:Hsub; [|discriminate].
      destruct (negb (truthy (Mailer.orEmpty (Mailer.html m)))
                && negb (truthy (Mailer.orEmpty (Mailer.text m)))) eqn:Hc;
        [discriminate|].
      destruct (isValidEmail recipient) eqn:Hv; cbn [negb]; [|discriminate].
      destruct (deliver _) eqn:Hd; [discriminate|].
      intros H. injection H as <-.
      apply truthyStr_Some in Hto, Hsub. destruct Hto as [Hto _].
      destruct Hsub as [Hsub Hne].
      destruct (normalizeEmail_valid recipient Hv) as [Hn Hv'].
      unfold normalizeEmail in Hn, Hv'.
      split; [discriminate|]. split; [reflexivity|].
      exists recipient, subj. rewrite Hn in *.
      repeat split; auto.
      * intros ->. discriminate.
      * unfold Mailer.orEmpty in Hc.
        destruct (truthyStr (Mailer.html m)) as [h|]; [left; discriminate|].
        destruct (truthyStr (Mailer.text m)) as [t|]; [right; discriminate|].
        discriminate.
      * apply isValidEmail_spec. exact Hv.
    + intros (Ht & Hi & recipient & subj & Hto & Hsub & Hne & Hc & Hp & -> & Hv' & Hd).
      destruct (Mailer.transporter st) as [cfg|]; [|congruence].
      rewrite Hi, Hto, Hsub. cbn [negb truthyStr].
      assert (Hr : truthy recipient = true).
      { destruct Hp as (a & b & c & -> & Ha & _). destruct a; [congruence|].
        reflexivity. }
      assert (Hs : truthy subj = true) by (destruct subj; [congruence|reflexivity]).
      rewrite Hr, Hs.
      apply isValidEmail_spec in Hp.
      destruct (normalizeEmail_valid recipient Hp) as [Hn _].
      unfold normalizeEmail in Hn. rewrite Hn, Hp. cbn [negb].
      replace (negb (truthy (Mailer.orEmpty (Mailer.html m)))
               && negb (truthy (Mailer.orEmpty (Mailer.text m)))) with false.
      * rewrite Hd. reflexivity.
      * symmetry. unfold Mailer.orEmpty.
        destruct (truthyStr (Mailer.html m)) as [h|] eqn:Hh.
        -- apply truthyStr_Some in Hh. destruct Hh as [_ ->]. reflexivity.
        -- destruct (truthyStr (Mailer.text m)) as [t|] eqn:Htx.
           ++ apply truthyStr_Some in Htx. destruct Htx as [_ ->].
              apply andb_false_r.
           ++ destruct Hc; congruence.
  - intros message. unfold Mailer.sendMail.
    repeat break_match; intros H; try discriminate; injection H as <-;
      eexists; reflexivity.
Qed.

Lemma validateEmailConfig_missing (env : Mailer.SmtpEnv) :
  Mailer.validateEmailConfig env
  = match missingSettings env with
    | _ :: _ =>
        Some ("Missing required email configuration: "
              ++ ErrorHandler.join ", " (missingSettings env))%string
    | [] =>
        match Mailer.EMAIL_FROM env with
        | Some sender =>
            if isValidEmail sender then None
            else Some "EMAIL_FROM must be a valid email address"
        | None => Some "EMAIL_FROM must be a valid email address"
        end
    end.
Proof.
  unfold Mailer.validateEmailConfig, missingSettings, Mailer.missingField.
  cbn [filter snd map fst].
  destruct (truthy_opt (Mailer.SMTP_HOST env)),
    (truthy_opt (Mailer.SMTP_USER env)), (truthy_opt (Mailer.SMTP_PASS env)),
    (truthy_opt (Mailer.EMAIL_FROM env)); reflexivity.
Qed.

(** X12. The mail settings pass [validateEmailConfig] exactly when host,
    user and password are set and non-empty and [EMAIL_FROM] matches the
    email pattern.  When a required setting is missing the message lists
    the missing ones, in the order host, user, password, sender; the shape
    of [EMAIL_FROM] is looked at only when none is missing. *)
Theorem validateEmailConfig_accepts_iff :
  forall (env : Mailer.SmtpEnv),
    (Mailer.validateEmailConfig env = None
     <-> truthy_opt (Mailer.SMTP_HOST env) = true
         /\ truthy_opt (Mailer.SMTP_USER env) = true
         /\ truthy_opt (Mailer.SMTP_PASS env) = true
         /\ exists sender,
              Mailer.EMAIL_FROM env = Some sender /\ matchesEmailPattern sender)
    /\ (missingSettings env <> [] ->
        Mailer.validateEmailConfig env
        = Some ("Missing required email configuration: "
                ++ ErrorHandler.join ", " (missingSettings env))%string)
    /\ (missingSettings env = [] ->
        Mailer.validateEmailConfig env <> None ->
        Mailer.validateEmailConfig env
        = Some "EMAIL_FROM must be a valid email address").
Proof.
  intros env. rewrite validateEmailConfig_missing. split; [|split].
  - unfold missingSettings. cbn [filter snd map fst].
    destruct (Mailer.EMAIL_FROM env) as [sender|] eqn:Hf.
    + destruct (truthy_opt (Mailer.SMTP_HOST env)),
        (truthy_opt (Mailer.SMTP_USER env)),
        (truthy_opt (Mailer.SMTP_PASS env)),
        (truthy_opt (Some sender)) eqn:Hs; cbn [negb map fst];
        try (split; [discriminate | intros (? & ? & ? & ?); discriminate]).
      * destruct (isValidEmail sender) eqn:Hv.
        -- split; [|reflexivity]. intros _. repeat split.
           exists sender. split; [reflexivity|]. apply isValidEmail_spec, Hv.
        -- split; [discriminate|]. intros (_ & _ & _ & x & Hx & Hp).
           injection Hx as <-. apply isValidEmail_spec in Hp. congruence.
      * split; [discriminate|]. intros (_ & _ & _ & x & Hx & Hp).
        injection Hx as <-. destruct Hp as (a & b & c & -> & Ha & _).
        destruct a; [congruence | discriminate].
    + split.
      * repeat break_match; discriminate.
      * intros (_ & _ & _ & x & Hx & _). discriminate.
  - destruct (missingSettings env); [congruence | reflexivity].
  - intros ->. repeat break_match; congruence.
Qed.

Lemma call_keeps_transporter (pe : ProcessEnv) (st : Mailer.State)
    (c : Mailer.Call) :
  (Mailer.isInitialized st = true -> Mailer.transporter st <> None) ->
  Mailer.isInitialized (Mailer.call pe st c) = true ->
  Mailer.transporter (Mailer.call pe st c) <> None.
Proof.
  intros Hinv. destruct c as [env verify | closeThrows];
    unfold Mailer.call, Mailer.initMailer, Mailer.closeConnections.
  - repeat break_match; cbn [fst Mailer.isInitialized Mailer.transporter];
      auto; discriminate.
  - repeat break_match; cbn [Mailer.isInitialized Mailer.transporter];
      auto; try discriminate. intros _. congruence.
Qed.

Lemma calls_keep_transporter (pe : ProcessEnv) (cs : list Mailer.Call) :
  forall st,
    (Mailer.isInitialized st = true -> Mailer.transporter st <> None) ->
    Mailer.isInitialized (Mailer.calls pe cs st) = true ->
    Mailer.transporter (Mailer.calls pe cs st) <> None.
Proof.
  unfold Mailer.calls. induction cs as [|c cs IH]; intros st Hinv; simpl;
    [exact Hinv|].
  apply IH. apply call_keeps_transporter. exact Hinv.
Qed.

(** X13. The life cycle of the mailer.  Whatever sequence of [initMailer]
    and [closeConnections] calls has run, the mailer is marked initialised
    only while it holds a transport.  [initMailer] throws only in
    production, and there exactly when the settings are invalid or the
    transport's verification fails; outside production it swallows the
    failure.  It marks the mailer initialised when settings and verification
    pass, and never clears the mark: an initialisation that fails
    verification on an initialised mailer leaves it initialised with the
    transport that failed.  On a mailer that is not initialised every
    [sendMail] fails with the not-initialised message, and a close whose
    transport does not throw returns the mailer to its initial state. *)
Theorem mailer_life_cycle :
  forall (pe : ProcessEnv) (cs : list Mailer.Call) (env : Mailer.SmtpEnv)
         (verify : Mailer.TransporterConfig -> option string),
    let st := Mailer.calls pe cs Mailer.initial in
    let st' := fst (Mailer.initMailer pe env verify st) in
    (Mailer.isInitialized st = true -> Mailer.transporter st <> None)
    /\ (isProduction pe = false -> snd (Mailer.initMailer pe env verify st) = None)
    /\ (isProduction pe = true ->
        (snd (Mailer.initMailer pe env verify st) = None
         <-> Mailer.validateEmailConfig env = None
             /\ verify (Mailer.transporterConfig env) = None))
    /\ (Mailer.isInitialized st' = true
        <-> Mailer.isInitialized st = true
            \/ (Mailer.validateEmailConfig env = None
                /\ verify (Mailer.transporterConfig env) = None))
    /\ (Mailer.validateEmailConfig env = None ->
        Mailer.transporter st' = Some (Mailer.transporterConfig env))
    /\ (Mailer.isInitialized st = false ->
        forall penv m deliver,
          Mailer.sendMail st penv m deliver = inr notInitializedMessage)
    /\ Mailer.closeConnections false st = Mailer.initial
    /\ Mailer.getStatus (Mailer.closeConnections false st) = (false, false).
Proof.
  intros pe cs env verify st st'.
  split; [apply calls_keep_transporter; discriminate|].
  subst st'. unfold Mailer.initMailer.
  split; [|split; [|split; [|split; [|split; [|split]]]]].
  - intros Hp. rewrite Hp. repeat break_match; reflexivity.
  - intros Hp. rewrite Hp. split.
    + repeat break_match; cbn [snd]; intros H; try discriminate; auto.
    + intros (-> & ->). reflexivity.
  - split.
    + repeat break_match; cbn [fst Mailer.isInitialized]; auto.
    + intros [H | (-> & ->)]; [|reflexivity].
      repeat break_match; cbn [fst Mailer.isInitialized]; auto.
  - intros ->. repeat break_match; reflexivity.
  - intros Hi penv m deliver. unfold Mailer.sendMail. rewrite Hi.
    destruct (Mailer.transporter st); reflexivity.
  - unfold Mailer.closeConnections. destruct (Mailer.transporter st); reflexivity.
  - unfold Mailer.closeConnections. destruct (Mailer.transporter st); reflexivity.
Qed.

(* ------------------------------------------------------------------------- *)
(** ** What a request may change *)
(* ------------------------------------------------------------------------- *)

Ltac presave := unfold preSave; repeat break_match; reflexivity.

Lemma preSave_email (now : Z) (u : User) : email (preSave now u) = email u.
Proof. presave. Qed.
Lemma preSave_createdAt (now : Z) (u : User) :
  createdAt (preSave now u) = createdAt u.
Proof. presave. Qed.
Lemma preSave_passwordHash (now : Z) (u : User) :
  passwordHash (preSave now u) = passwordHash u.
Proof. presave. Qed.
Lemma preSave_emailVerified (now : Z) (u : User) :
  emailVerified (preSave now u) = emailVerified u.
Proof. presave. Qed.
Lemma preSave_lastLogin (now : Z) (u : User) :
  lastLogin (preSave now u) = lastLogin u.
Proof. presave. Qed.
Lemma preSave_name (now : Z) (u : User) : name (preSave now u) = name u.
Proof. presave. Qed.
Lemma preSave_profile (now : Z) (u : User) : profile (preSave now u) = profile u.
Proof. presave. Qed.
Lemma preSave_isActive (now : Z) (u : User) : isActive (preSave now u) = isActive u.
Proof. presave. Qed.
Lemma preSave_updatedAt (now : Z) (u : User) : updatedAt (preSave now u) = now.
Proof. presave. Qed.

Lemma preSave_verification (now : Z) (u : User) :
  emailVerification (preSave now u)
  = if expiredAt now (emailVerification u) then None else emailVerification u.
Proof. unfold preSave. cbn [emailVerification set_updatedAt]. presave. Qed.

Lemma preSave_reset (now : Z) (u : User) :
  passwordReset (preSave now u)
  = if expiredAt now (passwordReset u) then None else passwordReset u.
Proof.
  unfold preSave. cbn [emailVerification set_updatedAt].
  destruct (expiredAt now (emailVerification u));
    cbn [passwordReset set_updatedAt set_emailVerification];
    destruct (expiredAt now (passwordReset u)); reflexivity.
Qed.

Create Rewrite HintDb presave.
#[export] Hint Rewrite preSave_id preSave_email preSave_createdAt
  preSave_passwordHash preSave_emailVerified preSave_lastLogin preSave_name
  preSave_profile preSave_isActive preSave_updatedAt preSave_verification
  preSave_reset : presave.

Lemma Frame_refl (pe : ProcessEnv) (w : World) (r : Request) (code : Z)
    (u : User) : Frame pe w r code u u.
Proof. constructor; auto; intros H; exfalso; apply H; reflexivity. Qed.

Lemma Forall2_Frame_refl (pe : ProcessEnv) (w : World) (r : Request) (code : Z)
    (s : Store) : Forall2 (Frame pe w r code) s s.
Proof. induction s; constructor; auto using Frame_refl. Qed.

Lemma frame_same (pe : ProcessEnv) (w : World) (r : Request) (resp : Response)
    (s : Store) : FrameStep pe w r resp s s.
Proof.
  exists s, []. rewrite app_nil_r. auto using Forall2_Frame_refl.
Qed.

Lemma save_FrameStep (pe : ProcessEnv) (w : World) (r : Request)
    (resp : Response) (u u' x : User) (s s' : Store) :
  save (now w) u' s = inl (x, s') ->
  NoDup (map _id s) -> In u s ->
  Frame pe w r (status resp) u (preSave (now w) u') ->
  FrameStep pe w r resp s s'.
Proof.
  intros Hs Hnd Hin Hfr. apply save_inl in Hs. destruct Hs as [-> ->].
  exists (replaceById (preSave (now w) u') s), []. rewrite app_nil_r.
  split; [reflexivity|]. split; [|auto].
  apply replaceById_Forall2 with (u := u); auto using Frame_refl.
  apply (fr_id _ _ _ _ _ _ Hfr).
Qed.

Lemma saveNew_inl (now : Z) (v x : User) (s s' : Store) :
  saveNew now v s = inl (x, s') ->
  validate v = [] /\ x = preSave now v /\ s' = s ++ [preSave now v].
Proof.
  unfold saveNew. destruct (validate v); [|discriminate].
  destruct (existsb _ s); [discriminate|].
  intros H; injection H as <- <-. auto.
Qed.

Lemma negb_false (b : bool) : negb b = false -> b = true.
Proof. destruct b; [reflexivity | discriminate]. Qed.

(** The two finders, with what they tell about the document found. *)
Ltac found_targets :=
  repeat match goal with
    | H : findOne ?e ?s = Some ?u |- _ =>
        let Hin := fresh "Hin" in
        let Hmail := fresh "Hmail" in
        destruct (find_In _ _ _ H) as [Hin Hmail];
        apply byEmail_eq in Hmail; clear H
    | H : findById ?i ?s = Some ?u |- _ =>
        let Hin := fresh "Hin" in
        let Hid := fresh "Hid" in
        destruct (find_In _ _ _ H) as [Hin Hid];
        apply byId_eq in Hid; clear H
    end.

Ltac frame_field :=
  first
    [ reflexivity
    | left; reflexivity
    | right; left; reflexivity
    | right; reflexivity
    | right; right; split; [eexists; reflexivity | reflexivity]
    | let H := fresh in intros H; exfalso; apply H; reflexivity
    | intros _; unfold setsPassword, verifiesEmail;
      repeat split; eauto ].

Ltac solve_frame :=
  unfold assign_name, assign_profile, issuedCode;
  constructor;
  autorewrite with presave;
  cbn [_id email passwordHash name emailVerified emailVerification
       passwordReset profile lastLogin loginAttempts accountLocked lockUntil
       isActive createdAt updatedAt
       set_passwordHash set_name set_emailVerified set_emailVerification
       set_passwordReset set_profile set_lastLogin set_isActive Targets];
  repeat break_match;
  frame_field.

Ltac frame_leaf :=
  cbn [fst snd];
  first
    [ apply frame_same
    | match goal with
      | Hs : save _ _ ?s = inl (_, ?s') |- FrameStep _ _ _ _ ?s ?s' =>
          found_targets;
          eapply save_FrameStep;
          [ exact Hs | assumption | eassumption | solve_frame ]
      end ].

Lemma signup_FrameStep (pe : ProcessEnv) (w : World) (b : Req.Body) (s : Store) :
  FrameStep pe w (PostSignup b) (fst (signup pe w b s)) s (snd (signup pe w b s)).
Proof.
  unfold signup. repeat break_match; cbn [fst snd]; try apply frame_same.
  all: match goal with
       | Hs : saveNew _ _ _ = inl _ |- _ =>
           apply saveNew_inl in Hs; destruct Hs as (_ & _ & ->)
       end.
  all: eexists s, [_]; split; [reflexivity|];
    split; [apply Forall2_Frame_refl|]; right; eexists; split; [reflexivity|];
    exists b; do 2 eexists; repeat split; eauto using negb_false.
Qed.

Lemma handle_frame (pe : ProcessEnv) (w : World) (r : Request) (s : Store) :
  NoDup (map _id s) ->
  FrameStep pe w r (fst (handle pe w r s)) s (snd (handle pe w r s)).
Proof.
  intros Hnd.
  destruct r; unfold handle,
    AuthRoutes.postSignup, AuthRoutes.postVerifyEmail, AuthRoutes.postSignin,
    AuthRoutes.postResendVerification, AuthRoutes.postForgotPassword,
    AuthRoutes.postResetPassword, AuthRoutes.postLogout,
    AuthRoutes.postDevVerifyEmail, AuthRoutes.postDevResetPassword,
    AuthRoutes.guarded, AuthRoutes.validateEmailInput;
    try (destruct (truthyStr (Req.email b)) as [mail|] eqn:Hmail0;
         [destruct (negb (isValidEmail mail)) eqn:Hvalid0|];
         try apply frame_same; try apply signup_FrameStep);
    unfold verifyEmail, signin, resendVerification, forgotPassword,
    resetPassword, logout, devVerifyEmail, devResetPassword,
    ProtectedRoutes.getMe, ProtectedRoutes.putMe, ProtectedRoutes.deleteMe,
    ProtectedRoutes.getAccountStats;
    try match goal with
      | |- context [ProtectedRoutes.mergeField] =>
          destruct (Req.name b), (Req.profile b)
      end;
    repeat break_match; frame_leaf.
Qed.

Lemma Forall2_Frame_emails (pe : ProcessEnv) (w : World) (r : Request)
    (code : Z) (s s1 : Store) :
  Forall2 (Frame pe w r code) s s1 -> map email s1 = map email s.
Proof.
  induction 1 as [|u u' s s1 Hfr _ IH]; simpl; [reflexivity|].
  rewrite IH, (fr_email _ _ _ _ _ _ Hfr). reflexivity.
Qed.

Lemma findOne_None_notin (e : jsstring) (s : Store) :
  findOne e s = None -> ~ In e (map email s).
Proof.
  unfold findOne. intros Hf Hin. apply in_map_iff in Hin.
  destruct Hin as (u & Hu & Hin).
  apply (find_none _ _ Hf) in Hin. unfold byEmail in Hin.
  rewrite Hu, jseqb_refl in Hin. discriminate.
Qed.

Lemma Created_email (pe : ProcessEnv) (w : World) (r : Request) (s : Store)
    (x : User) :
  Created pe w r s x ->
  ~ In (email x) (map email s)
  /\ isValidEmail (email x) = true /\ normalizeEmail (email x) = email x.
Proof.
  intros (b & mail & password & _ & _ & _ & Hv & _ & Hf & ->).
  unfold signedUpUser. rewrite preSave_email. unfold newUser. cbn [email].
  rewrite castEmail_normalizeEmail.
  split; [apply findOne_None_notin; exact Hf|].
  split; [apply normalizeEmail_valid; exact Hv | apply normalizeEmail_idem].
Qed.

Lemma FrameStep_emails (pe : ProcessEnv) (w : World) (r : Request)
    (resp : Response) (s s' : Store) :
  FrameStep pe w r resp s s' -> emails_ok s -> emails_ok s'.
Proof.
  intros (s1 & extra & -> & Hfr & Hextra) [Hnd Hall].
  assert (Hmap := Forall2_Frame_emails _ _ _ _ _ _ Hfr).
  assert (Hall1 : Forall (fun u => isValidEmail (email u) = true
                                   /\ normalizeEmail (email u) = email u) s1).
  { clear Hmap Hnd Hextra. induction Hfr as [|u u' s s1 Hf _ IH];
      constructor; inversion Hall; subst; auto.
    rewrite (fr_email _ _ _ _ _ _ Hf). assumption. }
  destruct Hextra as [-> | (x & -> & Hx)].
  - rewrite app_nil_r. split; [rewrite Hmap; exact Hnd | exact Hall1].
  - destruct (Created_email _ _ _ _ _ Hx) as (Hnotin & Hv & Hn).
    split.
    + rewrite map_app, Hmap. simpl.
      apply NoDup_app; [exact Hnd | repeat constructor; auto |].
      intros e He [<- | []]. contradiction.
    + apply Forall_app. split; [exact Hall1 | repeat constructor; auto].
Qed.

Lemma Reachable_emails (pe : ProcessEnv) (s : Store) :
  Reachable pe s -> emails_ok s.
Proof.
  induction 1 as [|w r s Hr IH].
  - split; constructor.
  - eapply FrameStep_emails; [|exact IH].
    apply handle_frame. apply (Reachable_ok pe s Hr).
Qed.

Lemma FrameStep_findById (pe : ProcessEnv) (w : World) (r : Request)
    (resp : Response) (s s' : Store) (i : N) (u : User) :
  FrameStep pe w r resp s s' -> findById i s = Some u ->
  exists u', findById i s' = Some u' /\ Frame pe w r (status resp) u u'.
Proof.
  intros (s1 & extra & -> & Hfr & _) Hf.
  assert (H := Forall2_findById (Frame pe w r (status resp)) i s s1
                 (fun x y Hxy => fr_id _ _ _ _ _ _ Hxy) Hfr).
  rewrite Hf in H. destruct H as (u' & Hf' & Hu').
  exists u'. split; [|exact Hu']. apply find_app_Some. exact Hf'.
Qed.

Lemma FrameStep_findOne (pe : ProcessEnv) (w : World) (r : Request)
    (resp : Response) (s s' : Store) (e : jsstring) (u : User) :
  FrameStep pe w r resp s s' -> findOne e s = Some u ->
  exists u', findOne e s' = Some u' /\ Frame pe w r (status resp) u u'.
Proof.
  intros (s1 & extra & -> & Hfr & _) Hf.
  assert (H := Forall2_findOne (Frame pe w r (status resp)) e s s1
                 (fun x y Hxy => fr_email _ _ _ _ _ _ Hxy) Hfr).
  rewrite Hf in H. destruct H as (u' & Hf' & Hu').
  exists u'. split; [|exact Hu']. apply find_app_Some. exact Hf'.
Qed.

Lemma handle_findById_frame (pe : ProcessEnv) (w : World) (r : Request)
    (s : Store) (i : N) (u : User) :
  Reachable pe s -> findById i s = Some u ->
  exists u',
    findById i (snd (handle pe w r s)) = Some u'
    /\ Frame pe w r (status (fst (handle pe w r s))) u u'.
Proof.
  intros Hr Hf. eapply FrameStep_findById; [|exact Hf].
  apply handle_frame. apply (Reachable_ok pe s Hr).
Qed.

Lemma handle_findOne_frame (pe : ProcessEnv) (w : World) (r : Request)
    (s : Store) (e : jsstring) (u : User) :
  Reachable pe s -> findOne e s = Some u ->
  exists u',
    findOne e (snd (handle pe w r s)) = Some u'
    /\ Frame pe w r (status (fst (handle pe w r s))) u u'.
Proof.
  intros Hr Hf. eapply FrameStep_findOne; [|exact Hf].
  apply handle_frame. apply (Reachable_ok pe s Hr).
Qed.

(** The frame along a run. *)
Lemma run_frame_stable (pe : ProcessEnv) (Q : User -> Prop)
    (allowed : Request -> Prop) :
  (forall w r code u u', allowed r -> Frame pe w r code u u' -> Q u -> Q u') ->
  forall (events : list (World * Request)) (s : Store) (i : N) (u : User),
    Reachable pe s -> Forall (fun ev => allowed (snd ev)) events ->
    findById i s = Some u -> Q u ->
    exists u', findById i (snd (run pe events s)) = Some u' /\ Q u'.
Proof.
  intros Hstable events.
  induction events as [|[w r] rest IH]; intros s i u Hr Hall Hf Hq; simpl.
  - eauto.
  - inversion Hall as [|? ? Ha Hrest]; subst. simpl in Ha.
    destruct (handle_findById_frame pe w r s i u Hr Hf) as (u1 & Hf1 & Hfr).
    assert (Hr1 := reach_step pe w r s Hr).
    destruct (handle pe w r s) as [resp s1]. cbn [fst snd] in *.
    specialize (IH s1 i u1 Hr1 Hrest Hf1 (Hstable _ _ _ _ _ Ha Hfr Hq)).
    destruct (run pe rest s1) as [resps s2]. exact IH.
Qed.

(** Equality of the stored values is decidable. *)
Lemma Digest_eq_dec (a b : Bcrypt.Digest) : {a = b} + {a <> b}.
Proof.
  decide equality; [apply (list_eq_dec N.eq_dec)|].
  decide equality; apply N.eq_dec.
Qed.

Lemma option_eq_dec {A : Type} (dec : forall x y : A, {x = y} + {x <> y})
    (a b : option A) : {a = b} + {a <> b}.
Proof. decide equality. Qed.

Lemma jsstring_eq_dec (a b : jsstring) : {a = b} + {a <> b}.
Proof. apply (list_eq_dec N.eq_dec). Qed.

Lemma Profile_eq_dec (a b : Profile) : {a = b} + {a <> b}.
Proof. decide equality; apply (option_eq_dec jsstring_eq_dec). Qed.

Lemma PendingCode_eq_dec (a b : PendingCode) : {a = b} + {a <> b}.
Proof. decide equality; [apply Z.eq_dec | apply string_dec]. Qed.

Lemma User_eq_dec (a b : User) : {a = b} + {a <> b}.
Proof.
  assert (H1 := option_eq_dec Z.eq_dec).
  assert (H2 := option_eq_dec jsstring_eq_dec).
  assert (H3 := option_eq_dec PendingCode_eq_dec).
  decide equality;
    auto using Z.eq_dec, N.eq_dec, Bool.bool_dec, jsstring_eq_dec,
      Digest_eq_dec, Profile_eq_dec.
Qed.

Lemma run_findById_exists (pe : ProcessEnv) (events : list (World * Request))
    (s : Store) (i : N) (u : User) :
  Reachable pe s -> findById i s = Some u ->
  exists u',
    findById i (snd (run pe events s)) = Some u'
    /\ _id u' = _id u /\ email u' = email u /\ createdAt u' = createdAt u.
Proof.
  intros Hr Hf.
  destruct (run_frame_stable pe
              (fun x => _id x = _id u /\ email x = email u
                        /\ createdAt x = createdAt u)
              (fun _ => True)) with (events := events) (s := s) (i := i) (u := u)
    as (u' & Hf' & Hq); auto.
  - intros w r code x x' _ Hfr (H1 & H2 & H3).
    rewrite (fr_id _ _ _ _ _ _ Hfr), (fr_email _ _ _ _ _ _ Hfr),
      (fr_createdAt _ _ _ _ _ _ Hfr). auto.
  - apply Forall_forall. auto.
  - eauto.
Qed.

(* ------------------------------------------------------------------------- *)
(** ** Accounts and their emails *)
(* ------------------------------------------------------------------------- *)

Lemma NoDup_map_inj {A B : Type} (f : A -> B) (l : list A) (x y : A) :
  NoDup (map f l) -> In x l -> In y l -> f x = f y -> x = y.
Proof.
  induction l as [|a l IH]; simpl; [tauto|].
  intros Hnd Hx Hy Hf. inversion Hnd as [|? ? Hnotin Hnd']; subst.
  destruct Hx as [-> | Hx], Hy as [-> | Hy]; auto.
  - exfalso. apply Hnotin. rewrite Hf. apply in_map. exact Hy.
  - exfalso. apply Hnotin. rewrite <- Hf. apply in_map. exact Hx.
Qed.

Lemma findOne_In (s : Store) (u : User) :
  NoDup (map email s) -> In u s -> findOne (email u) s = Some u.
Proof.
  intros Hnd Hin. unfold findOne.
  destruct (find (byEmail (email u)) s) as [v|] eqn:Hf.
  - destruct (find_In _ _ _ Hf) as [Hv He]. apply byEmail_eq in He.
    f_equal. apply (NoDup_map_inj email s); auto.
  - apply (find_none _ _ Hf) in Hin. unfold byEmail in Hin.
    rewrite jseqb_refl in Hin. discriminate.
Qed.

Lemma twoAccounts_Reachable : Reachable demoEnv twoAccounts.
Proof. apply run_Reachable, reach_empty. Qed.

(* ------------------------------------------------------------------------- *)
(** ** The TTL indexes and the invariants of the collection *)
(* ------------------------------------------------------------------------- *)


Lemma ttlDelete_incl (t : Z) (i : N) (s : Store) (u : User) :
  In u (ttlDelete t i s) -> In u s.
Proof. unfold ttlDelete. intros H. apply filter_In in H. apply H. Qed.

Lemma ttlDelete_Forall (P : User -> Prop) (t : Z) (i : N) (s : Store) :
  Forall P s -> Forall P (ttlDelete t i s).
Proof.
  rewrite !Forall_forall. intros H u Hu. apply H.
  apply (ttlDelete_incl t i s u Hu).
Qed.

(** A removal keeps distinct what was distinct. *)
Lemma ttlDelete_NoDup {B : Type} (key : User -> B) (t : Z) (i : N)
    (s : Store) :
  NoDup (map key s) -> NoDup (map key (ttlDelete t i s)).
Proof.
  induction s as [|u s IH]; intros Hnd; [exact Hnd|].
  inversion Hnd as [|? ? Hnotin Hnd']; subst.
  unfold ttlDelete in *. simpl.
  destruct (negb (byId i u && ttlDue t u)); [|auto]. simpl.
  constructor; [|auto]. contradict Hnotin.
  apply in_map_iff in Hnotin. destruct Hnotin as (v & Hv & Hin).
  rewrite <- Hv. apply in_map. apply (ttlDelete_incl t i s v Hin).
Qed.

Lemma ttlDelete_ok (t : Z) (i : N) (s : Store) :
  store_ok s -> store_ok (ttlDelete t i s).
Proof.
  intros (Hnd & Hok & Hlock).
  split; [apply ttlDelete_NoDup; exact Hnd|].
  split; apply ttlDelete_Forall; assumption.
Qed.

Lemma ttlDelete_emails (t : Z) (i : N) (s : Store) :
  emails_ok s -> emails_ok (ttlDelete t i s).
Proof.
  intros [Hnd Hall].
  split; [apply ttlDelete_NoDup; exact Hnd | apply ttlDelete_Forall; exact Hall].
Qed.

Lemma findById_ttlDelete_other (t : Z) (i j : N) (s : Store) :
  j <> i -> findById i (ttlDelete t j s) = findById i s.
Proof.
  intros Hji. unfold findById, ttlDelete.
  induction s as [|u s IH]; simpl; [reflexivity|].
  destruct (byId j u && ttlDue t u) eqn:Hdel; simpl.
  - apply andb_prop in Hdel. destruct Hdel as [Hj _]. apply byId_eq in Hj.
    assert (Hi : byId i u = false)
      by (unfold byId; apply N.eqb_neq; congruence).
    rewrite Hi. exact IH.
  - destruct (byId i u); [reflexivity | exact IH].
Qed.

Lemma ttlDelete_removes (t : Z) (i : N) (s : Store) (u : User) :
  NoDup (map _id s) -> findById i s = Some u -> ttlDue t u = true ->
  ~ In u (ttlDelete t i s) /\ findById i (ttlDelete t i s) = None.
Proof.
  intros Hnd Hf Hdue.
  destruct (find_In _ _ _ Hf) as [Hin Hi].
  split.
  - unfold ttlDelete. intros H. apply filter_In in H. destruct H as [_ H].
    rewrite Hi, Hdue in H. discriminate.
  - unfold findById.
    destruct (find (byId i) (ttlDelete t i s)) as [v|] eqn:Hv; [|reflexivity].
    exfalso. destruct (find_In _ _ _ Hv) as [Hvin Hvi].
    unfold ttlDelete in Hvin. apply filter_In in Hvin.
    destruct Hvin as [Hvin Hkeep].
    assert (v = u).
    { apply (NoDup_map_inj _id s); auto.
      apply byId_eq in Hvi, Hi. congruence. }
    subst v. rewrite Hi, Hdue in Hkeep. discriminate.
Qed.

Lemma ttlDelete_keeps (t : Z) (i : N) (s : Store) (u : User) :
  In u s -> ttlDue t u = false -> In u (ttlDelete t i s).
Proof.
  intros Hin Hdue. unfold ttlDelete. apply filter_In.
  split; [exact Hin|]. rewrite Hdue, andb_false_r. reflexivity.
Qed.

Lemma findOne_notin (e : jsstring) (s : Store) :
  ~ In e (map email s) -> findOne e s = None.
Proof.
  intros Hnotin. unfold findOne.
  destruct (find (byEmail e) s) as [v|] eqn:Hv; [|reflexivity].
  exfalso. apply Hnotin. destruct (find_In _ _ _ Hv) as [Hin He].
  apply byEmail_eq in He. rewrite <- He. apply in_map. exact Hin.
Qed.

Lemma ttlDelete_frees_email (t : Z) (i : N) (s : Store) (u : User) :
  NoDup (map _id s) -> NoDup (map email s) ->
  findById i s = Some u -> ttlDue t u = true ->
  findOne (email u) (ttlDelete t i s) = None.
Proof.
  intros Hid Hnd Hf Hdue. apply findOne_notin. intros Hin.
  apply in_map_iff in Hin. destruct Hin as (v & Hv & Hin).
  assert (Hvs : In v s) by (unfold ttlDelete in Hin; apply filter_In in Hin;
                            apply Hin).
  assert (v = u).
  { apply (NoDup_map_inj email s); auto. apply (find_In _ _ _ Hf). }
  subst v. apply (ttlDelete_removes t i s u Hid Hf Hdue). exact Hin.
Qed.

(** Emails stay below U+0100 under requests that carry such emails. *)
Lemma FrameStep_latin1 (pe : ProcessEnv) (w : World) (r : Request)
    (resp : Response) (s s' : Store) :
  FrameStep pe w r resp s s' -> latin1Value (emailOf r) ->
  emails_latin1 s -> emails_latin1 s'.
Proof.
  intros (s1 & extra & -> & Hfr & Hextra) Hr Hall. unfold emails_latin1 in *.
  apply Forall_app. split.
  - clear Hextra. induction Hfr as [|u u' s s1 Hf _ IH];
      constructor; inversion Hall; subst; auto.
    rewrite (fr_email _ _ _ _ _ _ Hf). assumption.
  - destruct Hextra as [-> | (x & -> & Hx)]; [constructor|].
    destruct Hx as (b & mail & password & -> & Hm & _ & _ & _ & _ & ->).
    constructor; [|constructor].
    unfold signedUpUser. rewrite preSave_email. unfold newUser. cbn [email].
    rewrite castEmail_normalizeEmail. apply normalizeEmail_latin1.
    cbn [emailOf] in Hr. unfold truthyStr in Hm.
    destruct (Req.email b) as [| |x]; try discriminate.
    destruct (truthy x); [|discriminate]. injection Hm as <-. exact Hr.
Qed.

Lemma step_Sound (pe : ProcessEnv) (s : Store) (ev : Event) :
  inRange pe ev -> Sound s -> Sound (step pe s ev).
Proof.
  intros Hev (Hok & Hmail & Hlat). destruct ev as [w r | t i]; cbn [step].
  - assert (Hfr := handle_frame pe w r s (proj1 Hok)).
    split; [apply handle_ok; exact Hok|].
    split; [eapply FrameStep_emails; eauto|].
    eapply FrameStep_latin1; eauto. apply Hev.
  - split; [apply ttlDelete_ok; exact Hok|].
    split; [apply ttlDelete_emails; exact Hmail|].
    apply ttlDelete_Forall. exact Hlat.
Qed.

Lemma runDb_Sound (pe : ProcessEnv) (events : list Event) (s : Store) :
  Forall (inRange pe) events -> Sound s -> Sound (runDb pe events s).
Proof.
  unfold runDb. revert s.
  induction events as [|ev rest IH]; intros s Hall Hs; simpl; [exact Hs|].
  inversion Hall; subst. apply IH; [assumption|]. apply step_Sound; assumption.
Qed.

Lemma Deployed_Sound (pe : ProcessEnv) (s : Store) : Deployed pe s -> Sound s.
Proof.
  intros (history & Hall & ->). apply runDb_Sound; [exact Hall|].
  repeat split; constructor.
Qed.

Lemma runDb_app (pe : ProcessEnv) (a b : list Event) (s : Store) :
  runDb pe (a ++ b) s = runDb pe b (runDb pe a s).
Proof. unfold runDb. apply fold_left_app. Qed.

Lemma Deployed_runDb (pe : ProcessEnv) (events : list Event) (s : Store) :
  Deployed pe s -> Forall (inRange pe) events ->
  Deployed pe (runDb pe events s).
Proof.
  intros (history & Hall & ->) Hev. exists (history ++ events).
  split; [apply Forall_app; auto | symmetry; apply runDb_app].
Qed.

Lemma Deployed_handle (pe : ProcessEnv) (w : World) (r : Request) (s : Store) :
  Deployed pe s -> inRange pe (Served w r) ->
  Deployed pe (snd (handle pe w r s)).
Proof.
  intros Hs Hr. apply (Deployed_runDb pe [Served w r] s Hs).
  constructor; [exact Hr | constructor].
Qed.

(** A property of one document along the events that leave it in place. *)
Lemma runDb_stable (pe : ProcessEnv) (Q : User -> Prop) (i : N)
    (allowed : Event -> Prop) :
  (forall w r code u u',
     allowed (Served w r) -> _id u = i -> Frame pe w r code u u' ->
     Q u -> Q u') ->
  (forall t j, allowed (Expired t j) -> j <> i) ->
  forall (events : list Event) (s : Store) (u : User),
    store_ok s -> Forall allowed events -> findById i s = Some u -> Q u ->
    exists u', findById i (runDb pe events s) = Some u' /\ Q u'.
Proof.
  intros Hserved Hexpired events. unfold runDb.
  induction events as [|ev rest IH]; intros s u Hok Hall Hf Hq; simpl.
  - eauto.
  - inversion Hall as [|? ? Ha Hrest]; subst.
    destruct ev as [w r | t j]; cbn [step].
    + destruct (FrameStep_findById pe w r _ s _ i u
                  (handle_frame pe w r s (proj1 Hok)) Hf) as (u1 & Hf1 & Hfr).
      apply (IH _ u1); auto using handle_ok.
      apply (Hserved w r _ u u1 Ha) in Hfr; auto.
      apply byId_eq. apply (find_In _ _ _ Hf).
    + apply (IH _ u); auto using ttlDelete_ok.
      rewrite findById_ttlDelete_other; [exact Hf | eauto].
Qed.

(* ------------------------------------------------------------------------- *)
(** ** Accounts under the TTL indexes *)
(* ------------------------------------------------------------------------- *)

Lemma run_runDb (pe : ProcessEnv) (events : list (World * Request))
    (s : Store) :
  snd (run pe events s) = runDb pe (served events) s.
Proof.
  unfold runDb, served. revert s.
  induction events as [|[w r] rest IH]; intros s; simpl; [reflexivity|].
  rewrite <- IH. destruct (handle pe w r s) as [resp s1]. cbn [snd].
  destruct (run pe rest s1) as [resps s2]. reflexivity.
Qed.

Lemma Deployed_intro (pe : ProcessEnv) (history : list Event) :
  Forall (inRange pe) history -> Deployed pe (runDb pe history []).
Proof. intros H. exists history. auto. Qed.

Lemma signedUp_Deployed : Deployed demoEnv signedUp.
Proof.
  unfold signedUp. rewrite run_runDb. apply Deployed_intro. in_range.
Qed.

Lemma verifiedAccount_Deployed : Deployed demoEnv verifiedAccount.
Proof.
  unfold verifiedAccount. rewrite run_runDb. apply Deployed_intro. in_range.
Qed.

(** X14. In every collection the deployed server can hold, reached by
    requests with emails of code units below U+0100 and by TTL removals,
    the emails of the accounts are pairwise distinct, each is of code units
    below U+0100, in normal form (lower case, no blank around it) and
    matches the email pattern; so no two accounts share an email, and an
    account is the one found by its email. *)
Theorem deployed_emails_are_unique :
  forall (pe : ProcessEnv) (s : Store),
    Deployed pe s ->
    NoDup (map email s)
    /\ Forall (fun u => matchesEmailPattern (email u) /\ latin1 (email u)
                        /\ toLowerCase (email u) = email u
                        /\ trim (email u) = email u) s
    /\ (forall u v, In u s -> In v s -> email u = email v -> u = v)
    /\ (forall u, In u s -> findOne (email u) s = Some u).
Proof.
  intros pe s Hd. destruct (Deployed_Sound pe s Hd) as (_ & [Hnd Hall] & Hlat).
  split; [exact Hnd|]. split; [|split].
  - apply Forall_forall. intros u Hu.
    rewrite Forall_forall in Hall. destruct (Hall u Hu) as [Hv Hn].
    unfold emails_latin1 in Hlat. rewrite Forall_forall in Hlat.
    assert (Hp := proj1 (isValidEmail_spec _) Hv).
    split; [exact Hp|]. split; [apply Hlat; exact Hu|].
    split.
    + destruct (normalizeEmail_valid _ Hv) as [Hlow _]. congruence.
    + apply trim_no_blank, pattern_no_blank, Hp.
  - intros u v Hu Hv He. apply (NoDup_map_inj email s); auto.
  - intros u Hu. apply findOne_In; assumption.
Qed.

(** After the TTL index has removed the account a@x.com, still unverified
    when its code expired, the collection holds b@x.com alone. *)
Lemma deployed_emails_are_unique_witness :
  map email (runDb demoEnv expiryHistory []) = [js "b@x.com"]
  /\ NoDup (map email (runDb demoEnv expiryHistory [])).
Proof.
  split; [vm_compute; reflexivity|].
  apply (deployed_emails_are_unique demoEnv (runDb demoEnv expiryHistory [])).
  apply Deployed_intro. unfold expiryHistory. in_range.
Defined.

Lemma signup_conflict (pe : ProcessEnv) (w : World) (b : Req.Body) (s : Store)
    (mail password : jsstring) (u : User) :
  truthyStr (Req.email b) = Some mail -> isValidEmail mail = true ->
  truthyStr (Req.password b) = Some password ->
  isValid (validatePassword password) = true ->
  findOne (normalizeEmail mail) s = Some u ->
  handle pe w (PostSignup b) s
  = (errorResponse 409 "An account with this email already exists", s).
Proof.
  intros Hm Hv Hp Hpol Hf. unfold_auth_route.
  rewrite Hm, Hv, Hp, Hpol, Hf. reflexivity.
Qed.

Lemma ttlDelete_others (t : Z) (i : N) (s : Store) (v : User) :
  In v s -> _id v <> i -> In v (ttlDelete t i s).
Proof.
  intros Hin Hv. unfold ttlDelete. apply filter_In. split; [exact Hin|].
  assert (Hi : byId i v = false) by (unfold byId; apply N.eqb_neq; exact Hv).
  rewrite Hi. reflexivity.
Qed.

(** X15. No request removes an account; the TTL indexes do.  Along any
    requests and any TTL removals of other documents, a document stays in
    the collection under the same id, with the same email and creation time
    (deactivation included), and is the one found by that email, so that a
    sign-up whose email normalises to it answers 409 and changes nothing.
    But once the expiry of a code the document still holds has passed, the
    TTL index removes it, and it alone: no document has its id or its email
    any more. *)
Theorem account_is_removed_only_by_expiry :
  forall (pe : ProcessEnv) (events : list Event) (s : Store) (i : N) (u : User),
    Deployed pe s -> findById i s = Some u ->
    (Forall (inRange pe) events -> Forall (keeps i) events ->
     exists u',
       findById i (runDb pe events s) = Some u'
       /\ _id u' = _id u /\ email u' = email u /\ createdAt u' = createdAt u
       /\ findOne (email u) (runDb pe events s) = Some u'
       /\ forall (w : World) (b : Req.Body) (mail password : jsstring),
            truthyStr (Req.email b) = Some mail -> latin1 mail ->
            isValidEmail mail = true -> normalizeEmail mail = email u ->
            truthyStr (Req.password b) = Some password ->
            isValid (validatePassword password) = true ->
            handle pe w (PostSignup b) (runDb pe events s)
            = (errorResponse 409 "An account with this email already exists",
               runDb pe events s))
    /\ (forall t : Z,
          ttlDue t u = true ->
          findById i (step pe s (Expired t i)) = None
          /\ findOne (email u) (step pe s (Expired t i)) = None
          /\ forall v, In v s -> _id v <> i -> In v (step pe s (Expired t i))).
Proof.
  intros pe events s i u Hd Hf.
  destruct (Deployed_Sound pe s Hd) as (Hok & [Hnd _] & _).
  split.
  - intros Hrange Hkeep.
    assert (Hst : exists u',
               findById i (runDb pe events s) = Some u'
               /\ _id u' = _id u /\ email u' = email u
               /\ createdAt u' = createdAt u).
    { apply (runDb_stable pe
               (fun x => _id x = _id u /\ email x = email u
                         /\ createdAt x = createdAt u)
               i (keeps i)) with (u := u); auto.
      intros w r code x x' _ _ Hfr (H1 & H2 & H3).
      rewrite (fr_id _ _ _ _ _ _ Hfr), (fr_email _ _ _ _ _ _ Hfr),
        (fr_createdAt _ _ _ _ _ _ Hfr). auto. }
    destruct Hst as (u' & Hf' & Hid & Hmail & Hcr).
    destruct (Deployed_Sound pe _ (Deployed_runDb pe events s Hd Hrange))
      as (_ & [Hnd' _] & _).
    assert (Hone : findOne (email u) (runDb pe events s) = Some u').
    { rewrite <- Hmail. apply findOne_In; [exact Hnd'|].
      apply (find_In _ _ _ Hf'). }
    exists u'. repeat split; auto.
    intros w b mail password Hm _ Hv Hn Hp Hpol.
    apply signup_conflict with (mail := mail) (password := password)
      (u := u'); auto.
    rewrite Hn. exact Hone.
  - intros t Hdue. cbn [step].
    split; [apply (ttlDelete_removes t i s u (proj1 Hok) Hf Hdue)|].
    split; [apply ttlDelete_frees_email; auto; apply Hok|].
    intros v Hv Hvi. apply ttlDelete_others; assumption.
Qed.

(** The account a@x.com, signed up at 1000 and not verified: after its
    code has expired at 901000 the TTL index removes it, and the address
    can be registered anew. *)
Lemma account_is_removed_only_by_expiry_witness :
  findById 1%N (step demoEnv signedUp (Expired 960000 1%N)) = None
  /\ status (fst (handle demoEnv (demoWorld 970000)
                    (PostSignup (signupBody "a@x.com" "Abcd123!"))
                    (step demoEnv signedUp (Expired 960000 1%N)))) = 201.
Proof.
  split; [|vm_compute; reflexivity].
  destruct (findById 1%N signedUp) as [u|] eqn:Hu;
    [|vm_compute in Hu; discriminate Hu].
  assert (Hdue : ttlDue 960000 u = true).
  { assert (Hu' := Hu). vm_compute in Hu'. injection Hu' as <-.
    vm_compute. reflexivity. }
  destruct (account_is_removed_only_by_expiry demoEnv [] signedUp 1%N u
              signedUp_Deployed Hu) as [_ H].
  destruct (H 960000 Hdue) as [Hgone _]. exact Hgone.
Defined.

(* ------------------------------------------------------------------------- *)
(** ** The development routes *)
(* ------------------------------------------------------------------------- *)

Lemma dev_routes_production (pe : ProcessEnv) (w : World) (b : Req.Body)
    (s : Store) :
  isProduction pe = true ->
  handle pe w (PostDevVerifyEmail b) s
  = (AuthRoutes.routeNotFound "/api/auth/dev-verify-email", s)
  /\ handle pe w (PostDevResetPassword b) s
     = (AuthRoutes.routeNotFound "/api/auth/dev-reset-password", s).
Proof.
  intros Hp. unfold handle, AuthRoutes.postDevVerifyEmail,
    AuthRoutes.postDevResetPassword. rewrite Hp. auto.
Qed.

(** X16. In production the two development routes do not exist: a request
    to either is answered 404 by the catch-all handler and changes nothing,
    and the controller functions behind them refuse on their own as well.
    Outside production [devVerifyEmail] marks any existing account as
    verified without a code. *)
Theorem dev_routes_are_closed_in_production :
  forall (pe : ProcessEnv) (w : World) (b : Req.Body) (s : Store),
    (isProduction pe = true ->
     (status (fst (handle pe w (PostDevVerifyEmail b) s)) = 404
      /\ snd (handle pe w (PostDevVerifyEmail b) s) = s)
     /\ (status (fst (handle pe w (PostDevResetPassword b) s)) = 404
         /\ snd (handle pe w (PostDevResetPassword b) s) = s)
     /\ devVerifyEmail pe w b s = (errorResponse 404 "Endpoint not found", s)
     /\ devResetPassword pe w b s = (errorResponse 404 "Endpoint not found", s))
    /\ (isProduction pe = false ->
        forall mail u,
          truthyStr (Req.email b) = Some mail -> isValidEmail mail = true ->
          findOne (normalizeEmail mail) s = Some u -> validate u = [] ->
          handle pe w (PostDevVerifyEmail b) s
          = (messageResponse 200 "Email verified successfully (development mode)",
             replaceById
               (preSave (now w)
                  (set_emailVerification None (set_emailVerified true u))) s)).
Proof.
  intros pe w b s. split.
  - intros Hp. destruct (dev_routes_production pe w b s Hp) as [-> ->].
    unfold devVerifyEmail, devResetPassword. rewrite Hp. repeat split.
  - intros Hp mail u Hm Hv Hf Hval.
    unfold handle, AuthRoutes.postDevVerifyEmail, AuthRoutes.guarded,
      AuthRoutes.validateEmailInput, devVerifyEmail.
    rewrite Hp, Hm, Hv, Hf. cbn [negb].
    rewrite save_valid by exact Hval. reflexivity.
Qed.

(* ------------------------------------------------------------------------- *)
(** ** What a request may change, field by field *)
(* ------------------------------------------------------------------------- *)

Lemma compare_hash (password : jsstring) (salt : Bcrypt.Salt) :
  Bcrypt.compare password (Bcrypt.hash password salt) = true.
Proof.
  unfold Bcrypt.compare, Bcrypt.digest_eqb, Bcrypt.salt_eqb, Bcrypt.hash.
  cbn [Bcrypt.digestSalt Bcrypt.digestKey].
  rewrite !N.eqb_refl, jseqb_refl. reflexivity.
Qed.

Lemma resetPassword_200_inv (pe : ProcessEnv) (w : World) (b : Req.Body)
    (s : Store) :
  status (fst (handle pe w (PostResetPassword b) s)) = 200 ->
  exists mail code newPassword user pending,
    truthyStr (Req.email b) = Some mail
    /\ truthyStr (Req.code b) = Some code
    /\ truthyStr (Req.newPassword b) = Some newPassword
    /\ isValidEmail mail = true
    /\ isValid (validatePassword newPassword) = true
    /\ findOne (normalizeEmail mail) s = Some user
    /\ passwordReset user = Some pending
    /\ now w <= expiresAt pending
    /\ hashCode (trim code) = codeHash pending
    /\ snd (handle pe w (PostResetPassword b) s)
       = replaceById
           (preSave (now w)
              (set_passwordReset None
                 (set_passwordHash
                    (Bcrypt.hash newPassword
                       (Bcrypt.genSalt BCRYPT_SALT_ROUNDS (saltEntropy w)))
                    user))) s.
Proof.
  unfold_auth_route. repeat break_match; reduce_response;
    intros H; try discriminate H.
  match goal with Hs : save _ _ _ = inl _ |- _ =>
    apply save_inl in Hs; destruct Hs as [_ ->] end.
  do 5 eexists. repeat split; eauto using negb_false.
  - apply Z.ltb_ge. assumption.
  - apply String.eqb_eq. apply negb_false. assumption.
Qed.

Lemma verifyEmail_200_inv (pe : ProcessEnv) (w : World) (b : Req.Body)
    (s : Store) :
  status (fst (handle pe w (PostVerifyEmail b) s)) = 200 ->
  exists mail code user pending,
    truthyStr (Req.email b) = Some mail
    /\ truthyStr (Req.code b) = Some code
    /\ isValidEmail mail = true
    /\ findOne (normalizeEmail mail) s = Some user
    /\ emailVerified user = false
    /\ emailVerification user = Some pending
    /\ now w <= expiresAt pending
    /\ hashCode (trim code) = codeHash pending
    /\ snd (handle pe w (PostVerifyEmail b) s)
       = replaceById
           (preSave (now w)
              (set_emailVerification None (set_emailVerified true user))) s.
Proof.
  unfold_auth_route. repeat break_match; reduce_response;
    intros H; try discriminate H.
  match goal with Hs : save _ _ _ = inl _ |- _ =>
    apply save_inl in Hs; destruct Hs as [_ ->] end.
  do 4 eexists. repeat split; eauto using negb_false.
  - apply Z.ltb_ge. assumption.
  - apply String.eqb_eq. apply negb_false. assumption.
Qed.

Lemma found_by_email_is_target (pe : ProcessEnv) (s : Store) (i : N)
    (u user : User) (e : jsstring) :
  Reachable pe s -> findById i s = Some u -> findOne e s = Some user ->
  email u = e -> user = u.
Proof.
  intros Hr Hf Ho He. destruct (Reachable_emails pe s Hr) as [Hnd _].
  destruct (find_In _ _ _ Hf) as [Hin _].
  destruct (find_In _ _ _ Ho) as [Hin' He'']. apply byEmail_eq in He''.
  apply (NoDup_map_inj email s); auto. congruence.
Qed.

Lemma production_not_dev (pe : ProcessEnv) (w : World) (b : Req.Body)
    (s : Store) :
  (status (fst (handle pe w (PostDevResetPassword b) s)) = 200
   \/ status (fst (handle pe w (PostDevVerifyEmail b) s)) = 200) ->
  isProduction pe = false.
Proof.
  destruct (isProduction pe) eqn:Hp; [|reflexivity].
  destruct (dev_routes_production pe w b s Hp) as [-> ->].
  intros [H | H]; discriminate H.
Qed.

Lemma found_after (pe : ProcessEnv) (w : World) (r : Request) (s : Store)
    (i : N) (u u' : User) :
  Reachable pe s -> findById i s = Some u ->
  findById i (snd (handle pe w r s)) = Some u' ->
  Frame pe w r (status (fst (handle pe w r s))) u u'.
Proof.
  intros Hr Hf Hf'.
  destruct (handle_findById_frame pe w r s i u Hr Hf) as (u1 & Hf1 & Hfr).
  congruence.
Qed.

Lemma differs_by_field {A : Type} (f : User -> A) (u u' : User) :
  f u' <> f u -> u' <> u.
Proof. intros H ->. apply H. reflexivity. Qed.

Lemma findById_saved (i : N) (u x : User) (s : Store) :
  findById i s = Some u -> _id x = _id u ->
  findById i (replaceById x s) = Some x.
Proof.
  intros Hf Hid. destruct (find_In _ _ _ Hf) as [_ Hi]. apply byId_eq in Hi.
  assert (E : i = _id x) by congruence. clear Hi. subst i.
  apply findById_replace_same with (u := u). exact Hf.
Qed.

(** X17. A request changes no account but the one it is about: the
    account whose email its body names (up to case), or the account whose
    id its verified token carries.  Every other document of the collection
    is the same after the request as before. *)
Theorem request_changes_only_its_account :
  forall (pe : ProcessEnv) (w : World) (r : Request) (s : Store) (i : N)
         (u : User),
    Reachable pe s -> findById i s = Some u -> ~ Targets pe w r u ->
    findById i (snd (handle pe w r s)) = Some u.
Proof.
  intros pe w r s i u Hr Hf Hnot.
  destruct (handle_findById_frame pe w r s i u Hr Hf) as (u' & Hf' & Hfr).
  rewrite Hf'. f_equal.
  destruct (User_eq_dec u' u) as [E | E]; [exact E|].
  exfalso. apply Hnot. apply (fr_target _ _ _ _ _ _ Hfr). exact E.
Qed.

Lemma request_changes_only_its_account_witness :
  exists u,
    findById 1%N twoAccounts = Some u
    /\ findById 1%N
         (snd (handle demoEnv (demoWorld 3000)
                 (PostForgotPassword (mailBody "b@x.com")) twoAccounts))
       = Some u
    /\ twoAccounts
       <> snd (handle demoEnv (demoWorld 3000)
                 (PostForgotPassword (mailBody "b@x.com")) twoAccounts).
Proof.
  assert (Hf : exists u, findById 1%N twoAccounts = Some u)
    by (eexists; vm_compute; reflexivity).
  destruct Hf as [u Hf]. exists u. split; [exact Hf|]. split.
  - apply (request_changes_only_its_account demoEnv (demoWorld 3000)
             (PostForgotPassword (mailBody "b@x.com")) twoAccounts 1%N u
             twoAccounts_Reachable Hf).
    vm_compute in Hf. injection Hf as <-.
    intros (mail & Hm & He). vm_compute in Hm. injection Hm as <-.
    vm_compute in He. discriminate He.
  - vm_compute. discriminate.
Defined.

(** X18. A stored password changes only through a successful password
    reset.  If the password hash of an account differs after a request,
    the request was answered 200 and was either [resetPassword] naming the
    account's email and carrying the account's pending reset code (its
    hash equal to the stored one, not past its expiry) with a new password
    that meets the policy and that the new hash verifies, or, outside
    production only, the development reset route. *)
Theorem password_changes_only_with_reset_code :
  forall (pe : ProcessEnv) (w : World) (r : Request) (s : Store) (i : N)
         (u u' : User),
    Reachable pe s -> findById i s = Some u ->
    findById i (snd (handle pe w r s)) = Some u' ->
    passwordHash u' <> passwordHash u ->
    status (fst (handle pe w r s)) = 200
    /\ ((isProduction pe = false /\ exists b, r = PostDevResetPassword b)
        \/ exists b mail code newPassword pending,
             r = PostResetPassword b
             /\ truthyStr (Req.email b) = Some mail
             /\ normalizeEmail mail = email u
             /\ truthyStr (Req.code b) = Some code
             /\ truthyStr (Req.newPassword b) = Some newPassword
             /\ passwordReset u = Some pending
             /\ hashCode (trim code) = codeHash pending
             /\ now w <= expiresAt pending
             /\ meetsPolicy newPassword
             /\ Bcrypt.compare newPassword (passwordHash u') = true
             /\ passwordReset u' = None).
Proof.
  intros pe w r s i u u' Hr Hf Hf' Hne.
  assert (Hfr := found_after pe w r s i u u' Hr Hf Hf').
  destruct (fr_password _ _ _ _ _ _ Hfr Hne) as [[b [-> | ->]] H200].
  - split; [exact H200|]. right.
    assert (Ht := fr_target _ _ _ _ _ _ Hfr
                    (differs_by_field passwordHash u u' Hne)).
    destruct Ht as (mail' & Hm' & Hn').
    destruct (resetPassword_200_inv pe w b s H200)
      as (mail & code & newPassword & user & pending
          & Hm & Hc & Hp & Hv & Hpol & Ho & Hpend & Hexp & Hhash & Hs').
    assert (mail' = mail) by congruence. subst mail'.
    assert (user = u)
      by (apply (found_by_email_is_target pe s i u user _ Hr Hf Ho);
          congruence).
    subst user. rewrite Hs' in Hf'.
    rewrite (findById_saved i u _ s Hf) in Hf' by (rewrite preSave_id; reflexivity).
    injection Hf' as <-.
    exists b, mail, code, newPassword, pending.
    rewrite preSave_passwordHash, preSave_reset.
    cbn [passwordHash passwordReset set_passwordReset set_passwordHash expiredAt].
    destruct (proj1 (validatePassword_accepts newPassword) Hpol)
      as (? & ? & ? & ? & ?).
    repeat split; auto using compare_hash.
  - split; [exact H200|]. left. split; [|eauto].
    apply (production_not_dev pe w b s). left. exact H200.
Qed.

Lemma password_changes_only_with_reset_code_witness :
  status (fst (handle demoEnv (demoWorld 3000)
                 (PostResetPassword (resetBody "a@x.com" "123456" "Newpass1!"))
                 resetPending)) = 200.
Proof.
  assert (H1 : exists u, findById 1%N resetPending = Some u)
    by (eexists; vm_compute; reflexivity).
  destruct H1 as [u H1].
  assert (H2 : exists u',
             findById 1%N
               (snd (handle demoEnv (demoWorld 3000)
                       (PostResetPassword
                          (resetBody "a@x.com" "123456" "Newpass1!"))
                       resetPending)) = Some u')
    by (eexists; vm_compute; reflexivity).
  destruct H2 as [u' H2].
  refine (proj1 (password_changes_only_with_reset_code demoEnv (demoWorld 3000)
                   _ resetPending 1%N u u' resetPending_Reachable H1 H2 _)).
  vm_compute in H1, H2. injection H1 as <-. injection H2 as <-.
  vm_compute. discriminate.
Defined.

(** X19. An email is marked verified only with its code.  A verified
    account stays verified; an unverified account becomes verified only by
    a request answered 200 that was either [verifyEmail] naming the
    account's email and carrying its pending verification code (hash equal
    to the stored one, not past its expiry), or, outside production only,
    the development route; and the pending code is gone afterwards. *)
Theorem email_is_verified_only_with_its_code :
  forall (pe : ProcessEnv) (w : World) (r : Request) (s : Store) (i : N)
         (u u' : User),
    Reachable pe s -> findById i s = Some u ->
    findById i (snd (handle pe w r s)) = Some u' ->
    (emailVerified u = true -> emailVerified u' = true)
    /\ (emailVerified u = false -> emailVerified u' = true ->
        status (fst (handle pe w r s)) = 200
        /\ emailVerification u' = None
        /\ ((isProduction pe = false /\ exists b, r = PostDevVerifyEmail b)
            \/ exists b mail code pending,
                 r = PostVerifyEmail b
                 /\ truthyStr (Req.email b) = Some mail
                 /\ normalizeEmail mail = email u
                 /\ truthyStr (Req.code b) = Some code
                 /\ emailVerification u = Some pending
                 /\ hashCode (trim code) = codeHash pending
                 /\ now w <= expiresAt pending)).
Proof.
  intros pe w r s i u u' Hr Hf Hf'.
  assert (Hfr := found_after pe w r s i u u' Hr Hf Hf').
  split.
  - intros Hv. destruct (Bool.bool_dec (emailVerified u') (emailVerified u))
      as [E | E]; [congruence|].
    destruct (fr_verified _ _ _ _ _ _ Hfr E) as (_ & _ & H). exact H.
  - intros Hu Hu'.
    assert (Hne : emailVerified u' <> emailVerified u) by congruence.
    destruct (fr_verified _ _ _ _ _ _ Hfr Hne) as ([b [-> | ->]] & H200 & _).
    + split; [exact H200|].
      assert (Ht := fr_target _ _ _ _ _ _ Hfr
                      (differs_by_field emailVerified u u' Hne)).
      destruct Ht as (mail' & Hm' & Hn').
      destruct (verifyEmail_200_inv pe w b s H200)
        as (mail & code & user & pending
            & Hm & Hc & Hv & Ho & Hnv & Hpend & Hexp & Hhash & Hs').
      assert (mail' = mail) by congruence. subst mail'.
      assert (user = u)
        by (apply (found_by_email_is_target pe s i u user _ Hr Hf Ho);
            congruence).
      subst user. rewrite Hs' in Hf'.
      rewrite (findById_saved i u _ s Hf) in Hf' by (rewrite preSave_id; reflexivity).
      injection Hf' as <-.
      split.
      * rewrite preSave_verification. reflexivity.
      * right. exists b, mail, code, pending. repeat split; auto.
    + split; [exact H200|].
      assert (Hok : store_ok (snd (handle pe w (PostDevVerifyEmail b) s)))
        by (apply handle_ok, (Reachable_ok pe s Hr)).
      destruct Hok as (_ & Hok & _). rewrite Forall_forall in Hok.
      destruct (Hok u' (proj1 (find_In _ _ _ Hf'))) as (_ & _ & Hpend & _).
      split; [exact (Hpend Hu')|].
      left. split; [|eauto].
      apply (production_not_dev pe w b s). right. exact H200.
Qed.

Lemma email_is_verified_only_with_its_code_witness :
  status (fst (handle demoEnv (demoWorld 2000)
                 (PostVerifyEmail (codeBody "a@x.com" "123456")) signedUp))
  = 200.
Proof.
  assert (H1 : exists u, findById 1%N signedUp = Some u)
    by (eexists; vm_compute; reflexivity).
  destruct H1 as [u H1].
  assert (H2 : exists u',
             findById 1%N
               (snd (handle demoEnv (demoWorld 2000)
                       (PostVerifyEmail (codeBody "a@x.com" "123456"))
                       signedUp)) = Some u')
    by (eexists; vm_compute; reflexivity).
  destruct H2 as [u' H2].
  refine (proj1 (proj2 (email_is_verified_only_with_its_code demoEnv
                          (demoWorld 2000) _ signedUp 1%N u u'
                          signedUp_Reachable H1 H2) _ _)).
  - vm_compute in H1. injection H1 as <-. reflexivity.
  - vm_compute in H2. injection H2 as <-. reflexivity.
Defined.

(** X20. The other fields have one writer each.  After any request the
    account keeps its id, email and creation time.  [lastLogin] changes
    only by a successful sign-in naming the account, and is then the time
    of the request; name and profile change only by a successful profile
    update bearing a token for the account; [isActive] changes only by a
    successful account deletion bearing a token for the account, and only
    to false. *)
Theorem account_fields_have_one_writer :
  forall (pe : ProcessEnv) (w : World) (r : Request) (s : Store) (i : N)
         (u u' : User),
    Reachable pe s -> findById i s = Some u ->
    findById i (snd (handle pe w r s)) = Some u' ->
    (_id u' = _id u /\ email u' = email u /\ createdAt u' = createdAt u)
    /\ (lastLogin u' <> lastLogin u ->
        status (fst (handle pe w r s)) = 200
        /\ lastLogin u' = Some (now w)
        /\ exists b mail, r = PostSignin b
                          /\ truthyStr (Req.email b) = Some mail
                          /\ normalizeEmail mail = email u)
    /\ (name u' <> name u \/ profile u' <> profile u ->
        status (fst (handle pe w r s)) = 200
        /\ exists c b reqUser, r = PutMe c b
                               /\ authMiddleware pe w c = inl reqUser
                               /\ AuthMiddleware.id reqUser = _id u)
    /\ (isActive u' <> isActive u ->
        status (fst (handle pe w r s)) = 200
        /\ isActive u' = false
        /\ exists c reqUser, r = DeleteMe c
                             /\ authMiddleware pe w c = inl reqUser
                             /\ AuthMiddleware.id reqUser = _id u).
Proof.
  intros pe w r s i u u' Hr Hf Hf'.
  assert (Hfr := found_after pe w r s i u u' Hr Hf Hf').
  split; [|split; [|split]].
  - split; [|split]; apply Hfr.
  - intros Hne.
    destruct (fr_lastLogin _ _ _ _ _ _ Hfr Hne) as ([b ->] & H200 & Hl).
    destruct (fr_target _ _ _ _ _ _ Hfr (differs_by_field lastLogin u u' Hne))
      as (mail & Hm & Hn).
    split; [exact H200|]. split; [exact Hl|]. exists b, mail. auto.
  - intros Hne.
    assert (H : (exists c b, r = PutMe c b)
                /\ status (fst (handle pe w r s)) = 200 /\ u' <> u).
    { destruct Hne as [Hne | Hne].
      - destruct (fr_name _ _ _ _ _ _ Hfr Hne) as [Hput H200].
        split; [exact Hput|]. split; [exact H200|].
        apply (differs_by_field name u u' Hne).
      - destruct (fr_profile _ _ _ _ _ _ Hfr Hne) as [Hput H200].
        split; [exact Hput|]. split; [exact H200|].
        apply (differs_by_field profile u u' Hne). }
    destruct H as ((c & b & ->) & H200 & Hdiff).
    destruct (fr_target _ _ _ _ _ _ Hfr Hdiff) as (reqUser & Ha & Hi).
    split; [exact H200|]. exists c, b, reqUser. auto.
  - intros Hne.
    destruct (fr_isActive _ _ _ _ _ _ Hfr Hne) as ([c ->] & H200 & Hl).
    destruct (fr_target _ _ _ _ _ _ Hfr (differs_by_field isActive u u' Hne))
      as (reqUser & Ha & Hi).
    split; [exact H200|]. split; [exact Hl|]. exists c, reqUser. auto.
Qed.

Lemma account_fields_have_one_writer_witness :
  exists u u',
    findById 1%N verifiedAccount = Some u
    /\ findById 1%N
         (snd (handle demoEnv (demoWorld 3000)
                 (PostSignin (signupBody "a@x.com" "Abcd123!")) verifiedAccount))
       = Some u'
    /\ lastLogin u = None /\ lastLogin u' = Some 3000
    /\ email u' = email u.
Proof.
  assert (H1 : exists u, findById 1%N verifiedAccount = Some u)
    by (eexists; vm_compute; reflexivity).
  destruct H1 as [u H1].
  assert (H2 : exists u',
             findById 1%N
               (snd (handle demoEnv (demoWorld 3000)
                       (PostSignin (signupBody "a@x.com" "Abcd123!"))
                       verifiedAccount)) = Some u')
    by (eexists; vm_compute; reflexivity).
  destruct H2 as [u' H2].
  exists u, u'. split; [exact H1|]. split; [exact H2|].
  destruct (account_fields_have_one_writer demoEnv (demoWorld 3000) _
              verifiedAccount 1%N u u' verifiedAccount_Reachable H1 H2)
    as ((_ & He & _) & _).
  split; [|split; [|exact He]].
  - vm_compute in H1. injection H1 as <-. reflexivity.
  - vm_compute in H2. injection H2 as <-. reflexivity.
Defined.

(* ------------------------------------------------------------------------- *)
(** ** Failed requests *)
(* ------------------------------------------------------------------------- *)

Lemma errorHandler_status_any (pe : ProcessEnv) (e : ServerError) :
  status (errorHandler pe e) = snd (classify e).
Proof.
  unfold errorHandler. destruct (classify e) as [message code].
  destruct (isDevelopment pe); reflexivity.
Qed.

(** X21. A request that changes the collection was answered 200 or 201,
    with one exception: when the mail transport fails, sign-up, resend and
    forgot-password have already stored the account or the new code when
    they answer 500.  In particular every request answered with a status
    from 400 to 499 leaves the collection as it was. *)
Theorem failed_requests_change_nothing :
  forall (pe : ProcessEnv) (w : World) (r : Request) (s : Store),
    (snd (handle pe w r s) = s
     \/ status (fst (handle pe w r s)) = 200
     \/ status (fst (handle pe w r s)) = 201
     \/ (status (fst (handle pe w r s)) = 500 /\ mailDelivers w = false
         /\ ((exists b, r = PostSignup b)
             \/ (exists b, r = PostResendVerification b)
             \/ (exists b, r = PostForgotPassword b))))
    /\ (400 <= status (fst (handle pe w r s)) < 500 -> snd (handle pe w r s) = s).
Proof.
  intros pe w r s.
  assert (H : snd (handle pe w r s) = s
     \/ status (fst (handle pe w r s)) = 200
     \/ status (fst (handle pe w r s)) = 201
     \/ (status (fst (handle pe w r s)) = 500 /\ mailDelivers w = false
         /\ ((exists b, r = PostSignup b)
             \/ (exists b, r = PostResendVerification b)
             \/ (exists b, r = PostForgotPassword b)))).
  { destruct r; unfold handle,
      AuthRoutes.postSignup, AuthRoutes.postVerifyEmail, AuthRoutes.postSignin,
      AuthRoutes.postResendVerification, AuthRoutes.postForgotPassword,
      AuthRoutes.postResetPassword, AuthRoutes.postLogout,
      AuthRoutes.postDevVerifyEmail, AuthRoutes.postDevResetPassword,
      AuthRoutes.guarded, AuthRoutes.validateEmailInput,
      signup, verifyEmail, signin, resendVerification, forgotPassword,
      resetPassword, logout, devVerifyEmail, devResetPassword,
      ProtectedRoutes.getMe, ProtectedRoutes.putMe, ProtectedRoutes.deleteMe,
      ProtectedRoutes.getAccountStats,
      sendVerificationEmail, sendResetEmail;
      try match goal with
        | |- context [ProtectedRoutes.mergeField] =>
            destruct (Req.name b), (Req.profile b)
        end;
      repeat break_match; cbn [fst snd status errorResponse messageResponse];
      first [ left; reflexivity
            | right; left; reflexivity
            | right; right; left; reflexivity
            | right; right; right; split; [reflexivity|]; split; [reflexivity|];
              eauto ]. }
  split; [exact H|].
  intros Hs. destruct H as [H | [H | [H | (H & _)]]]; [exact H | lia ..].
Qed.

(* ------------------------------------------------------------------------- *)
(** ** The handlers on their success paths *)
(* ------------------------------------------------------------------------- *)

Lemma findOne_None_existsb (e : jsstring) (s : Store) :
  findOne e s = None -> existsb (byEmail e) s = false.
Proof.
  unfold findOne. induction s as [|u s IH]; simpl; [reflexivity|].
  destruct (byEmail e u); [discriminate | exact IH].
Qed.

Lemma findOne_app_new (e : jsstring) (s : Store) (x : User) :
  findOne e s = None -> email x = e -> findOne e (s ++ [x]) = Some x.
Proof.
  unfold findOne. intros Hf He. induction s as [|u s IH]; simpl in *.
  - unfold byEmail. rewrite He, jseqb_refl. reflexivity.
  - destruct (byEmail e u); [discriminate | auto].
Qed.

Lemma signedUpUser_fields (pe : ProcessEnv) (w : World) (s : Store)
    (mail password : jsstring) (nm : option jsstring) :
  let x := signedUpUser pe w s mail password nm in
  _id x = freshId s /\ email x = normalizeEmail mail
  /\ passwordHash x
     = Bcrypt.hash password (Bcrypt.genSalt BCRYPT_SALT_ROUNDS (saltEntropy w))
  /\ name x = castTrimmed nm /\ emailVerified x = false /\ isActive x = true
  /\ createdAt x = now w /\ lastLogin x = None /\ passwordReset x = None
  /\ profile x = mkProfile None None None
  /\ emailVerification x
     = if CODE_EXPIRES_MIN pe <? 0 then None else Some (issuedCode pe w).
Proof.
  unfold signedUpUser. autorewrite with presave. unfold newUser.
  cbn [_id email passwordHash name emailVerified isActive createdAt lastLogin
       passwordReset profile emailVerification expiredAt].
  rewrite castEmail_normalizeEmail. repeat split.
  unfold issuedCode, addMinutes. cbn [expiresAt].
  destruct (CODE_EXPIRES_MIN pe <? 0) eqn:H1;
    destruct (now w + CODE_EXPIRES_MIN pe * 60000 <? now w) eqn:H2;
    try reflexivity; exfalso;
    rewrite ?Z.ltb_lt, ?Z.ltb_ge in *; lia.
Qed.

Lemma validate_signedUpUser (pe : ProcessEnv) (w : World) (s : Store)
    (mail password : jsstring) (v : JsValue) :
  validate (signedUpUser pe w s mail password (trimOrNull v))
  = if exceeds 100 (trimOrNull v) then [("name", 100)] else [].
Proof.
  unfold signedUpUser. rewrite validate_preSave. unfold validate, newUser.
  cbn [name profile firstName lastName exceeds].
  rewrite trimOrNull_trimmed, !app_nil_r. reflexivity.
Qed.

Lemma signup_creates (pe : ProcessEnv) (w : World) (b : Req.Body) (s : Store)
    (mail password : jsstring) :
  truthyStr (Req.email b) = Some mail -> isValidEmail mail = true ->
  truthyStr (Req.password b) = Some password ->
  isValid (validatePassword password) = true ->
  findOne (normalizeEmail mail) s = None ->
  handle pe w (PostSignup b) s
  = if exceeds 100 (trimOrNull (Req.name b)) then
      (errorResponse 500 "Failed to create account. Please try again.", s)
    else
      (if mailDelivers w then
         messageResponse 201
           "Account created successfully. Please check your email for verification code."
       else if negb (isProduction pe) then
         mkResponse 201
           (JObj [("message",
                   JStr (js "Account created successfully (email delivery failed in development)."));
                  ("devVerificationCode",
                   JStr (generateNumericCode w (CODE_LENGTH pe)))])
       else
         errorResponse 500
           "Account created but failed to send verification email. Please contact support.",
       s ++ [signedUpUser pe w s mail password (trimOrNull (Req.name b))]).
Proof.
  intros Hm Hv Hp Hpol Hf. unfold_auth_route.
  rewrite Hm, Hv, Hp, Hpol, Hf. cbn [negb].
  assert (Hval := validate_signedUpUser pe w s mail password (Req.name b)).
  assert (Hmail := proj1 (proj2 (signedUpUser_fields pe w s mail password
                                   (trimOrNull (Req.name b))))).
  unfold signedUpUser, issuedCode in *. unfold saveNew.
  rewrite validate_preSave in Hval. rewrite Hval.
  destruct (exceeds 100 (trimOrNull (Req.name b))); [reflexivity|].
  cbv zeta. rewrite Hmail, (findOne_None_existsb _ _ Hf).
  unfold sendVerificationEmail.
  destruct (mailDelivers w); [reflexivity|].
  destruct (isProduction pe); reflexivity.
Qed.

Lemma verifyEmail_succeeds (pe : ProcessEnv) (w : World) (b : Req.Body)
    (s : Store) (mail code : jsstring) (u : User) (pending : PendingCode) :
  truthyStr (Req.email b) = Some mail -> isValidEmail mail = true ->
  truthyStr (Req.code b) = Some code ->
  findOne (normalizeEmail mail) s = Some u -> emailVerified u = false ->
  emailVerification u = Some pending -> now w <= expiresAt pending ->
  hashCode (trim code) = codeHash pending -> validate u = [] ->
  handle pe w (PostVerifyEmail b) s
  = (messageResponse 200 "Email verified successfully! You can now sign in.",
     replaceById
       (preSave (now w) (set_emailVerification None (set_emailVerified true u)))
       s).
Proof.
  intros Hm Hv Hc Hf Hnv Hpend Hexp Hhash Hval. unfold_auth_route.
  rewrite Hm, Hv, Hc, Hf, Hnv, Hpend. cbn [negb].
  rewrite <- Hhash, hashCode_not_empty, String.eqb_refl. cbn [negb].
  apply Z.ltb_ge in Hexp. rewrite Hexp.
  rewrite save_valid by exact Hval. reflexivity.
Qed.


Lemma signin_outcome (pe : ProcessEnv) (w : World) (b : Req.Body) (s : Store)
    (mail password : jsstring) (u : User) :
  truthyStr (Req.email b) = Some mail -> isValidEmail mail = true ->
  truthyStr (Req.password b) = Some password ->
  findOne (normalizeEmail mail) s = Some u -> validate u = [] ->
  handle pe w (PostSignin b) s
  = if negb (Bcrypt.compare password (passwordHash u))
    then (errorResponse 401 "Invalid email or password", s)
    else if negb (emailVerified u)
    then (errorResponse 403 "Please verify your email before signing in", s)
    else
      match Jwt.sign (_id u) (email u) (JWT_SECRET pe) (JWT_EXPIRES_IN pe)
              (now w) with
      | None => (errorResponse 500 "Failed to sign in. Please try again.", s)
      | Some token =>
          (mkResponse 200
             (JObj [("message", JStr (js "Signed in successfully"));
                    ("token", JToken token);
                    ("user",
                     signinUser (preSave (now w) (set_lastLogin (Some (now w)) u)))]),
           replaceById (preSave (now w) (set_lastLogin (Some (now w)) u)) s)
      end.
Proof.
  intros Hm Hv Hp Hf Hval. unfold_auth_route.
  rewrite Hm, Hv, Hp, Hf. cbn [negb].
  rewrite save_valid by exact Hval. reflexivity.
Qed.

Lemma sign_Some (uid : N) (mail k : jsstring) (expiresIn now : Z) :
  truthy k = true ->
  Jwt.sign uid mail (Some k) expiresIn now
  = Some (Jwt.Signed k
            (Jwt.mkPayload uid mail (Jwt.clockTimestamp now)
               (Jwt.clockTimestamp now + expiresIn))).
Proof. intros Hk. unfold Jwt.sign. rewrite Hk. reflexivity. Qed.

Lemma authMiddleware_bearer (pe : ProcessEnv) (w : World) (k : jsstring)
    (payload : Jwt.Payload) :
  JWT_SECRET pe = Some k -> truthy k = true ->
  Jwt.clockTimestamp (now w) < Jwt.exp payload ->
  truthy (Jwt.email payload) = true ->
  authMiddleware pe w (bearer (Jwt.Signed k payload))
  = inl (mkAuthUser (Jwt.id payload) (Jwt.email payload)).
Proof.
  intros Hk Ht He Hm. unfold authMiddleware, bearer, extractToken.
  cbn [Req.authorization].
  rewrite (proj2 (verifyToken_inl pe w (Jwt.Signed k payload) payload))
    by (exists k; auto).
  rewrite Hm. reflexivity.
Qed.

Lemma getMe_active (pe : ProcessEnv) (w : World) (c : Req.Credentials)
    (s : Store) (reqUser : AuthUser) (u : User) :
  authMiddleware pe w c = inl reqUser ->
  findById (AuthMiddleware.id reqUser) s = Some u -> isActive u = true ->
  handle pe w (GetMe c) s
  = (mkResponse 200 (JObj [("success", JBool true); ("user", toSafeObject u)]),
     s).
Proof.
  intros Ha Hf Hi. unfold handle, ProtectedRoutes.getMe.
  rewrite Ha, Hf, Hi. reflexivity.
Qed.

Lemma pattern_truthy (mail : jsstring) :
  isValidEmail mail = true -> truthy (normalizeEmail mail) = true.
Proof.
  intros Hv. destruct (normalizeEmail_valid mail Hv) as [_ Hn].
  apply isValidEmail_spec in Hn.
  destruct Hn as (a & b & c & -> & Ha & _). destruct a; [congruence|].
  reflexivity.
Qed.

Lemma Reachable_valid (pe : ProcessEnv) (s : Store) (u : User) :
  Reachable pe s -> In u s -> validate u = [] /\ NoDup (map _id s).
Proof.
  intros Hr Hin. destruct (Reachable_ok pe s Hr) as (Hnd & Hok & _).
  rewrite Forall_forall in Hok. destruct (Hok u Hin) as (_ & _ & _ & Hv).
  auto.
Qed.

Lemma findById_In (s : Store) (u : User) :
  NoDup (map _id s) -> In u s -> findById (_id u) s = Some u.
Proof.
  intros Hnd Hin. unfold findById.
  destruct (find (byId (_id u)) s) as [v|] eqn:Hf.
  - destruct (find_In _ _ _ Hf) as [Hv He]. apply byId_eq in He.
    f_equal. apply (NoDup_map_inj _id s); auto.
  - apply (find_none _ _ Hf) in Hin. unfold byId in Hin.
    rewrite N.eqb_refl in Hin. discriminate.
Qed.

Lemma truthyStr_JsString (x : jsstring) :
  truthy x = true -> truthyStr (JsString x) = Some x.
Proof. intros H. simpl. rewrite H. reflexivity. Qed.

(** X22. A sign-up with a well-formed email, of code units below U+0100,
    that is not registered and a password that meets the policy, at an
    instant from which the expiry of a code is still a date.  If the
    trimmed name is longer than 100 characters the schema refuses the
    document and the answer is 500, not a validation error, and nothing is
    stored.  Otherwise the account is stored, unverified and active, under
    the normalised email, with a password hash that the password verifies,
    and (for a code lifetime that is not negative) with the hash of the
    drawn code pending.  This happens whether or not the mail goes out: a
    delivered mail gives 201; a failed delivery gives 500 in production,
    although the account exists, and outside production 201 with the code
    itself in the body. *)
Theorem signup_outcomes :
  forall (pe : ProcessEnv) (w : World) (b : Req.Body) (s : Store)
         (mail password : jsstring),
    inRange pe (Served w (PostSignup b)) ->
    truthyStr (Req.email b) = Some mail -> isValidEmail mail = true ->
    truthyStr (Req.password b) = Some password ->
    isValid (validatePassword password) = true ->
    findOne (normalizeEmail mail) s = None ->
    let x := signedUpUser pe w s mail password (trimOrNull (Req.name b)) in
    let out := handle pe w (PostSignup b) s in
    (exceeds 100 (trimOrNull (Req.name b)) = true ->
     out = (errorResponse 500 "Failed to create account. Please try again.", s))
    /\ (exceeds 100 (trimOrNull (Req.name b)) = false ->
        snd out = s ++ [x]
        /\ findOne (normalizeEmail mail) (snd out) = Some x
        /\ emailVerified x = false /\ isActive x = true
        /\ Bcrypt.compare password (passwordHash x) = true
        /\ (0 <= CODE_EXPIRES_MIN pe ->
            emailVerification x = Some (issuedCode pe w))
        /\ (mailDelivers w = true ->
            status (fst out) = 201
            /\ field "devVerificationCode" (body (fst out)) = None)
        /\ (mailDelivers w = false -> isProduction pe = true ->
            status (fst out) = 500)
        /\ (mailDelivers w = false -> isProduction pe = false ->
            status (fst out) = 201
            /\ field "devVerificationCode" (body (fst out))
               = Some (JStr (generateNumericCode w (CODE_LENGTH pe)))
            /\ codeHash (issuedCode pe w)
               = hashCode (generateNumericCode w (CODE_LENGTH pe)))).
Proof.
  intros pe w b s mail password _ Hm Hv Hp Hpol Hf x out.
  subst out. rewrite (signup_creates pe w b s mail password Hm Hv Hp Hpol Hf).
  fold x.
  destruct (signedUpUser_fields pe w s mail password (trimOrNull (Req.name b)))
    as (Hid & Hmail & Hhash & _ & Hver & Hact & _ & _ & _ & _ & Hcode).
  fold x in Hid, Hmail, Hhash, Hver, Hact, Hcode.
  split; intros Hn; rewrite Hn; [reflexivity|]. cbn [fst snd].
  split; [reflexivity|].
  split; [apply findOne_app_new; assumption|].
  split; [exact Hver|]. split; [exact Hact|].
  split; [rewrite Hhash; apply compare_hash|].
  split; [intros Hc; rewrite Hcode; apply Z.ltb_ge in Hc; rewrite Hc; reflexivity|].
  split; [intros ->; split; reflexivity|].
  split; [intros -> ->; reflexivity|].
  intros -> ->. repeat split.
Qed.

Lemma signup_outcomes_witness :
  status (fst (handle demoEnv (mailDown 2000)
                 (PostSignup (signupBody "b@x.com" "Efgh456?")) signedUp)) = 201
  /\ field "devVerificationCode"
       (body (fst (handle demoEnv (mailDown 2000)
                     (PostSignup (signupBody "b@x.com" "Efgh456?")) signedUp)))
     = Some (JStr (js "123456")).
Proof.
  destruct (signup_outcomes demoEnv (mailDown 2000)
              (signupBody "b@x.com" "Efgh456?") signedUp
              (js "b@x.com") (js "Efgh456?"))
    as [_ H]; try (vm_compute; reflexivity); [in_range|].
  destruct (H eq_refl) as (_ & _ & _ & _ & _ & _ & _ & _ & Hdev).
  destruct (Hdev eq_refl eq_refl) as (H201 & Hcode & _).
  split; [exact H201 | exact Hcode].
Defined.

Lemma validate_fields (u v : User) :
  name v = name u -> profile v = profile u -> validate v = validate u.
Proof. unfold validate. intros -> ->. reflexivity. Qed.

(** X23. The registration flow end to end.  After a sign-up as in X22
    (name within its limit, code lifetime not negative), a sign-in with the
    same credentials is refused with 403 as long as the email is not
    verified; a verification carrying the drawn code, possibly with blanks
    around it, no later than its expiry answers 200; after it the sign-in
    answers 200 with a token (the server having a secret and a positive
    token lifetime), and GET /me with that token answers 200 for the
    account. *)
Theorem signup_verify_signin_flow :
  forall (pe : ProcessEnv) (w1 w2 w3 : World) (b vb : Req.Body) (s : Store)
         (mail password code k : jsstring),
    Reachable pe s ->
    truthyStr (Req.email b) = Some mail -> isValidEmail mail = true ->
    truthyStr (Req.password b) = Some password ->
    isValid (validatePassword password) = true ->
    findOne (normalizeEmail mail) s = None ->
    exceeds 100 (trimOrNull (Req.name b)) = false ->
    0 <= CODE_EXPIRES_MIN pe ->
    truthyStr (Req.email vb) = Some mail ->
    truthyStr (Req.code vb) = Some code ->
    trim code = generateNumericCode w1 (CODE_LENGTH pe) ->
    now w2 <= addMinutes (now w1) (CODE_EXPIRES_MIN pe) ->
    JWT_SECRET pe = Some k -> truthy k = true -> 0 < JWT_EXPIRES_IN pe ->
    let s1 := snd (handle pe w1 (PostSignup b) s) in
    let s2 := snd (handle pe w2 (PostVerifyEmail vb) s1) in
    let signedIn := handle pe w3 (PostSignin b) s2 in
    handle pe w2 (PostSignin b) s1
    = (errorResponse 403 "Please verify your email before signing in", s1)
    /\ status (fst (handle pe w2 (PostVerifyEmail vb) s1)) = 200
    /\ status (fst signedIn) = 200
    /\ exists token u,
         field "token" (body (fst signedIn)) = Some (JToken token)
         /\ findOne (normalizeEmail mail) (snd signedIn) = Some u
         /\ emailVerified u = true /\ lastLogin u = Some (now w3)
         /\ handle pe w3 (GetMe (bearer token)) (snd signedIn)
            = (mkResponse 200
                 (JObj [("success", JBool true); ("user", toSafeObject u)]),
               snd signedIn).
Proof.
  intros pe w1 w2 w3 b vb s mail password code k Hr Hm Hv Hp Hpol Hf Hname
    Hmin Hvm Hvc Hcode Hexp Hk Hkt Hjwt s1 s2 signedIn.
  set (x := signedUpUser pe w1 s mail password (trimOrNull (Req.name b))).
  (* the sign-up *)
  assert (Hs1 : s1 = s ++ [x]).
  { subst s1. rewrite (signup_creates pe w1 b s mail password Hm Hv Hp Hpol Hf).
    rewrite Hname. reflexivity. }
  assert (Hr1 : Reachable pe s1) by (apply reach_step; exact Hr).
  destruct (signedUpUser_fields pe w1 s mail password (trimOrNull (Req.name b)))
    as (_ & Hxmail & Hxhash & _ & Hxver & Hxact & _ & _ & _ & _ & Hxcode).
  fold x in Hxmail, Hxhash, Hxver, Hxact, Hxcode.
  apply Z.ltb_ge in Hmin. rewrite Hmin in Hxcode.
  assert (Hf1 : findOne (normalizeEmail mail) s1 = Some x)
    by (rewrite Hs1; apply findOne_app_new; assumption).
  assert (Hin1 : In x s1) by apply (find_In _ _ _ Hf1).
  destruct (Reachable_valid pe s1 x Hr1 Hin1) as [Hxval Hnd1].
  assert (Hcmp : Bcrypt.compare password (passwordHash x) = true)
    by (rewrite Hxhash; apply compare_hash).
  (* the sign-in before verification *)
  split.
  { rewrite (signin_outcome pe w2 b s1 mail password x Hm Hv Hp Hf1 Hxval).
    rewrite Hcmp, Hxver. reflexivity. }
  (* the verification *)
  set (x2 := preSave (now w2) (set_emailVerification None (set_emailVerified true x))).
  assert (Hverify :
            handle pe w2 (PostVerifyEmail vb) s1
            = (messageResponse 200 "Email verified successfully! You can now sign in.",
               replaceById x2 s1)).
  { apply verifyEmail_succeeds with (mail := mail) (code := code)
      (pending := issuedCode pe w1); auto.
    unfold issuedCode. cbn [codeHash]. rewrite Hcode. reflexivity. }
  split; [rewrite Hverify; reflexivity|].
  assert (Hs2 : s2 = replaceById x2 s1) by (subst s2; rewrite Hverify; reflexivity).
  assert (Hr2 : Reachable pe s2) by (apply reach_step; exact Hr1).
  assert (Hid2 : _id x2 = _id x) by (unfold x2; rewrite preSave_id; reflexivity).
  assert (Hmail2 : email x2 = email x) by (unfold x2; rewrite preSave_email; reflexivity).
  assert (Hf2 : findOne (normalizeEmail mail) s2 = Some x2)
    by (rewrite Hs2; apply findOne_replace with (u := x); auto).
  assert (Hin2 : In x2 s2) by apply (find_In _ _ _ Hf2).
  destruct (Reachable_valid pe s2 x2 Hr2 Hin2) as [Hval2 Hnd2].
  assert (Hhash2 : passwordHash x2 = passwordHash x)
    by (unfold x2; rewrite preSave_passwordHash; reflexivity).
  assert (Hver2 : emailVerified x2 = true)
    by (unfold x2; rewrite preSave_emailVerified; reflexivity).
  assert (Hact2 : isActive x2 = true)
    by (unfold x2; rewrite preSave_isActive; exact Hxact).
  (* the sign-in *)
  set (x3 := preSave (now w3) (set_lastLogin (Some (now w3)) x2)).
  set (token := Jwt.Signed k
                  (Jwt.mkPayload (_id x2) (email x2) (Jwt.clockTimestamp (now w3))
                     (Jwt.clockTimestamp (now w3) + JWT_EXPIRES_IN pe))).
  assert (Hsignin :
            signedIn
            = (mkResponse 200
                 (JObj [("message", JStr (js "Signed in successfully"));
                        ("token", JToken token); ("user", signinUser x3)]),
               replaceById x3 s2)).
  { subst signedIn.
    rewrite (signin_outcome pe w3 b s2 mail password x2 Hm Hv Hp Hf2 Hval2).
    rewrite Hhash2, Hcmp, Hver2, Hk, (sign_Some _ _ _ _ _ Hkt). reflexivity. }
  rewrite Hsignin. cbn [fst snd status body].
  split; [reflexivity|].
  exists token, x3.
  assert (Hid3 : _id x3 = _id x2) by (unfold x3; rewrite preSave_id; reflexivity).
  assert (Hmail3 : email x3 = email x2)
    by (unfold x3; rewrite preSave_email; reflexivity).
  split; [reflexivity|].
  split; [apply findOne_replace with (u := x2); auto|].
  split; [unfold x3; rewrite preSave_emailVerified; exact Hver2|].
  split; [unfold x3; rewrite preSave_lastLogin; reflexivity|].
  apply getMe_active with (reqUser := mkAuthUser (_id x2) (email x2)).
  - apply (authMiddleware_bearer pe w3 k); auto.
    + cbn [Jwt.exp]. lia.
    + cbn [Jwt.email]. rewrite Hmail2, Hxmail. apply pattern_truthy. exact Hv.
  - cbn [AuthMiddleware.id].
    apply findById_saved with (u := x2); [apply findById_In; auto | exact Hid3].
  - unfold x3. rewrite preSave_isActive. exact Hact2.
Qed.

Lemma signup_verify_signin_flow_witness :
  status (fst (handle demoEnv (demoWorld 3000)
                 (PostSignin (signupBody "a@x.com" "Abcd123!"))
                 (snd (handle demoEnv (demoWorld 2000)
                         (PostVerifyEmail (codeBody "a@x.com" " 123456 "))
                         (snd (handle demoEnv (demoWorld 1000)
                                 (PostSignup (signupBody "a@x.com" "Abcd123!"))
                                 [])))))) = 200.
Proof.
  refine (proj1 (proj2 (proj2
    (signup_verify_signin_flow demoEnv (demoWorld 1000) (demoWorld 2000)
       (demoWorld 3000) (signupBody "a@x.com" "Abcd123!")
       (codeBody "a@x.com" " 123456 ") [] (js "a@x.com") (js "Abcd123!")
       (js " 123456 ") (js "secret") (reach_empty demoEnv)
       _ _ _ _ _ _ _ _ _ _ _ _ _ _))));
    vm_compute; try reflexivity; discriminate.
Defined.

(* ------------------------------------------------------------------------- *)
(** ** Tokens issued by sign-in *)
(* ------------------------------------------------------------------------- *)

(** What a sign-in answered with 200 has done. *)
Lemma signin_200_inv (pe : ProcessEnv) (w : World) (b : Req.Body) (s : Store) :
  status (fst (handle pe w (PostSignin b) s)) = 200 ->
  exists mail password user k,
    truthyStr (Req.email b) = Some mail
    /\ truthyStr (Req.password b) = Some password
    /\ isValidEmail mail = true
    /\ findOne (normalizeEmail mail) s = Some user
    /\ Bcrypt.compare password (passwordHash user) = true
    /\ emailVerified user = true
    /\ JWT_SECRET pe = Some k /\ truthy k = true
    /\ handle pe w (PostSignin b) s
       = (mkResponse 200
            (JObj [("message", JStr (js "Signed in successfully"));
                   ("token",
                    JToken
                      (Jwt.Signed k
                         (Jwt.mkPayload (_id user) (email user)
                            (Jwt.clockTimestamp (now w))
                            (Jwt.clockTimestamp (now w) + JWT_EXPIRES_IN pe))));
                   ("user",
                    signinUser
                      (preSave (now w) (set_lastLogin (Some (now w)) user)))]),
          replaceById (preSave (now w) (set_lastLogin (Some (now w)) user)) s).
Proof.
  unfold_auth_route. repeat break_match; reduce_response;
    intros H; try discriminate H.
  match goal with Hs : save _ _ _ = inl _ |- _ =>
    apply save_inl in Hs; destruct Hs as [-> ->] end.
  match goal with Hs : Jwt.sign _ _ _ _ _ = Some _ |- _ =>
    destruct (sign_inv _ _ _ _ _ _ Hs) as (k & Hk & Hkt & ->) end.
  do 4 eexists. repeat split; eauto;
    match goal with
    | Hn : negb ?x = false |- ?x = true =>
        destruct x; [reflexivity | discriminate Hn]
    end.
Qed.

Lemma signin_token (pe : ProcessEnv) (w : World) (b : Req.Body) (s : Store)
    (token : Jwt.Token) :
  status (fst (handle pe w (PostSignin b) s)) = 200 ->
  field "token" (body (fst (handle pe w (PostSignin b) s)))
  = Some (JToken token) ->
  exists mail u k,
    truthyStr (Req.email b) = Some mail /\ isValidEmail mail = true
    /\ findOne (normalizeEmail mail) s = Some u
    /\ JWT_SECRET pe = Some k /\ truthy k = true
    /\ token = Jwt.Signed k
                 (Jwt.mkPayload (_id u) (email u) (Jwt.clockTimestamp (now w))
                    (Jwt.clockTimestamp (now w) + JWT_EXPIRES_IN pe)).
Proof.
  intros H200 Htoken.
  destruct (signin_200_inv pe w b s H200)
    as (mail & password & u & k & Hm & _ & Hv & Hf & _ & _ & Hk & Hkt & Hout).
  rewrite Hout in Htoken. cbn in Htoken. injection Htoken as <-.
  exists mail, u, k. auto 7.
Qed.

Lemma verifyToken_signed (pe : ProcessEnv) (w : World) (k : jsstring)
    (payload : Jwt.Payload) :
  JWT_SECRET pe = Some k -> truthy k = true ->
  verifyToken pe w (Jwt.Signed k payload)
  = if Jwt.exp payload <=? Jwt.clockTimestamp (now w)
    then inr (AppError "Your session has expired. Please sign in again." 401)
    else inl payload.
Proof.
  intros Hk Hkt. unfold verifyToken, Jwt.verify.
  rewrite Hk, Hkt, jseqb_refl. cbn [andb].
  destruct (Jwt.exp payload <=? Jwt.clockTimestamp (now w)); reflexivity.
Qed.

Lemma clock_within (issued t window : Z) :
  t + 1000 <= issued + 1000 * window ->
  Jwt.clockTimestamp t < Jwt.clockTimestamp issued + window.
Proof.
  intros H. unfold Jwt.clockTimestamp.
  replace (issued / 1000 + window) with ((issued + window * 1000) / 1000)
    by (apply Z.div_add; lia).
  apply Z.lt_le_trans with ((t + 1 * 1000) / 1000).
  - rewrite Z.div_add by lia. lia.
  - apply Z.div_le_mono; lia.
Qed.

Lemma clock_elapsed (issued t window : Z) :
  issued + 1000 * window <= t ->
  Jwt.clockTimestamp issued + window <= Jwt.clockTimestamp t.
Proof.
  intros H. unfold Jwt.clockTimestamp.
  replace (issued / 1000 + window) with ((issued + window * 1000) / 1000)
    by (apply Z.div_add; lia).
  apply Z.div_le_mono; lia.
Qed.

(** C7, as stated, fails: the sign-in at 2999 ms issues a token for account
    1 under the default window of seven days; at 604802000 ms the window
    has not elapsed, and the token is refused as expired. *)
Lemma C7_token_is_refused_within_the_window :
  exists token,
    field "token"
      (body (fst (handle demoEnv (demoWorld 2999)
                    (PostSignin (signupBody "a@x.com" "Abcd123!"))
                    verifiedAccount)))
    = Some (JToken token)
    /\ 604802000 < 2999 + 1000 * JWT_EXPIRES_IN demoEnv
    /\ verifyToken demoEnv (demoWorld 604802000) token
       = inr (AppError "Your session has expired. Please sign in again." 401).
Proof.
  eexists. split; [vm_compute; reflexivity|].
  split; vm_compute; reflexivity.
Qed.

(** C7 (amended).  A sign-in answered with 200 has found the account of the
    email it was given, and the token in its answer is for the id and email
    of that account.  Expiry is told on the clock in whole seconds: the
    token is verified to that id and email, and [authMiddleware] attaches
    them to the request, as long as the second of the clock is before the
    second of the sign-in plus the configured window, which covers every
    instant up to one second before the window has elapsed; from that
    second on, and so whenever the window has elapsed, verification fails
    with the session-expired error. *)
Theorem C7_token_round_trip :
  forall (pe : ProcessEnv) (w0 w : World) (b : Req.Body) (s : Store)
         (token : Jwt.Token),
    status (fst (handle pe w0 (PostSignin b) s)) = 200 ->
    field "token" (body (fst (handle pe w0 (PostSignin b) s)))
    = Some (JToken token) ->
    exists mail u,
      truthyStr (Req.email b) = Some mail
      /\ findOne (normalizeEmail mail) s = Some u
      /\ (Jwt.clockTimestamp (now w)
          < Jwt.clockTimestamp (now w0) + JWT_EXPIRES_IN pe ->
          (exists payload,
             verifyToken pe w token = inl payload
             /\ Jwt.id payload = _id u /\ Jwt.email payload = email u)
          /\ authMiddleware pe w (bearer token)
             = inl (mkAuthUser (_id u) (email u)))
      /\ (now w + 1000 <= now w0 + 1000 * JWT_EXPIRES_IN pe ->
          exists payload,
            verifyToken pe w token = inl payload
            /\ Jwt.id payload = _id u /\ Jwt.email payload = email u)
      /\ (Jwt.clockTimestamp (now w0) + JWT_EXPIRES_IN pe
          <= Jwt.clockTimestamp (now w) ->
          verifyToken pe w token
          = inr (AppError "Your session has expired. Please sign in again." 401))
      /\ (now w0 + 1000 * JWT_EXPIRES_IN pe <= now w ->
          verifyToken pe w token
          = inr (AppError "Your session has expired. Please sign in again." 401)).
Proof.
  intros pe w0 w b s token H200 Htoken.
  destruct (signin_200_inv pe w0 b s H200)
    as (mail & password & u & k & Hm & _ & Hv & Hf & _ & _ & Hk & Hkt & Hout).
  rewrite Hout in Htoken. cbn in Htoken. injection Htoken as <-.
  assert (Hmail : truthy (email u) = true).
  { destruct (find_In _ _ _ Hf) as [_ He]. apply byEmail_eq in He.
    rewrite He. apply pattern_truthy. exact Hv. }
  set (payload := Jwt.mkPayload (_id u) (email u) (Jwt.clockTimestamp (now w0))
                    (Jwt.clockTimestamp (now w0) + JWT_EXPIRES_IN pe)).
  assert (Hvalid : Jwt.clockTimestamp (now w)
                   < Jwt.clockTimestamp (now w0) + JWT_EXPIRES_IN pe ->
                   verifyToken pe w (Jwt.Signed k payload) = inl payload).
  { intros Hlt. rewrite (verifyToken_signed pe w k payload Hk Hkt).
    apply Z.leb_gt in Hlt. unfold payload at 1. cbn [Jwt.exp].
    rewrite Hlt. reflexivity. }
  assert (Hexpired : Jwt.clockTimestamp (now w0) + JWT_EXPIRES_IN pe
                     <= Jwt.clockTimestamp (now w) ->
                     verifyToken pe w (Jwt.Signed k payload)
                     = inr (AppError
                              "Your session has expired. Please sign in again."
                              401)).
  { intros Hle. rewrite (verifyToken_signed pe w k payload Hk Hkt).
    apply Z.leb_le in Hle. unfold payload at 1. cbn [Jwt.exp].
    rewrite Hle. reflexivity. }
  exists mail, u. split; [exact Hm|]. split; [exact Hf|].
  split; [|split; [|split]].
  - intros Hlt. split.
    + exists payload. split; [apply Hvalid; exact Hlt | split; reflexivity].
    + apply authMiddleware_bearer; auto.
  - intros Hms. exists payload.
    split; [apply Hvalid, clock_within; exact Hms | split; reflexivity].
  - exact Hexpired.
  - intros Hms. apply Hexpired, clock_elapsed. exact Hms.
Qed.

(** The token of the sign-in at 2999 ms, under the default window of seven
    days: accepted at 604801999 ms, refused at 604802000 ms. *)
Lemma C7_token_round_trip_witness :
  exists token,
    field "token"
      (body (fst (handle demoEnv (demoWorld 2999)
                    (PostSignin (signupBody "a@x.com" "Abcd123!"))
                    verifiedAccount)))
    = Some (JToken token)
    /\ authMiddleware demoEnv (demoWorld 604801999) (bearer token)
       = inl (mkAuthUser 1%N (js "a@x.com"))
    /\ verifyToken demoEnv (demoWorld 604802000) token
       = inr (AppError "Your session has expired. Please sign in again." 401).
Proof.
  eexists. split; [vm_compute; reflexivity|].
  assert (H200 : status (fst (handle demoEnv (demoWorld 2999)
                                (PostSignin (signupBody "a@x.com" "Abcd123!"))
                                verifiedAccount)) = 200)
    by (vm_compute; reflexivity).
  split.
  - destruct (C7_token_round_trip demoEnv (demoWorld 2999)
                (demoWorld 604801999) (signupBody "a@x.com" "Abcd123!")
                verifiedAccount _ H200 ltac:(vm_compute; reflexivity))
      as (mail & u & Hm & Hf & Hvalid & _).
    destruct (Hvalid ltac:(vm_compute; reflexivity)) as [_ Ha].
    rewrite Ha. vm_compute in Hm. injection Hm as <-.
    vm_compute in Hf. injection Hf as <-. reflexivity.
  - destruct (C7_token_round_trip demoEnv (demoWorld 2999)
                (demoWorld 604802000) (signupBody "a@x.com" "Abcd123!")
                verifiedAccount _ H200 ltac:(vm_compute; reflexivity))
      as (mail & u & _ & _ & _ & _ & Hexpired & _).
    apply Hexpired. vm_compute. discriminate.
Defined.

(* ------------------------------------------------------------------------- *)
(** ** The password-reset flow and the resending of codes *)
(* ------------------------------------------------------------------------- *)













(* ------------------------------------------------------------------------- *)
(** ** The protected routes *)
(* ------------------------------------------------------------------------- *)




(** X27. Tokens are not revoked.  The token of a sign-in to an active
    account keeps giving access to GET /me, until it expires, through any
    later requests, by anyone: logging out, resetting the password,
    updating the profile.  What ends it before its expiry is the
    deactivation of the account by DELETE /me with a token for it, and the
    removal of the account by a TTL index. *)
Theorem token_survives_logout_and_password_reset :
  forall (pe : ProcessEnv) (events : list Event) (s : Store) (w0 w : World)
         (sb : Req.Body) (mail : jsstring) (u : User) (token : Jwt.Token),
    Deployed pe s -> inRange pe (Served w0 (PostSignin sb)) ->
    truthyStr (Req.email sb) = Some mail ->
    findOne (normalizeEmail mail) s = Some u -> isActive u = true ->
    status (fst (handle pe w0 (PostSignin sb) s)) = 200 ->
    field "token" (body (fst (handle pe w0 (PostSignin sb) s)))
    = Some (JToken token) ->
    Forall (inRange pe) events -> Forall (keepsActive pe (_id u)) events ->
    Jwt.clockTimestamp (now w)
    < Jwt.clockTimestamp (now w0) + JWT_EXPIRES_IN pe ->
    let s' := runDb pe events (snd (handle pe w0 (PostSignin sb) s)) in
    exists u',
      findById (_id u) s' = Some u' /\ email u' = email u
      /\ handle pe w (GetMe (bearer token)) s'
         = (mkResponse 200
              (JObj [("success", JBool true); ("user", toSafeObject u')]),
            s').
Proof.
  intros pe events s w0 w sb mail u token Hd Hr0 Hm Hf Hact H200 Htoken
    Hrange Hkeep Hclock s'.
  destruct (Deployed_Sound pe s Hd) as (Hok & _ & _).
  destruct (signin_token pe w0 sb s token H200 Htoken)
    as (mail' & u0 & k & Hm' & Hv & Hf' & Hk & Hkt & ->).
  assert (mail' = mail) by congruence. subst mail'.
  assert (u0 = u) by congruence. subst u0.
  destruct (find_In _ _ _ Hf) as [Hin He]. apply byEmail_eq in He.
  assert (Hst : exists u',
             findById (_id u)
               (runDb pe (Served w0 (PostSignin sb) :: events) s) = Some u'
             /\ isActive u' = true /\ email u' = email u).
  { apply (runDb_stable pe (fun x => isActive x = true /\ email x = email u)
             (_id u) (keepsActive pe (_id u))) with (u := u).
    - intros w1 r code x x' Ha Hid Hfr [Hx Hxm].
      split; [|rewrite (fr_email _ _ _ _ _ _ Hfr); exact Hxm].
      destruct (Bool.bool_dec (isActive x') (isActive x)) as [E | E];
        [congruence|].
      destruct (fr_isActive _ _ _ _ _ _ Hfr E) as ([c ->] & _).
      assert (Hne : x' <> x) by congruence.
      destruct (fr_target _ _ _ _ _ _ Hfr Hne) as (reqUser & Hauth & Hru).
      exfalso. apply (Ha reqUser Hauth). congruence.
    - intros t j Hj. exact Hj.
    - exact Hok.
    - constructor; [exact I | exact Hkeep].
    - apply findById_In; [apply Hok | exact Hin].
    - auto. }
  destruct Hst as (u' & Hf1 & Hact' & Hmail').
  change (runDb pe (Served w0 (PostSignin sb) :: events) s) with s' in Hf1.
  exists u'. split; [exact Hf1|]. split; [exact Hmail'|].
  apply getMe_active with (reqUser := mkAuthUser (_id u) (email u)); auto.
  apply authMiddleware_bearer; auto.
  cbn [Jwt.email]. rewrite He. apply pattern_truthy. exact Hv.
Qed.

(** The token of the sign-in at 3000 is still accepted at 7000, after a
    logout and a password reset. *)
Lemma token_survives_logout_and_password_reset_witness :
  status
    (fst (handle demoEnv (demoWorld 7000) (GetMe (bearer demoToken))
            (runDb demoEnv
               [Served (demoWorld 4000) PostLogout;
                Served (demoWorld 5000) (PostForgotPassword (mailBody "a@x.com"));
                Served (demoWorld 6000)
                  (PostResetPassword (resetBody "a@x.com" "123456" "Newpass1!"))]
               (snd (handle demoEnv (demoWorld 3000)
                       (PostSignin (signupBody "a@x.com" "Abcd123!"))
                       verifiedAccount))))) = 200.
Proof.
  destruct (findOne (normalizeEmail (js "a@x.com")) verifiedAccount)
    as [u|] eqn:Hu; [|vm_compute in Hu; discriminate Hu].
  assert (Hact : isActive u = true).
  { assert (Hu' := Hu). vm_compute in Hu'. injection Hu' as <-. reflexivity. }
  destruct (token_survives_logout_and_password_reset demoEnv
              [Served (demoWorld 4000) PostLogout;
               Served (demoWorld 5000) (PostForgotPassword (mailBody "a@x.com"));
               Served (demoWorld 6000)
                 (PostResetPassword (resetBody "a@x.com" "123456" "Newpass1!"))]
              verifiedAccount (demoWorld 3000) (demoWorld 7000)
              (signupBody "a@x.com" "Abcd123!") (js "a@x.com") u demoToken
              verifiedAccount_Deployed)
    as (u' & _ & _ & H); try exact Hu; try exact Hact.
  - in_range.
  - reflexivity.
  - vm_compute. reflexivity.
  - vm_compute. reflexivity.
  - in_range.
  - repeat constructor.
  - vm_compute. reflexivity.
  - cbv zeta in H. rewrite H. reflexivity.
Defined.

Lemma validate_nil (u : User) :
  validate u = [] ->
  exceeds 100 (name u) = false
  /\ exceeds 50 (firstName (profile u)) = false
  /\ exceeds 50 (lastName (profile u)) = false.
Proof.
  unfold validate.
  destruct (exceeds 100 (name u)), (exceeds 50 (firstName (profile u))),
    (exceeds 50 (lastName (profile u))); simpl; intros H;
    try discriminate; auto.
Qed.

Lemma suppliedName_assign (v : JsValue) (u : User) :
  castTrimmed (name u) = name u ->
  name (match v with
        | JsUndefined => u
        | _ => assign_name (orElse (optTrim v) None) u
        end) = suppliedName v (name u).
Proof.
  intros Hn. destruct v as [| |x]; try reflexivity.
  unfold assign_name, orElse, suppliedName. cbn [optTrim truthy_opt name set_name].
  destruct (truthy (trim x)); [|reflexivity].
  cbn [castTrimmed option_map]. rewrite trim_idem. reflexivity.
Qed.

(** X28. Updating the name through PUT /me, for a valid token of an active
    account.  A request that leaves [name] out keeps the stored name; [null]
    or a blank string clears it (where a blank profile field would be
    kept); any other string is stored trimmed.  If the resulting name is
    longer than 100 characters the answer is 400 with the message "name
    cannot exceed 100 characters" and nothing is stored; otherwise the
    answer is 200 and carries the public view of the stored document, whose
    profile is untouched. *)
Theorem putMe_name_update :
  forall (pe : ProcessEnv) (w : World) (c : Req.Credentials) (v : JsValue)
         (s : Store) (reqUser : AuthUser) (u : User),
    Reachable pe s -> authMiddleware pe w c = inl reqUser ->
    findById (AuthMiddleware.id reqUser) s = Some u -> isActive u = true ->
    let out := handle pe w (PutMe c (nameBody v)) s in
    if exceeds 100 (suppliedName v (name u)) then
      fst out = errorHandler pe (SaveFailed (ValidationError [("name", 100)]))
      /\ classify (SaveFailed (ValidationError [("name", 100)]))
         = ("name cannot exceed 100 characters", 400)
      /\ status (fst out) = 400 /\ snd out = s
    else
      status (fst out) = 200
      /\ exists u',
           findById (AuthMiddleware.id reqUser) (snd out) = Some u'
           /\ name u' = suppliedName v (name u)
           /\ profile u' = profile u
           /\ field "user" (body (fst out)) = Some (toSafeObject u').
Proof.
  intros pe w c v s reqUser u Hr Ha Hf Hact out.
  destruct (find_In _ _ _ Hf) as [Hin _].
  destruct (Reachable_ok pe s Hr) as (Hnd & Hok & _).
  rewrite Forall_forall in Hok. destruct (Hok u Hin) as (Hcast & _ & _ & Hval).
  destruct (validate_nil u Hval) as (_ & Hfirst & Hlast).
  set (u1 := match v with
             | JsUndefined => u
             | _ => assign_name (orElse (optTrim v) None) u
             end).
  assert (Hname1 : name u1 = suppliedName v (name u))
    by apply (suppliedName_assign v u Hcast).
  assert (Hprof1 : profile u1 = profile u) by (unfold u1; destruct v; reflexivity).
  assert (Hval1 : validate u1
                  = if exceeds 100 (suppliedName v (name u))
                    then [("name", 100)] else []).
  { unfold validate. rewrite Hname1, Hprof1, Hfirst, Hlast, !app_nil_r.
    reflexivity. }
  assert (Hout : out = match save (now w) u1 s with
                       | inr e => (errorHandler pe (SaveFailed e), s)
                       | inl (saved, s') =>
                           (mkResponse 200
                              (JObj [("success", JBool true);
                                     ("message",
                                      JStr (js "Profile updated successfully"));
                                     ("user", toSafeObject saved)]), s')
                       end).
  { subst out. unfold handle, ProtectedRoutes.putMe.
    rewrite Ha, Hf, Hact. unfold u1. destruct v; reflexivity. }
  rewrite Hout. unfold save. rewrite Hval1.
  destruct (exceeds 100 (suppliedName v (name u))).
  - cbn [fst snd]. split; [reflexivity|]. split; [vm_compute; reflexivity|].
    split; [|reflexivity].
    rewrite errorHandler_status_any. reflexivity.
  - cbn [fst snd status body]. split; [reflexivity|].
    exists (preSave (now w) u1). split.
    + apply findById_saved with (u := u); [exact Hf|].
      rewrite preSave_id. unfold u1. destruct v; reflexivity.
    + rewrite preSave_name, preSave_profile. auto.
Qed.

Lemma putMe_name_update_witness :
  exists u',
    findById 1%N
      (snd (handle demoEnv (demoWorld 5000)
              (PutMe (bearer demoToken) (nameBody (JsString (js "  "))))
              withFirstName)) = Some u'
    /\ name u' = None
    /\ firstName (profile u') = Some (js "Ada").
Proof.
  assert (Hu : exists u,
             findById 1%N withFirstName = Some u /\ isActive u = true
             /\ firstName (profile u) = Some (js "Ada"))
    by (eexists; split; [|split]; vm_compute; reflexivity).
  destruct Hu as (u & Hu & Hact & Hfirst).
  assert (H := putMe_name_update demoEnv (demoWorld 5000) (bearer demoToken)
                 (JsString (js "  ")) withFirstName
                 (mkAuthUser 1%N (js "a@x.com")) u withFirstName_Reachable
                 eq_refl Hu Hact).
  cbv zeta in H. cbn [suppliedName exceeds] in H.
  replace (truthy (trim (js "  "))) with false in H by (vm_compute; reflexivity).
  cbn [exceeds] in H. destruct H as (_ & u' & Hf' & Hn & Hp & _).
  exists u'. split; [exact Hf'|]. split; [exact Hn|]. rewrite Hp. exact Hfirst.
Defined.

(* ------------------------------------------------------------------------- *)
(** ** Finding an account by email *)
(* ------------------------------------------------------------------------- *)

Lemma findByEmail_unique (e : jsstring) (s : Store) :
  NoDup (map email s) ->
  find (fun u => byEmail e u && isActive u) s
  = match findOne e s with
    | Some u => if isActive u then Some u else None
    | None => None
    end.
Proof.
  unfold findOne. induction s as [|v s IH]; simpl; [reflexivity|].
  intros Hnd. inversion Hnd as [|? ? Hnotin Hnd']; subst.
  destruct (byEmail e v) eqn:He; cbn [andb]; [|auto].
  destruct (isActive v); [reflexivity|].
  apply byEmail_eq in He. subst e.
  destruct (find _ s) as [x|] eqn:Hx; [|reflexivity].
  exfalso. apply Hnotin. apply find_some in Hx. destruct Hx as [Hin Hb].
  apply andb_true_iff in Hb. destruct Hb as [Hb _]. apply byEmail_eq in Hb.
  rewrite <- Hb. apply in_map. exact Hin.
Qed.

(** X29. The model's [findByEmail] normalises its argument, so it does not
    tell apart the case and outer blanks of the address, and it returns
    only active accounts.  On a collection the server can reach it is the
    look-up the handlers use, [findOne] on the normalised address, followed
    by the test of the active flag: a deactivated account is found by
    sign-in but not by [findByEmail]. *)
Theorem findByEmail_is_findOne_on_active :
  forall (pe : ProcessEnv) (s : Store) (mail : jsstring),
    findByEmail mail s = findByEmail (normalizeEmail mail) s
    /\ (forall u, findByEmail mail s = Some u ->
                  In u s /\ isActive u = true /\ email u = normalizeEmail mail)
    /\ (Reachable pe s ->
        findByEmail mail s
        = match findOne (normalizeEmail mail) s with
          | Some u => if isActive u then Some u else None
          | None => None
          end).
Proof.
  intros pe s mail. unfold findByEmail.
  fold (normalizeEmail mail). fold (normalizeEmail (normalizeEmail mail)).
  rewrite normalizeEmail_idem.
  split; [reflexivity|]. split.
  - intros u Hu. apply find_some in Hu. destruct Hu as [Hin Hb].
    apply andb_true_iff in Hb. destruct Hb as [He Ha].
    apply byEmail_eq in He. auto.
  - intros Hr. apply findByEmail_unique. apply (Reachable_emails pe s Hr).
Qed.

(* ------------------------------------------------------------------------- *)
(** ** What a sign-in tells *)
(* ------------------------------------------------------------------------- *)

(** X30. A sign-in tells nothing to someone who does not know the password.
    Whenever the submitted password does not verify against an account
    stored under the address (because there is no such account, or because
    the password is wrong), the answer is the same 401 response and the
    collection is unchanged, whether or not the account exists, is verified
    or is active.  Conversely an answer of 200 or 403 is given only for an
    existing account whose password the submission verified, and 200 only
    if its email is verified. *)
Theorem signin_tells_nothing_without_the_password :
  forall (pe : ProcessEnv) (w : World) (b : Req.Body) (s : Store)
         (mail password : jsstring),
    truthyStr (Req.email b) = Some mail -> isValidEmail mail = true ->
    truthyStr (Req.password b) = Some password ->
    ((forall u, findOne (normalizeEmail mail) s = Some u ->
                Bcrypt.compare password (passwordHash u) = false) ->
     handle pe w (PostSignin b) s
     = (errorResponse 401 "Invalid email or password", s))
    /\ (status (fst (handle pe w (PostSignin b) s)) = 200
        \/ status (fst (handle pe w (PostSignin b) s)) = 403 ->
        exists u,
          findOne (normalizeEmail mail) s = Some u
          /\ Bcrypt.compare password (passwordHash u) = true
          /\ (status (fst (handle pe w (PostSignin b) s)) = 200 ->
              emailVerified u = true)).
Proof.
  intros pe w b s mail password Hm Hv Hp. split.
  - intros Hwrong. unfold_auth_route. rewrite Hm, Hv, Hp. cbn [negb].
    destruct (findOne (normalizeEmail mail) s) as [u|]; [|reflexivity].
    rewrite (Hwrong u eq_refl). reflexivity.
  - unfold_auth_route. rewrite Hm, Hv, Hp. cbn [negb].
    destruct (findOne (normalizeEmail mail) s) as [u|];
      [|cbn; intros [H | H]; discriminate H].
    destruct (Bcrypt.compare password (passwordHash u)) eqn:Hc; cbn [negb];
      [|cbn; intros [H | H]; discriminate H].
    intros Hs. exists u. split; [reflexivity|]. split; [exact Hc|].
    destruct (emailVerified u); [reflexivity|]. cbn. discriminate.
Qed.

Lemma signin_tells_nothing_without_the_password_witness :
  handle demoEnv (demoWorld 3000)
    (PostSignin (signupBody "nobody@x.com" "Abcd123!")) verifiedAccount
  = handle demoEnv (demoWorld 3000)
      (PostSignin (signupBody "a@x.com" "Wrong123!")) verifiedAccount.
Proof.
  rewrite (proj1 (signin_tells_nothing_without_the_password demoEnv
                    (demoWorld 3000) (signupBody "nobody@x.com" "Abcd123!")
                    verifiedAccount (js "nobody@x.com") (js "Abcd123!")
                    eq_refl eq_refl eq_refl)).
  - rewrite (proj1 (signin_tells_nothing_without_the_password demoEnv
                      (demoWorld 3000) (signupBody "a@x.com" "Wrong123!")
                      verifiedAccount (js "a@x.com") (js "Wrong123!")
                      eq_refl eq_refl eq_refl)); [reflexivity|].
    intros u Hu. vm_compute in Hu. injection Hu as <-. vm_compute. reflexivity.
  - intros u Hu. vm_compute in Hu. discriminate Hu.
Defined.
